(** * Form validation: the validators and the submit / clear state machine

    Shallow embedding of [form_validation.py] (the validate-on-submit form,
    "variant A") and [form_validation2.py] (the validate-on-every-change
    form, "variant B").

    Conventions of the embedding:
    - a Python [str] is the list of its code points ([Py.str]);
    - a [datetime.date] is its proleptic Gregorian ordinal
      ([date.toordinal()]), so comparisons of dates are comparisons in [Z]
      and [d + timedelta(days=n)] is an addition with the library's range
      check;
    - a raised exception is the [Raise] case of [Py.result];
    - [st.session_state] is threaded explicitly through a state monad. *)

From Stdlib Require Import ZArith NArith List String Ascii Bool Lia.
From stdpp Require Import base option list strings gmap.
Import ListNotations.

Set Default Proof Using "Type".

(* ===================================================================== *)
(** * The Python layer: strings, exceptions, regular expressions, dates   *)
(* ===================================================================== *)

Module Py.

(** ** Strings *)

(** A [str] is a sequence of Unicode code points. *)
Definition str : Type := list N.

(** An ASCII literal of the source. *)
Definition lit (s : string) : str := map N_of_ascii (list_ascii_of_string s).

(** Code point of an ASCII character. *)
Definition chr (a : ascii) : N := N_of_ascii a.

(** Truth value of a string: [bool(s)], false exactly for the empty one. *)
Definition truthy_str (s : str) : bool :=
  match s with [] => false | _ :: _ => true end.

(** ** Exceptions and results *)

Inductive exn : Type :=
| ValueError | TypeError | OverflowError | AttributeError | KeyError
| RerunException.

Inductive result (A : Type) : Type :=
| Ok (a : A)
| Raise (e : exn).
Arguments Ok {A} a.
Arguments Raise {A} e.

Definition rbind {A B} (m : result A) (k : A -> result B) : result B :=
  match m with Ok a => k a | Raise e => Raise e end.

(** [try: body / except ValueError: handler]. *)
Definition try_except_ValueError {A} (body : result A) (handler : result A)
  : result A :=
  match body with
  | Raise ValueError => handler
  | r => r
  end.

(** ** Dynamically typed values

    The values that reach the validators and the session state: the
    widgets produce strings, integers and dates; flags are booleans. *)

Inductive value : Type :=
| VNone
| VBool (b : bool)
| VInt (z : Z)
| VStr (s : str)
| VDate (ordinal : Z)
| VList (items : list str).

(** [bool(v)]: dates are always true, numbers when non-zero, strings and
    lists when non-empty. *)
Definition truthy (v : value) : bool :=
  match v with
  | VNone => false
  | VBool b => b
  | VInt z => negb (z =? 0)%Z
  | VStr s => truthy_str s
  | VDate _ => true
  | VList l => match l with [] => false | _ :: _ => true end
  end.

(** [len(v)]. *)
Definition len (v : value) : result nat :=
  match v with
  | VStr s => Ok (length s)
  | VList l => Ok (length l)
  | VNone | VBool _ | VInt _ | VDate _ => Raise TypeError
  end.

(** *** Ordering

    Numbers are ordered with numbers ([bool] is a subclass of [int]),
    dates with dates, sequences lexicographically with sequences of the
    same type; every other comparison raises [TypeError]. *)

Fixpoint lex_compare {A} (cmp : A -> A -> comparison) (l1 l2 : list A)
  : comparison :=
  match l1, l2 with
  | [], [] => Eq
  | [], _ :: _ => Lt
  | _ :: _, [] => Gt
  | x :: l1', y :: l2' =>
      match cmp x y with
      | Eq => lex_compare cmp l1' l2'
      | c => c
      end
  end.

Definition of_bool (b : bool) : Z := if b then 1%Z else 0%Z.

Definition compare (a b : value) : result comparison :=
  match a, b with
  | VInt x, VInt y => Ok (x ?= y)%Z
  | VInt x, VBool y => Ok (x ?= of_bool y)%Z
  | VBool x, VInt y => Ok (of_bool x ?= y)%Z
  | VBool x, VBool y => Ok (of_bool x ?= of_bool y)%Z
  | VDate x, VDate y => Ok (x ?= y)%Z
  | VStr x, VStr y => Ok (lex_compare N.compare x y)
  | VList x, VList y => Ok (lex_compare (lex_compare N.compare) x y)
  | _, _ => Raise TypeError
  end.

Definition lt (a b : value) : result bool :=
  rbind (compare a b) (fun c => Ok match c with Lt => true | _ => false end).
Definition le (a b : value) : result bool :=
  rbind (compare a b) (fun c => Ok match c with Gt => false | _ => true end).
Definition gt (a b : value) : result bool :=
  rbind (compare a b) (fun c => Ok match c with Gt => true | _ => false end).
Definition ge (a b : value) : result bool :=
  rbind (compare a b) (fun c => Ok match c with Lt => false | _ => true end).

(** ** Character classes *)

Definition range (lo hi : ascii) (c : N) : bool :=
  (chr lo <=? c)%N && (c <=? chr hi)%N.

Definition one (a : ascii) (c : N) : bool := (c =? chr a)%N.

(** The letters of the name patterns. *)
Definition ascii_letter (c : N) : bool := range "A" "Z" c || range "a" "z" c.

(** A bracket expression [[...]]: the union of its items. *)
Definition bracket (items : list (N -> bool)) (c : N) : bool :=
  existsb (fun p => p c) items.

(** [\s] on a [str] pattern: the code points for which [str.isspace] holds. *)
Definition is_space (c : N) : bool :=
  ((9 <=? c) && (c <=? 13) || (28 <=? c) && (c <=? 32)
   || (c =? 133) || (c =? 160) || (c =? 5760)
   || (8192 <=? c) && (c <=? 8202)
   || (c =? 8232) || (c =? 8233) || (c =? 8239) || (c =? 8287)
   || (c =? 12288))%N.

(** ** Regular expressions

    The patterns of the two programs use character classes, concatenation,
    bounded and unbounded repetition and the anchors [^] and [$]; groups
    only serve as parentheses.  The programs only test whether [re.match]
    returns a match object, so matching is membership in the language of
    the pattern, decided by derivatives. *)

Inductive regex : Type :=
| Void                                        (* matches nothing *)
| Eps                                         (* the empty string *)
| Chars (p : N -> bool)                       (* one character of a class *)
| Cat (r1 r2 : regex)
| Alt (r1 r2 : regex)
| Repeat (r : regex) (lo : nat) (hi : option nat).   (* r{lo,hi} *)

Definition Opt (r : regex) : regex := Repeat r 0 (Some 1%nat).     (* r? *)
Definition Plus (r : regex) : regex := Repeat r 1 None.            (* r+ *)
Definition Exactly (n : nat) (r : regex) : regex := Repeat r n (Some n).
Definition AtLeast (n : nat) (r : regex) : regex := Repeat r n None.

Fixpoint nullable (r : regex) : bool :=
  match r with
  | Void => false
  | Eps => true
  | Chars _ => false
  | Cat r1 r2 => nullable r1 && nullable r2
  | Alt r1 r2 => nullable r1 || nullable r2
  | Repeat r lo _ => match lo with O => true | S _ => nullable r end
  end.

Fixpoint deriv (c : N) (r : regex) : regex :=
  match r with
  | Void => Void
  | Eps => Void
  | Chars p => if p c then Eps else Void
  | Cat r1 r2 =>
      if nullable r1 then Alt (Cat (deriv c r1) r2) (deriv c r2)
      else Cat (deriv c r1) r2
  | Alt r1 r2 => Alt (deriv c r1) (deriv c r2)
  | Repeat r lo hi =>
      match hi with
      | Some O => Void
      | _ => Cat (deriv c r) (Repeat r (Nat.pred lo) (option_map Nat.pred hi))
      end
  end.

(** The language of a pattern, declaratively: [matches r s] when the
    whole of [s] is matched by [r]. *)
Inductive matches : regex -> str -> Prop :=
| matches_eps : matches Eps []
| matches_chars p c : p c = true -> matches (Chars p) [c]
| matches_cat r1 r2 s1 s2 :
    matches r1 s1 -> matches r2 s2 -> matches (Cat r1 r2) (s1 ++ s2)
| matches_alt_l r1 r2 s : matches r1 s -> matches (Alt r1 r2) s
| matches_alt_r r1 r2 s : matches r2 s -> matches (Alt r1 r2) s
| matches_repeat_done r hi : matches (Repeat r 0 hi) []
| matches_repeat_more r lo hi s1 s2 :
    hi <> Some 0%nat ->
    matches r s1 ->
    matches (Repeat r (Nat.pred lo) (option_map Nat.pred hi)) s2 ->
    matches (Repeat r lo hi) (s1 ++ s2).

(** A pattern that [re.compile] accepts never asks for more repetitions
    at least than at most. *)
Fixpoint well_formed_regex (r : regex) : bool :=
  match r with
  | Void | Eps | Chars _ => true
  | Cat r1 r2 | Alt r1 r2 => well_formed_regex r1 && well_formed_regex r2
  | Repeat r lo hi =>
      well_formed_regex r
      && match hi with Some h => (lo <=? h)%nat | None => true end
  end.

(** The whole of [s] is in the language of [r]. *)
Fixpoint accepts (r : regex) (s : str) : bool :=
  match s with
  | [] => nullable r
  | c :: s' => accepts (deriv c r) s'
  end.

(** [s] without one final newline, when it ends with one. *)
Fixpoint chomp (s : str) : option str :=
  match s with
  | [] => None
  | [c] => if (c =? 10)%N then Some [] else None
  | c :: s' => option_map (cons c) (chomp s')
  end.

(** [re.match('^' r '$', s) is not None].  [re.match] anchors at the start
    of [s]; [$] matches at the end of the string and also just before a
    newline that ends the string. *)
Definition re_match (r : regex) (s : str) : bool :=
  accepts r s
  || match chomp s with Some s' => accepts r s' | None => false end.

(** [re.sub('[...]', '', s)]: every character of the class is removed. *)
Definition re_sub_class (cls : N -> bool) (s : str) : str :=
  List.filter (fun c => negb (cls c)) s.


(** [re.match] on a dynamically typed subject: only a string is searched. *)
Definition re_match_value (r : regex) (v : value) : result bool :=
  match v with
  | VStr s => Ok (re_match r s)
  | _ => Raise TypeError
  end.

(** [re.sub('[...]', '', v)]. *)
Definition re_sub_class_value (cls : N -> bool) (v : value) : result value :=
  match v with
  | VStr s => Ok (VStr (re_sub_class cls s))
  | _ => Raise TypeError
  end.

(** ** [int(...)] *)

Section IntParsing.

(** Decimal value of a non-ASCII code point of Unicode category Nd
    ([Py_UNICODE_TODECIMAL]), a table of the interpreter. *)
Variable to_decimal : N -> option Z.

Definition digit_value (c : N) : option Z :=
  if (c <? 128)%N then
    if range "0" "9" c then Some (Z.of_N c - 48)%Z else None
  else to_decimal c.

(** Digits after the first one: single underscores may separate them. *)
Fixpoint more_digits (acc : Z) (s : str) : option Z :=
  match s with
  | [] => Some acc
  | c :: t =>
      if one "_" c then
        match t with
        | d :: t' =>
            match digit_value d with
            | Some v => more_digits (10 * acc + v)%Z t'
            | None => None
            end
        | [] => None
        end
      else
        match digit_value c with
        | Some v => more_digits (10 * acc + v)%Z t
        | None => None
        end
  end.

Definition digits (s : str) : option Z :=
  match s with
  | [] => None
  | c :: t =>
      match digit_value c with
      | Some v => more_digits v t
      | None => None
      end
  end.

(** Whitespace that [int] skips around the number: the ASCII blanks and
    the non-ASCII Unicode whitespace (the ASCII separators 28 to 31 are
    whitespace for [\s] but not here). *)
Definition int_space (c : N) : bool :=
  if (c <? 128)%N then ((9 <=? c) && (c <=? 13) || (c =? 32))%N
  else is_space c.

Fixpoint lstrip (s : str) : str :=
  match s with
  | c :: t => if int_space c then lstrip t else s
  | [] => []
  end.

Definition strip (s : str) : str := rev (lstrip (rev (lstrip s))).

(** A reference reading of [int(s)] on a string, base 10: surrounding
    whitespace, an optional sign, then digits; [None] is the
    [ValueError]. *)
Definition parse_int (s : str) : option Z :=
  match strip s with
  | [] => None
  | c :: t =>
      if one "-" c then option_map Z.opp (digits t)
      else if one "+" c then digits t
      else digits (c :: t)
  end.

End IntParsing.

Section Int.

(** The interpreter's conversion of a string to an integer, [None] when
    it raises [ValueError].  The programs are verified for any such
    conversion; [parse_int] is the instance used in the examples. *)
Variable int_of_str : str -> option Z.

(** [int(v)]. *)
Definition int (v : value) : result Z :=
  match v with
  | VInt z => Ok z
  | VBool b => Ok (of_bool b)
  | VStr s =>
      match int_of_str s with Some z => Ok z | None => Raise ValueError end
  | VNone | VDate _ | VList _ => Raise TypeError
  end.

End Int.

(** ** Dates *)

Definition is_leap (y : Z) : bool :=
  ((y mod 4 =? 0) && (negb (y mod 100 =? 0) || (y mod 400 =? 0)))%Z.

Definition days_before_year (year : Z) : Z :=
  let y := (year - 1)%Z in (y * 365 + y / 4 - y / 100 + y / 400)%Z.

Definition DAYS_BEFORE_MONTH : list Z :=
  [-1; 0; 31; 59; 90; 120; 151; 181; 212; 243; 273; 304; 334]%Z.

Definition days_before_month (year month : Z) : Z :=
  (nth (Z.to_nat month) DAYS_BEFORE_MONTH 0
   + (if (month >? 2) && is_leap year then 1 else 0))%Z.

(** [date(year, month, day).toordinal()]. *)
Definition date (year month day : Z) : Z :=
  (days_before_year year + days_before_month year month + day)%Z.

(** [date.max.toordinal()], the ordinal of 9999-12-31. *)
Definition MAXORDINAL : Z := 3652059.

(** [d + timedelta(days=n)]. *)
Definition add_days (d n : Z) : result Z :=
  let o := (d + n)%Z in
  if (0 <? o)%Z && (o <=? MAXORDINAL)%Z then Ok o else Raise OverflowError.

(** ** The state monad of a script run

    A computation reads and writes a store of type [S] (the session
    state) and returns a value or raises; what was written before an
    exception stays written. *)

Definition M (S A : Type) : Type := S -> result A * S.

Definition ret {S A} (a : A) : M S A := fun s => (Ok a, s).

Definition bind {S A B} (m : M S A) (k : A -> M S B) : M S B :=
  fun s =>
    match m s with
    | (Ok a, s') => k a s'
    | (Raise e, s') => (Raise e, s')
    end.

Definition lift {S A} (r : result A) : M S A := fun s => (r, s).

(** [for x in l: body(x)]. *)
Fixpoint for_each {S A} (l : list A) (body : A -> M S unit) : M S unit :=
  match l with
  | [] => ret tt
  | x :: l' => bind (body x) (fun _ => for_each l' body)
  end.

End Py.

Declare Scope result_scope.
Delimit Scope result_scope with res.
Notation "'let!' x ':=' m 'in' k" := (Py.rbind m (fun x => k))
  (at level 10, x name, m at level 100, k at level 200) : result_scope.
Notation "'let!' ' p ':=' m 'in' k" :=
  (Py.rbind m (fun x => match x with p => k end))
  (at level 10, p pattern, m at level 100, k at level 200) : result_scope.

Declare Scope script_scope.
Delimit Scope script_scope with script.
Notation "'let*' x ':=' m 'in' k" := (Py.bind m (fun x => k))
  (at level 10, x name, m at level 100, k at level 200) : script_scope.
Notation "'let*' ' p ':=' m 'in' k" :=
  (Py.bind m (fun x => match x with p => k end))
  (at level 10, p pattern, m at level 100, k at level 200) : script_scope.
Notation "m ;;; k" := (Py.bind m (fun _ => k))
  (at level 100, k at level 200, right associativity) : script_scope.


(* ===================================================================== *)
(** * The Streamlit layer: session store, screen, widgets                 *)
(* ===================================================================== *)

Module St.
Import Py.

(** What a run writes on the page with [st.success], [st.error] and
    [st.warning]. *)
Inductive shown : Type :=
| Success (text : str)
| Error (text : str)
| Warning (text : str).

(** The state of a session: a dictionary kept across runs and the page
    being written. *)
Record state : Type := {
  store : gmap string value;
  screen : list shown;
}.

Definition with_store (f : gmap string value -> gmap string value)
  (s : state) : state :=
  {| store := f (store s); screen := screen s |}.

Definition show (x : shown) : M state unit :=
  fun s => (Ok tt, {| store := store s; screen := screen s ++ [x] |}).

Definition success (text : str) : M state unit := show (Success text).
Definition error (text : str) : M state unit := show (Error text).
Definition warning (text : str) : M state unit := show (Warning text).

(** [key in d]. *)
Definition contains (key : string) : M state bool :=
  fun s => (Ok (bool_decide (is_Some (store s !! key))), s).

(** [d.get(key, default)]. *)
Definition get (key : string) (default : value) : M state value :=
  fun s =>
    (Ok match store s !! key with Some v => v | None => default end, s).

(** [st.session_state.key]: the attribute of a missing key raises. *)
Definition attr (key : string) : M state value :=
  fun s =>
    match store s !! key with
    | Some v => (Ok v, s)
    | None => (Raise AttributeError, s)
    end.

(** [d[key]]. *)
Definition item (key : string) : M state value :=
  fun s =>
    match store s !! key with
    | Some v => (Ok v, s)
    | None => (Raise KeyError, s)
    end.

(** [d[key] = v] and [st.session_state.key = v]. *)
Definition set (key : string) (v : value) : M state unit :=
  fun s => (Ok tt, with_store (insert key v) s).

(** [d.update({...})]: the new entries win. *)
Definition update (entries : list (string * value)) : M state unit :=
  fun s =>
    (Ok tt, with_store (fun d => list_to_map entries ∪ d) s).

(** [del d[key]]. *)
Definition del (key : string) : M state unit :=
  fun s =>
    match store s !! key with
    | Some _ => (Ok tt, with_store (delete key) s)
    | None => (Raise KeyError, s)
    end.

(** [list(d.keys())], a snapshot of the keys. *)
Definition keys : M state (list string) :=
  fun s => (Ok (map_to_list (store s)).*1, s).

(** [st.rerun()] stops the run; the script then starts again. *)
Definition rerun {A} : M state A := fun s => (Raise RerunException, s).

(** A widget created with [key=...]: its current value [v], entered by
    the user, is stored under the key and returned. *)
Definition keyed_widget (key : string) (v : value) : M state value :=
  fun s => (Ok v, with_store (insert key v) s).

End St.

(* ===================================================================== *)
(** * The data model of the form                                          *)
(* ===================================================================== *)

Module Form.
Import Py.

(** The two states of a form. *)
Inductive SubmissionState : Type := Editing | Submitted.

(** The verdict and the message of a validator call; a call that raises
    gives no valid verdict. *)
Definition verdict (r : result (bool * str)) : bool :=
  match r with Ok (b, _) => b | Raise _ => false end.

Definition message (r : result (bool * str)) : str :=
  match r with Ok (_, m) => m | Raise _ => [] end.

(** The invariant of a validity record returned by a validator: the
    message is empty exactly when the verdict is true. *)
Definition well_formed (r : bool * str) : Prop :=
  (r.1 = true /\ r.2 = []) \/ (r.1 = false /\ r.2 <> []).

(** The first violated rule wins: [rules] lists, in the order of the
    checks, whether each rule is violated and the message it then gives;
    with no violated rule the record is the success record. *)
Definition first_violation (rules : list (bool * str)) : bool * str :=
  match List.find fst rules with
  | Some (_, m) => (false, m)
  | None => (true, [])
  end.

(** A validator call reports the first violated rule of [rules]: it
    returns, what it returns is the record of the first violation, and
    that record is well-formed. *)
Definition reports_first_violation (call : result (bool * str))
  (rules : list (bool * str)) : Prop :=
  call = Ok (first_violation rules) /\ well_formed (first_violation rules).

(** A validator never returns an ill-formed record, whatever it is given. *)
Definition never_ill_formed (validate : value -> result (bool * str)) : Prop :=
  forall v r, validate v = Ok r -> well_formed r.

(** The messages of the validations that failed, in order. *)
Definition failing (validations : list (bool * str)) : list str :=
  map snd (List.filter (fun v => negb v.1) validations).

(** What a field leaves outstanding: nothing when its verdict [r] is
    true; otherwise the message of [r] when the field holds a value, and
    the [required] message when it holds none. *)
Definition outstanding_of (current : bool) (r : result (bool * str))
  (required : str) : list str :=
  if verdict r then []
  else if current then [message r] else [required].

(** [d.get(key, default)] as a function of the dictionary. *)
Definition read (d : gmap string value) (key : string) (default : value)
  : value :=
  match d !! key with Some v => v | None => default end.

End Form.

(* ===================================================================== *)
(** * Variant A: [form_validation.py], validation at submit time          *)
(* ===================================================================== *)

Module FormValidation.
Import Py Form.
Local Open Scope result_scope.
Local Open Scope script_scope.

Section Program.

(** [date.today()] and the interpreter's [int] on strings. *)
Variable today : Z.
Variable int_of_str : str -> option Z.

(** [^[A-Za-z\s-]+$] *)
Definition name_pattern : regex :=
  Plus (Chars (bracket [range "A" "Z"; range "a" "z"; is_space; one "-"])).

Definition validate_name (name : value) (field_name : str)
  : result (bool * str) :=
  if negb (truthy name) then
    Ok (false, field_name ++ lit " is required")
  else
    let! matched := re_match_value name_pattern name in
    if negb matched then
      Ok (false, field_name
                 ++ lit " should only contain letters, spaces, and hyphens")
    else
      let! n := len name in
      if (n <? 2)%nat then
        Ok (false, field_name ++ lit " should be at least 2 characters long")
      else Ok (true, []).

(** [^[a-zA-Z0-9._%+-]+@[a-zA-Z0-9.-]+\.[a-zA-Z]{2,}$] *)
Definition email_pattern : regex :=
  Cat (Plus (Chars (bracket [range "a" "z"; range "A" "Z"; range "0" "9";
                             one "."; one "_"; one "%"; one "+"; one "-"])))
 (Cat (Chars (one "@"))
 (Cat (Plus (Chars (bracket [range "a" "z"; range "A" "Z"; range "0" "9";
                             one "."; one "-"])))
 (Cat (Chars (one "."))
      (AtLeast 2 (Chars (bracket [range "a" "z"; range "A" "Z"])))))).

Definition validate_email (email : value) : result (bool * str) :=
  let! matched := re_match_value email_pattern email in
  if negb matched then Ok (false, lit "Please enter a valid email address")
  else Ok (true, []).

(** [^\(?([0-9]{3})\)?[-. ]?([0-9]{3})[-. ]?([0-9]{4})$] *)
Definition phone_pattern : regex :=
  let digit := Chars (bracket [range "0" "9"]) in
  let sep := Chars (bracket [one "-"; one "."; one " "]) in
  Cat (Opt (Chars (one "(")))
 (Cat (Exactly 3 digit)
 (Cat (Opt (Chars (one ")")))
 (Cat (Opt sep)
 (Cat (Exactly 3 digit)
 (Cat (Opt sep)
      (Exactly 4 digit)))))).

Definition validate_phone (phone : value) : result (bool * str) :=
  let! matched := re_match_value phone_pattern phone in
  if negb matched then Ok (false, lit "Please enter a valid phone number")
  else Ok (true, []).

Definition validate_age (age : value) : result (bool * str) :=
  try_except_ValueError
    (let! age := int int_of_str age in
     if (age <? 0)%Z || (age >? 120)%Z then
       Ok (false, lit "Age must be between 0 and 120")
     else Ok (true, []))
    (Ok (false, lit "Please enter a valid number")).

(** The default of the parameter [earliest_date]; [validate_date] is
    only called with it, and the first message below is the f-string
    with [earliest_date.strftime('%Y-%m-%d')] at this default. *)
Definition earliest_date : Z := date 1990 1 1.

Definition validate_date (input_date : value) : result (bool * str) :=
  let! max_future_date := add_days today (5 * 365) in
  let! early := lt input_date (VDate earliest_date) in
  if early then Ok (false, lit "Date must be after 1990-01-01")
  else
    let! late := gt input_date (VDate max_future_date) in
    if late then
      Ok (false, lit "Date cannot be more than 5 years in the future")
    else Ok (true, []).

(** ** The form

    What the widgets of the form return in a run: text inputs return
    strings, the number input an integer, the date inputs dates. *)
Record widgets : Type := {
  first_name : str;
  last_name : str;
  email : str;
  phone : str;
  age : Z;
  birth_date : Z;
  start_date : Z;
  end_date : Z;
}.

(** Which button, if any, was pressed to start the run. *)
Inductive click : Type := NoClick | SubmitForm | ClearForm.

(** [st.session_state.form_data] as created at the start of a session.
    The [store] of the state is this dictionary. *)
Definition initial_form_data : result (gmap string value) :=
  let! tomorrow := add_days today 1 in
  Ok (list_to_map
        [("first_name", VStr []); ("last_name", VStr []);
         ("email", VStr []); ("phone", VStr []); ("age", VStr []);
         ("birth_date", VDate today); ("start_date", VDate today);
         ("end_date", VDate tomorrow); ("submitted", VBool false)]).

(** The list [validations] built when the form is submitted. *)
Definition validations (w : widgets) : result (list (bool * str)) :=
  let! v1 := validate_name (VStr (first_name w)) (lit "First name") in
  let! v2 := validate_name (VStr (last_name w)) (lit "Last name") in
  let! v3 := validate_email (VStr (email w)) in
  let! v4 := validate_phone (VStr (phone w)) in
  let! v5 := validate_age (VInt (age w)) in
  let! v6 := validate_date (VDate (birth_date w)) in
  let! v7 := lt (VDate (start_date w)) (VDate (end_date w)) in
  Ok [v1; v2; v3; v4; v5; v6;
      (v7, lit "Start date must be before end date")].

(** The widgets of the form with the feedback shown under each of them
    while the form is filled. *)
Definition form_fields (w : widgets) : M St.state unit :=
  let first_name := VStr (first_name w) in
  (if truthy first_name then
     let* ' (is_valid, message) :=
       lift (validate_name first_name (lit "First name")) in
     if negb is_valid then St.error message
     else St.success (lit "Valid first name!")
   else ret tt);;;
  let last_name := VStr (last_name w) in
  (if truthy last_name then
     let* ' (is_valid, message) :=
       lift (validate_name last_name (lit "Last name")) in
     if negb is_valid then St.error message
     else St.success (lit "Valid last name!")
   else ret tt);;;
  let email := VStr (email w) in
  (if truthy email then
     let* ' (is_valid, message) := lift (validate_email email) in
     if negb is_valid then St.error message
     else St.success (lit "Valid email format!")
   else ret tt);;;
  let phone := VStr (phone w) in
  (if truthy phone then
     let* ' (is_valid, message) := lift (validate_phone phone) in
     if negb is_valid then St.error message
     else St.success (lit "Valid phone number!")
   else ret tt);;;
  let age := VInt (age w) in
  (if truthy age then
     let* ' (is_valid, message) := lift (validate_age age) in
     if negb is_valid then St.error message
     else St.success (lit "Valid age!")
   else ret tt);;;
  let birth_date := VDate (birth_date w) in
  if truthy birth_date then
    let* ' (is_valid, message) := lift (validate_date birth_date) in
    if negb is_valid then St.error message
    else St.success (lit "Valid birth date!")
  else ret tt.

(** The check of the date range shown under the two dates. *)
Definition range_feedback (w : widgets) : M St.state unit :=
  let start_date := VDate (start_date w) in
  let end_date := VDate (end_date w) in
  if truthy start_date && truthy end_date then
    let* reversed := lift (ge start_date end_date) in
    if reversed then St.error (lit "Start date must be before end date")
    else ret tt
  else ret tt.

(** The body of [if submitted:]. *)
Definition on_submit (w : widgets) : M St.state unit :=
  let* validations := lift (validations w) in
  if forallb fst validations then
    St.success (lit "Form submitted successfully!");;;
    St.update
      [("first_name", VStr (first_name w));
       ("last_name", VStr (last_name w));
       ("email", VStr (email w));
       ("phone", VStr (phone w));
       ("age", VInt (age w));
       ("birth_date", VDate (birth_date w));
       ("start_date", VDate (start_date w));
       ("end_date", VDate (end_date w));
       ("submitted", VBool true)];;;
    St.rerun
  else
    for_each validations
      (fun '(valid, message) =>
         if negb valid then St.error message else ret tt).

(** The loop run when the Clear Form button of the sidebar is pressed. *)
Definition clear_form : M St.state unit :=
  let* keys := St.keys in
  for_each keys
    (fun key =>
       if bool_decide (key ∈ ["start_date"; "end_date"; "birth_date"])
       then St.set key (VDate today)
       else if bool_decide (key = "submitted")
       then St.set key (VBool false)
       else St.set key (VStr [])).

(** The sidebar summary only displays; it returns whether its Clear Form
    button was pressed. *)
Definition create_sidebar_markdown (c : click) : M St.state bool :=
  ret match c with ClearForm => true | _ => false end.

(** One run of [main] on an initialised session. *)
Definition main (w : widgets) (c : click) : M St.state unit :=
  form_fields w;;;
  range_feedback w;;;
  (match c with SubmitForm => on_submit w | _ => ret tt end);;;
  let* submitted := St.item "submitted" in
  if truthy submitted then
    let* clear := create_sidebar_markdown c in
    if clear then clear_form;;; St.rerun else ret tt
  else ret tt.

(** ** The rules of each field, in the order they are checked

    Each rule is paired with the message of its violation. *)

Definition name_rules (name field_name : str) : list (bool * str) :=
  [(negb (truthy_str name), field_name ++ lit " is required");
   (negb (re_match name_pattern name),
    field_name ++ lit " should only contain letters, spaces, and hyphens");
   ((length name <? 2)%nat,
    field_name ++ lit " should be at least 2 characters long")].

Definition email_rules (email : str) : list (bool * str) :=
  [(negb (re_match email_pattern email),
    lit "Please enter a valid email address")].

Definition phone_rules (phone : str) : list (bool * str) :=
  [(negb (re_match phone_pattern phone),
    lit "Please enter a valid phone number")].

(** The age is first converted, then compared. *)
Definition age_rules (age : value) : list (bool * str) :=
  [(match int int_of_str age with Raise ValueError => true | _ => false end,
    lit "Please enter a valid number");
   (match int int_of_str age with
    | Ok n => (n <? 0)%Z || (n >? 120)%Z
    | Raise _ => false
    end,
    lit "Age must be between 0 and 120")].

Definition date_rules (input_date : Z) : list (bool * str) :=
  [((input_date <? earliest_date)%Z, lit "Date must be after 1990-01-01");
   ((input_date >? today + 5 * 365)%Z,
    lit "Date cannot be more than 5 years in the future")].

(** ** Reading the state machine off the session *)

(** [st.session_state.form_data['submitted']]. *)
Definition submission_state (s : St.state) : option SubmissionState :=
  match St.store s !! "submitted" with
  | Some v => Some (if truthy v then Submitted else Editing)
  | None => None
  end.

(** The verdict of every field on what the widgets hold. *)
Definition fields_valid (w : widgets) : bool :=
  verdict (validate_name (VStr (first_name w)) (lit "First name"))
  && verdict (validate_name (VStr (last_name w)) (lit "Last name"))
  && verdict (validate_email (VStr (email w)))
  && verdict (validate_phone (VStr (phone w)))
  && verdict (validate_age (VInt (age w)))
  && verdict (validate_date (VDate (birth_date w))).

(** What the clear loop stores under a key. *)
Definition cleared_value (key : string) : value :=
  if bool_decide (key ∈ ["start_date"; "end_date"; "birth_date"])
  then VDate today
  else if bool_decide (key = "submitted") then VBool false
  else VStr [].

(** The entries written by a successful submission. *)
Definition submitted_entries (w : widgets) : list (string * value) :=
  [("first_name", VStr (first_name w));
   ("last_name", VStr (last_name w));
   ("email", VStr (email w));
   ("phone", VStr (phone w));
   ("age", VInt (age w));
   ("birth_date", VDate (birth_date w));
   ("start_date", VDate (start_date w));
   ("end_date", VDate (end_date w));
   ("submitted", VBool true)].

End Program.

End FormValidation.

(* ===================================================================== *)
(** * Variant B: [form_validation2.py], validation at every change        *)
(* ===================================================================== *)

Module FormValidation2.
Import Py Form.
Local Open Scope result_scope.
Local Open Scope script_scope.

Section Program.

(** [date.today()]. *)
Variable today : Z.

(** [^[a-zA-Z'\s\-]{2,50}$] *)
Definition name_pattern : regex :=
  Repeat
    (Chars (bracket [range "a" "z"; range "A" "Z"; one "'"; is_space;
                     one "-"]))
    2 (Some 50%nat).

Definition validate_name (name : value) (field_name : str)
  : result (bool * str) :=
  if negb (truthy name) then
    Ok (false, field_name ++ lit " is required")
  else
    let! matched := re_match_value name_pattern name in
    if negb matched then
      Ok (false,
          field_name
          ++ lit " must contain only letters, spaces, hyphens, or apostrophes (2-50 characters)")
    else Ok (true, []).

(** [^[a-zA-Z0-9._%+-]+@[a-zA-Z0-9.-]+\.[a-zA-Z]{2,}$] *)
Definition email_pattern : regex :=
  Cat (Plus (Chars (bracket [range "a" "z"; range "A" "Z"; range "0" "9";
                             one "."; one "_"; one "%"; one "+"; one "-"])))
 (Cat (Chars (one "@"))
 (Cat (Plus (Chars (bracket [range "a" "z"; range "A" "Z"; range "0" "9";
                             one "."; one "-"])))
 (Cat (Chars (one "."))
      (AtLeast 2 (Chars (bracket [range "a" "z"; range "A" "Z"])))))).

Definition validate_email (email : value) : result (bool * str) :=
  if negb (truthy email) then Ok (false, lit "Email is required")
  else
    let! matched := re_match_value email_pattern email in
    if negb matched then Ok (false, lit "Invalid email format")
    else Ok (true, []).

(** [[\s\-\(\)]], the characters removed from a phone number. *)
Definition phone_noise : N -> bool :=
  bracket [is_space; one "-"; one "("; one ")"].

(** [^[0-9]{10}$] *)
Definition phone_pattern : regex :=
  Exactly 10 (Chars (bracket [range "0" "9"])).

Definition validate_phone (phone : value) : result (bool * str) :=
  if negb (truthy phone) then Ok (false, lit "Phone number is required")
  else
    let! clean_phone := re_sub_class_value phone_noise phone in
    let! matched := re_match_value phone_pattern clean_phone in
    if negb matched then Ok (false, lit "Phone must be 10 digits")
    else Ok (true, []).

Definition validate_age (age : value) : result (bool * str) :=
  let! too_small := le age (VInt 0) in
  if too_small then Ok (false, lit "Age must be greater than 0")
  else
    let! too_big := gt age (VInt 120) in
    if too_big then Ok (false, lit "Age must be less than 120")
    else Ok (true, []).

Definition validate_date (check_date : value) : result (bool * str) :=
  if negb (truthy check_date) then Ok (false, lit "Date is required")
  else
    let! future := gt check_date (VDate today) in
    if future then Ok (false, lit "Date cannot be in the future")
    else Ok (true, []).

(** ** [get_validation_status] *)

Definition get_validation_status : M St.state (list str) :=
  let validation_messages : list str := [] in
  let* flag := St.get "first_name_valid" (VBool false) in
  let* validation_messages :=
    if negb (truthy flag) then
      let* current := St.get "first_name" (VStr []) in
      if truthy current then
        let* arg := St.attr "first_name" in
        let* ' (is_valid, message) :=
          lift (validate_name arg (lit "First name")) in
        ret (if negb is_valid then validation_messages ++ [message]
             else validation_messages)
      else ret (validation_messages ++ [lit "First name is required"])
    else ret validation_messages in
  let* flag := St.get "last_name_valid" (VBool false) in
  let* validation_messages :=
    if negb (truthy flag) then
      let* current := St.get "last_name" (VStr []) in
      if truthy current then
        let* arg := St.attr "last_name" in
        let* ' (is_valid, message) :=
          lift (validate_name arg (lit "Last name")) in
        ret (if negb is_valid then validation_messages ++ [message]
             else validation_messages)
      else ret (validation_messages ++ [lit "Last name is required"])
    else ret validation_messages in
  let* flag := St.get "email_valid" (VBool false) in
  let* validation_messages :=
    if negb (truthy flag) then
      let* current := St.get "email" (VStr []) in
      if truthy current then
        let* arg := St.attr "email" in
        let* ' (is_valid, message) := lift (validate_email arg) in
        ret (if negb is_valid then validation_messages ++ [message]
             else validation_messages)
      else ret (validation_messages ++ [lit "Email is required"])
    else ret validation_messages in
  let* flag := St.get "phone_valid" (VBool false) in
  let* validation_messages :=
    if negb (truthy flag) then
      let* current := St.get "phone" (VStr []) in
      if truthy current then
        let* arg := St.attr "phone" in
        let* ' (is_valid, message) := lift (validate_phone arg) in
        ret (if negb is_valid then validation_messages ++ [message]
             else validation_messages)
      else ret (validation_messages ++ [lit "Phone number is required"])
    else ret validation_messages in
  let* flag := St.get "age_valid" (VBool false) in
  let* validation_messages :=
    if negb (truthy flag) then
      let* current := St.get "age" (VInt 0) in
      let* positive := lift (gt current (VInt 0)) in
      if positive then
        let* arg := St.attr "age" in
        let* ' (is_valid, message) := lift (validate_age arg) in
        ret (if negb is_valid then validation_messages ++ [message]
             else validation_messages)
      else ret (validation_messages ++ [lit "Age is required"])
    else ret validation_messages in
  let* flag := St.get "birth_date_valid" (VBool false) in
  let* validation_messages :=
    if negb (truthy flag) then
      let* current := St.get "birth_date" (VNone) in
      if truthy current then
        let* arg := St.attr "birth_date" in
        let* ' (is_valid, message) := lift (validate_date arg) in
        ret (if negb is_valid then validation_messages ++ [message]
             else validation_messages)
      else ret (validation_messages ++ [lit "Birth date is required"])
    else ret validation_messages in
  let* start_date := St.get "start_date" VNone in
  let* end_date := St.get "end_date" VNone in
  let* reversed :=
    if truthy start_date then
      if truthy end_date then lift (ge start_date end_date) else ret false
    else ret false in
  ret (if reversed
       then validation_messages ++ [lit "Start date must be before end date"]
       else validation_messages).

(** ** The form *)

(** What the widgets return in a run: the values currently entered. *)
Record widgets : Type := {
  first_name : str;
  last_name : str;
  email : str;
  phone : str;
  age : Z;
  birth_date : Z;
  start_date : Z;
  end_date : Z;
}.

(** Which button, if any, was pressed to start the run. *)
Inductive click : Type := NoClick | Submit | ClearForm.

(** The dictionary [current_data] of [update_sidebar_table]: the raw
    value of every field, read with its default. *)
Definition current_data : M St.state (list (string * value)) :=
  let* v1 := St.get "first_name" (VStr []) in
  let* v2 := St.get "last_name" (VStr []) in
  let* v3 := St.get "email" (VStr []) in
  let* v4 := St.get "phone" (VStr []) in
  let* v5 := St.get "age" (VInt 0) in
  let* v6 := St.get "birth_date" (VDate today) in
  let* v7 := St.get "start_date" (VDate today) in
  let* v8 := St.get "end_date" (VDate today) in
  ret [("First Name", v1); ("Last Name", v2); ("Email", v3);
       ("Phone", v4); ("Age", v5); ("Birth Date", v6);
       ("Start Date", v7); ("End Date", v8)].

(** The loop of the Clear Form button: every key is deleted. *)
Definition clear_session : M St.state unit :=
  let* keys := St.keys in
  for_each keys St.del.

(** The markdown table built from [current_data] is only displayed. *)
Definition update_sidebar_table (c : click) : M St.state unit :=
  let* _ := current_data in
  let* submitted := St.get "form_submitted" (VBool false) in
  (if truthy submitted
   then St.success (lit "Form submitted successfully!")
   else ret tt);;;
  match c with
  | ClearForm => clear_session;;; St.rerun
  | _ => ret tt
  end.

(** The widgets of the form with their validation at every run, up to
    the date range. *)
Definition edit_fields (w : widgets) : M St.state unit :=
  let* first_name := St.keyed_widget "first_name" (VStr (first_name w)) in
  (if truthy first_name then
     let* ' (is_valid, message) :=
       lift (validate_name first_name (lit "First name")) in
     St.set "first_name_valid" (VBool is_valid);;;
     if negb is_valid then St.error message
     else St.success (lit "Valid first name!")
   else St.set "first_name_valid" (VBool false));;;
  let* last_name := St.keyed_widget "last_name" (VStr (last_name w)) in
  (if truthy last_name then
     let* ' (is_valid, message) :=
       lift (validate_name last_name (lit "Last name")) in
     St.set "last_name_valid" (VBool is_valid);;;
     if negb is_valid then St.error message
     else St.success (lit "Valid last name!")
   else St.set "last_name_valid" (VBool false));;;
  let* email := St.keyed_widget "email" (VStr (email w)) in
  (if truthy email then
     let* ' (is_valid, message) := lift (validate_email email) in
     St.set "email_valid" (VBool is_valid);;;
     if negb is_valid then St.error message
     else St.success (lit "Valid email!")
   else St.set "email_valid" (VBool false));;;
  let* phone := St.keyed_widget "phone" (VStr (phone w)) in
  (if truthy phone then
     let* ' (is_valid, message) := lift (validate_phone phone) in
     St.set "phone_valid" (VBool is_valid);;;
     if negb is_valid then St.error message
     else St.success (lit "Valid phone number!")
   else St.set "phone_valid" (VBool false));;;
  let* age := St.keyed_widget "age" (VInt (age w)) in
  let* positive := lift (gt age (VInt 0)) in
  (if positive then
     let* ' (is_valid, message) := lift (validate_age age) in
     St.set "age_valid" (VBool is_valid);;;
     if negb is_valid then St.error message
     else St.success (lit "Valid age!")
   else St.set "age_valid" (VBool false));;;
  let* birth_date := St.keyed_widget "birth_date" (VDate (birth_date w)) in
  (if truthy birth_date then
     let* ' (is_valid, message) := lift (validate_date birth_date) in
     St.set "birth_date_valid" (VBool is_valid);;;
     if negb is_valid then St.error message
     else St.success (lit "Valid birth date!")
   else St.set "birth_date_valid" (VBool false));;;
  let* start_date := St.keyed_widget "start_date" (VDate (start_date w)) in
  let* end_date := St.keyed_widget "end_date" (VDate (end_date w)) in
  if truthy start_date && truthy end_date then
    let* reversed := lift (ge start_date end_date) in
    if reversed then
      St.error (lit "Start date must be before end date");;;
      St.set "start_date_valid" (VBool false);;;
      St.set "end_date_valid" (VBool false)
    else
      St.success (lit "Valid date range!");;;
      St.set "start_date_valid" (VBool true);;;
      St.set "end_date_valid" (VBool true)
  else ret tt.

(** The bullet that starts a listed message. *)
Definition bullet : str := [8226; 32]%N.

(** The body of [if st.button(...)] for the Submit button. *)
Definition on_submit : M St.state unit :=
  let* validation_messages := get_validation_status in
  if negb (truthy (VList validation_messages)) then
    St.success (lit "Form submitted successfully!");;;
    St.set "form_submitted" (VBool true)
  else
    St.error (lit "Please fix the following validation errors:");;;
    for_each validation_messages
      (fun message => St.error (bullet ++ message)).

(** The validation column. *)
Definition validation_summary : M St.state unit :=
  let* status := get_validation_status in
  let all_valid := negb (truthy (VList status)) in
  if all_valid then
    St.success (lit "All fields are valid! " ++ [10024%N])
  else
    let* messages := get_validation_status in
    St.error (lit "Fields needing attention:");;;
    for_each messages (fun message => St.warning (bullet ++ message)).

(** One run of [main]. *)
Definition main (w : widgets) (c : click) : M St.state unit :=
  let* present := St.contains "form_submitted" in
  (if negb present then St.set "form_submitted" (VBool false)
   else ret tt);;;
  let* present := St.contains "validation_messages" in
  (if negb present then St.set "validation_messages" (VList [])
   else ret tt);;;
  edit_fields w;;;
  (match c with Submit => on_submit | _ => ret tt end);;;
  update_sidebar_table c;;;
  validation_summary.

(** ** The rules of each field, in the order they are checked

    Each rule is paired with the message of its violation. *)

Definition name_rules (name field_name : str) : list (bool * str) :=
  [(negb (truthy_str name), field_name ++ lit " is required");
   (negb (re_match name_pattern name),
    field_name
    ++ lit " must contain only letters, spaces, hyphens, or apostrophes (2-50 characters)")].

Definition email_rules (email : str) : list (bool * str) :=
  [(negb (truthy_str email), lit "Email is required");
   (negb (re_match email_pattern email), lit "Invalid email format")].

Definition phone_rules (phone : str) : list (bool * str) :=
  [(negb (truthy_str phone), lit "Phone number is required");
   (negb (re_match phone_pattern (re_sub_class phone_noise phone)),
    lit "Phone must be 10 digits")].

Definition age_rules (age : Z) : list (bool * str) :=
  [((age <=? 0)%Z, lit "Age must be greater than 0");
   ((age >? 120)%Z, lit "Age must be less than 120")].

(** A date input holds a date or nothing. *)
Definition date_rules (check_date : option Z) : list (bool * str) :=
  [(negb (bool_decide (is_Some check_date)), lit "Date is required");
   (match check_date with Some d => (d >? today)%Z | None => false end,
    lit "Date cannot be in the future")].

Definition date_value (check_date : option Z) : value :=
  match check_date with Some d => VDate d | None => VNone end.

(** ** Reading the state machine off the session *)

(** [st.session_state.get('form_submitted', False)]. *)
Definition submission_state (s : St.state) : SubmissionState :=
  if truthy (read (St.store s) "form_submitted" (VBool false))
  then Submitted else Editing.

(** A validity flag of the session, read as [update_sidebar_table] and
    [get_validation_status] read it. *)
Definition flag (s : St.state) (key : string) : bool :=
  truthy (read (St.store s) key (VBool false)).

(** Every field's flag is true and so are the two flags of the date
    range. *)
Definition form_valid (s : St.state) : bool :=
  flag s "first_name_valid" && flag s "last_name_valid"
  && flag s "email_valid" && flag s "phone_valid"
  && flag s "age_valid" && flag s "birth_date_valid"
  && flag s "start_date_valid" && flag s "end_date_valid".

(** The verdict of every field on what the widgets hold. *)
Definition fields_valid (w : widgets) : bool :=
  verdict (validate_name (VStr (first_name w)) (lit "First name"))
  && verdict (validate_name (VStr (last_name w)) (lit "Last name"))
  && verdict (validate_email (VStr (email w)))
  && verdict (validate_phone (VStr (phone w)))
  && verdict (validate_age (VInt (age w)))
  && verdict (validate_date (VDate (birth_date w))).

(** The store after the widgets of a run have been created and
    validated. *)
Definition edited_store (w : widgets) (d : gmap string value)
  : gmap string value :=
  <["end_date_valid" := VBool (start_date w <? end_date w)%Z]>
  (<["start_date_valid" := VBool (start_date w <? end_date w)%Z]>
  (<["end_date" := VDate (end_date w)]>
  (<["start_date" := VDate (start_date w)]>
  (<["birth_date_valid" :=
       VBool (verdict (validate_date (VDate (birth_date w))))]>
  (<["birth_date" := VDate (birth_date w)]>
  (<["age_valid" := VBool (verdict (validate_age (VInt (age w))))]>
  (<["age" := VInt (age w)]>
  (<["phone_valid" := VBool (verdict (validate_phone (VStr (phone w))))]>
  (<["phone" := VStr (phone w)]>
  (<["email_valid" := VBool (verdict (validate_email (VStr (email w))))]>
  (<["email" := VStr (email w)]>
  (<["last_name_valid" :=
       VBool (verdict (validate_name (VStr (last_name w))
                                     (lit "Last name")))]>
  (<["last_name" := VStr (last_name w)]>
  (<["first_name_valid" :=
       VBool (verdict (validate_name (VStr (first_name w))
                                     (lit "First name")))]>
  (<["first_name" := VStr (first_name w)]> d))))))))))))))).

(** The store once the two keys that [main] creates at the start of a
    session are there. *)
Definition initialised (d : gmap string value) : gmap string value :=
  let d1 := match d !! "form_submitted" with
            | Some _ => d
            | None => <["form_submitted" := VBool false]> d
            end in
  match d1 !! "validation_messages" with
  | Some _ => d1
  | None => <["validation_messages" := VList []]> d1
  end.

(** A store holds the fields of [w] when its sixteen entries of the
    form are those that the widgets of [w] and their validation leave. *)
Definition holds_fields (w : widgets) (d : gmap string value) : Prop :=
  forall key,
    key ∈ ["first_name"; "first_name_valid"; "last_name";
           "last_name_valid"; "email"; "email_valid"; "phone";
           "phone_valid"; "age"; "age_valid"; "birth_date";
           "birth_date_valid"; "start_date"; "start_date_valid";
           "end_date"; "end_date_valid"] ->
    d !! key = edited_store w ∅ !! key.

(** The messages outstanding for what the widgets hold, field by field
    and then for the date range. *)
Definition outstanding (w : widgets) : list str :=
  outstanding_of (truthy_str (first_name w))
    (validate_name (VStr (first_name w)) (lit "First name"))
    (lit "First name is required")
  ++ outstanding_of (truthy_str (last_name w))
       (validate_name (VStr (last_name w)) (lit "Last name"))
       (lit "Last name is required")
  ++ outstanding_of (truthy_str (email w))
       (validate_email (VStr (email w))) (lit "Email is required")
  ++ outstanding_of (truthy_str (phone w))
       (validate_phone (VStr (phone w))) (lit "Phone number is required")
  ++ outstanding_of (0 <? age w)%Z
       (validate_age (VInt (age w))) (lit "Age is required")
  ++ outstanding_of true
       (validate_date (VDate (birth_date w))) (lit "Birth date is required")
  ++ (if (start_date w <? end_date w)%Z then []
      else [lit "Start date must be before end date"]).

End Program.

End FormValidation2.

(* ===================================================================== *)
(** * The scenarios of the specification                                  *)
(* ===================================================================== *)

Module Scenario.
Import Py.

(** A day on which the scenarios are run, and the conversion of strings
    to integers restricted to ASCII digits. *)
Definition today : Z := date 2024 6 1.
Definition int_of_str : str -> option Z := parse_int (fun _ => None).

(** Age 25, every other field valid, start date 2024-01-01 and end date
    2024-01-02. *)
Definition accepted : FormValidation.widgets :=
  {| FormValidation.first_name := lit "Ada";
     FormValidation.last_name := lit "Lovelace";
     FormValidation.email := lit "ada@example.com";
     FormValidation.phone := lit "(555) 123-4567";
     FormValidation.age := 25;
     FormValidation.birth_date := date 2000 12 10;
     FormValidation.start_date := date 2024 1 1;
     FormValidation.end_date := date 2024 1 2 |}.

(** Start date 2024-02-01 and end date 2024-01-01. *)
Definition reversed : FormValidation.widgets :=
  {| FormValidation.first_name := lit "Ada";
     FormValidation.last_name := lit "Lovelace";
     FormValidation.email := lit "ada@example.com";
     FormValidation.phone := lit "(555) 123-4567";
     FormValidation.age := 25;
     FormValidation.birth_date := date 2000 12 10;
     FormValidation.start_date := date 2024 2 1;
     FormValidation.end_date := date 2024 1 1 |}.

(** A session before anything was stored or shown. *)
Definition fresh : St.state := {| St.store := ∅; St.screen := [] |}.

End Scenario.

(** Scenarios of the live form. *)
Module LiveScenario.
Import Py.

(** Nothing was entered: the text fields are empty, the age is zero and
    the three dates are today. *)
Definition blank : FormValidation2.widgets :=
  {| FormValidation2.first_name := []; FormValidation2.last_name := [];
     FormValidation2.email := []; FormValidation2.phone := [];
     FormValidation2.age := 0;
     FormValidation2.birth_date := Scenario.today;
     FormValidation2.start_date := Scenario.today;
     FormValidation2.end_date := Scenario.today |}.

(** The form was submitted. *)
Definition submitted : St.state :=
  St.with_store (insert "form_submitted" (VBool true)) Scenario.fresh.

(** Every flag is set, and the first name is empty. *)
Definition stale : St.state :=
  {| St.store :=
       list_to_map
         [("first_name", VStr []); ("first_name_valid", VBool true);
          ("last_name_valid", VBool true); ("email_valid", VBool true);
          ("phone_valid", VBool true); ("age_valid", VBool true);
          ("birth_date_valid", VBool true);
          ("start_date", VDate (date 2024 1 1));
          ("end_date", VDate (date 2024 1 2))];
     St.screen := [] |}.

End LiveScenario.

(* ===================================================================== *)
(** * Variant B: the table of the sidebar                                 *)
(* ===================================================================== *)

Module SidebarTable.
Import Py Form.
Local Open Scope script_scope.

(** [field.lower()] and [.replace(old, new)] on the ASCII names of the
    fields. *)
Definition lower_ascii (a : ascii) : ascii :=
  let n := N_of_ascii a in
  if ((65 <=? n) && (n <=? 90))%N then ascii_of_N (n + 32) else a.

Fixpoint lower (s : string) : string :=
  match s with
  | EmptyString => EmptyString
  | String a s' => String (lower_ascii a) (lower s')
  end.

Fixpoint replace (old new : ascii) (s : string) : string :=
  match s with
  | EmptyString => EmptyString
  | String a s' =>
      String (if Ascii.eqb a old then new else a) (replace old new s')
  end.

Definition field_key (field : string) : string :=
  replace " " "_" (lower field).

Definition table_header : str :=
  lit "| Field | Value | Status |" ++ [10%N]
  ++ lit "|--------|--------|--------|" ++ [10%N].

(** The three marks of the status column: checked, crossed, waiting. *)
Definition checked : str := [9989%N].
Definition crossed : str := [10060%N].
Definition waiting : str := [9203%N].

Definition status (is_valid : bool) (formatted_value : str) : str :=
  if is_valid && truthy_str formatted_value then checked
  else if truthy_str formatted_value then crossed
  else waiting.

Definition row (field : string) (formatted_value status : str) : str :=
  lit "| " ++ lit field ++ lit " | " ++ formatted_value ++ lit " | "
  ++ status ++ lit " |" ++ [10%N].

Section Table.

(** [date.today()], [value.strftime('%Y-%m-%d')] and [str(value)]. *)
Variable today : Z.
Variable strftime : Z -> str.
Variable str_of : value -> str.

(** A date is formatted as a date, a number as itself unless it is zero
    ([bool] is a subclass of [int]), anything else with [str]. *)
Definition formatted_value (value : value) : str :=
  match value with
  | VDate d => strftime d
  | VInt z => if negb (z =? 0)%Z then str_of value else []
  | VBool b => if b then str_of value else []
  | VNone | VStr _ | VList _ => str_of value
  end.

(** The truth value of [is_valid]: for the two ends of the date range
    that of [start_date and end_date and start_date < end_date], for the
    other fields that of the flag of the field. *)
Definition is_valid (field : string) : M St.state bool :=
  if bool_decide (field ∈ ["Start Date"; "End Date"]) then
    let* start_date := St.get "start_date" VNone in
    let* end_date := St.get "end_date" VNone in
    if truthy start_date then
      if truthy end_date then lift (lt start_date end_date) else ret false
    else ret false
  else
    let* flag := St.get (String.append (field_key field) "_valid")
                   (VBool false) in
    ret (truthy flag).

(** The loop over [current_data.items()]. *)
Fixpoint add_rows (data : list (string * value)) (table_rows : str)
  : M St.state str :=
  match data with
  | [] => ret table_rows
  | (field, value) :: data' =>
      let formatted_value := formatted_value value in
      let* is_valid := is_valid field in
      add_rows data'
        (table_rows
         ++ row field formatted_value (status is_valid formatted_value))
  end.

(** The markdown that [update_sidebar_table] writes in the sidebar. *)
Definition markdown_table : M St.state str :=
  let* current_data := FormValidation2.current_data today in
  let* table_rows := add_rows current_data [] in
  ret (table_header ++ table_rows).

(** The rows of the table for what the widgets hold: the name of the
    field, its formatted value and its verdict. *)
Definition rows_of (w : FormValidation2.widgets)
  : list (string * str * bool) :=
  [("First Name", FormValidation2.first_name w,
    verdict (FormValidation2.validate_name
               (VStr (FormValidation2.first_name w)) (lit "First name")));
   ("Last Name", FormValidation2.last_name w,
    verdict (FormValidation2.validate_name
               (VStr (FormValidation2.last_name w)) (lit "Last name")));
   ("Email", FormValidation2.email w,
    verdict (FormValidation2.validate_email
               (VStr (FormValidation2.email w))));
   ("Phone", FormValidation2.phone w,
    verdict (FormValidation2.validate_phone
               (VStr (FormValidation2.phone w))));
   ("Age",
    if (FormValidation2.age w =? 0)%Z then []
    else str_of (VInt (FormValidation2.age w)),
    verdict (FormValidation2.validate_age (VInt (FormValidation2.age w))));
   ("Birth Date", strftime (FormValidation2.birth_date w),
    verdict (FormValidation2.validate_date today
               (VDate (FormValidation2.birth_date w))));
   ("Start Date", strftime (FormValidation2.start_date w),
    (FormValidation2.start_date w <? FormValidation2.end_date w)%Z);
   ("End Date", strftime (FormValidation2.end_date w),
    (FormValidation2.start_date w <? FormValidation2.end_date w)%Z)].

Definition render (r : string * str * bool) : str :=
  let '(field, formatted_value, is_valid) := r in
  row field formatted_value (status is_valid formatted_value).

End Table.

End SidebarTable.

(* ===================================================================== *)
(** * [streamlit_components_tutorial.py]: the counter of the session      *)
(* ===================================================================== *)

Module ComponentsTutorial.
Import Py.
Local Open Scope script_scope.

(** [a + b] on the values of the session. *)
Definition add (a b : value) : result value :=
  match a, b with
  | VInt x, VInt y => Ok (VInt (x + y))
  | VInt x, VBool y => Ok (VInt (x + of_bool y))
  | VBool x, VInt y => Ok (VInt (of_bool x + y))
  | VBool x, VBool y => Ok (VInt (of_bool x + of_bool y))
  | VStr x, VStr y => Ok (VStr (x ++ y))
  | VList x, VList y => Ok (VList (x ++ y))
  | _, _ => Raise TypeError
  end.

(** The session-state part of [show_advanced_components]: the count is
    created at zero, incremented when the Increment button was pressed,
    and written on the page; the value written is returned. *)
Definition session_counter (increment : bool) : M St.state value :=
  let* present := St.contains "count" in
  (if negb present then St.set "count" (VInt 0) else ret tt);;;
  (if increment then
     let* count := St.attr "count" in
     let* count := lift (add count (VInt 1)) in
     St.set "count" count
   else ret tt);;;
  St.attr "count".

(** The runs of a session, one per entry of [presses], which tells
    whether the run was started by the Increment button; the count that
    the last run wrote is returned, [None] before any run. *)
Fixpoint session (presses : list bool) (written : option value)
  : M St.state (option value) :=
  match presses with
  | [] => ret written
  | increment :: presses' =>
      let* count := session_counter increment in
      session presses' (Some count)
  end.

End ComponentsTutorial.

(* ===================================================================== *)
(** * Properties                                                          *)
(* ===================================================================== *)

Import Py Form.
Local Open Scope script_scope.

(** ** Scripts that only read, scripts that only write *)

(** A script is read-only when it leaves the store and the screen as they
    were, whether it returns or raises. *)
Definition read_only {A} (m : M St.state A) : Prop :=
  forall s, (m s).2 = s.

(** A script [writes] with [f] when from every state it returns [a], turns
    the store [d] into [f d] and only adds to the screen. *)
Definition writes {A} (m : M St.state A) (a : A)
  (f : gmap string value -> gmap string value) : Prop :=
  forall s, exists shown,
    m s = (Ok a, {| St.store := f (St.store s);
                    St.screen := St.screen s ++ shown |}).

(** ** Predicates on strings and messages *)

(** The string [s] ends with a character of the class [p]. *)
Definition ends_in (p : N -> bool) (s : str) : Prop :=
  exists s' c, s = s' ++ [c] /\ p c = true.

(** A character that the phone number of variant B may contain: a digit
    or one of the characters that are removed. *)
Definition phone_char (c : N) : bool :=
  bracket [range "0" "9"] c || FormValidation2.phone_noise c.

(** A piece of a phone number: digits, removed characters and dots only,
    [n] digits among them. *)
Definition phone_piece (n : nat) (s : str) : Prop :=
  forallb (fun c => phone_char c || one "." c) s = true
  /\ length (List.filter (bracket [range "0" "9"]) s) = n.

(** The messages that [get_validation_status] can report. *)
Definition reportable_messages : list str :=
  [lit "First name is required";
   lit "First name must contain only letters, spaces, hyphens, or apostrophes (2-50 characters)";
   lit "Last name is required";
   lit "Last name must contain only letters, spaces, hyphens, or apostrophes (2-50 characters)";
   lit "Email is required"; lit "Invalid email format";
   lit "Phone number is required"; lit "Phone must be 10 digits";
   lit "Age is required"; lit "Age must be less than 120";
   lit "Birth date is required"; lit "Date cannot be in the future";
   lit "Start date must be before end date"].

(** Every message of the list is one of them. *)
Definition reportable (messages : list str) : Prop :=
  Forall (fun m => m ∈ reportable_messages) messages.

Section Scripts.

Context {A B : Type}.

Lemma read_only_ret (a : A) : read_only (ret a).
Proof. by intros s. Qed.

Lemma read_only_lift (r : result A) : read_only (lift r).
Proof. by intros s. Qed.

Lemma read_only_bind (m : M St.state A) (k : A -> M St.state B) :
  read_only m -> (forall a, read_only (k a)) -> read_only (bind m k).
Proof.
  intros Hm Hk s. unfold bind. specialize (Hm s).
  destruct (m s) as [[a|e] s']; simpl in *; subst; [apply Hk | done].
Qed.

Lemma writes_ret (a : A) : writes (ret a) a id.
Proof. intros [d scr]. exists []. by rewrite app_nil_r. Qed.

Lemma writes_lift (a : A) : writes (lift (Ok a)) a id.
Proof. intros [d scr]. exists []. by rewrite app_nil_r. Qed.

Lemma writes_bind (m : M St.state A) (k : A -> M St.state B) a b f g :
  writes m a f -> writes (k a) b g -> writes (bind m k) b (g ∘ f).
Proof.
  intros Hm Hk s. destruct (Hm s) as [sh1 E1]. unfold bind. rewrite E1.
  destruct (Hk {| St.store := f (St.store s);
                  St.screen := St.screen s ++ sh1 |}) as [sh2 E2].
  rewrite E2. exists (sh1 ++ sh2). simpl. by rewrite app_assoc.
Qed.

Lemma writes_ext (m : M St.state A) a f g :
  writes m a f -> (forall d, f d = g d) -> writes m a g.
Proof.
  intros Hm Hfg s. destruct (Hm s) as [sh E]. exists sh. by rewrite E, Hfg.
Qed.

End Scripts.

Lemma read_only_get k d : read_only (St.get k d).
Proof. by intros s. Qed.

Lemma read_only_attr k : read_only (St.attr k).
Proof. intros s. unfold St.attr. by destruct (St.store s !! k). Qed.

Lemma writes_show x : writes (St.show x) tt id.
Proof. intros [d scr]. by exists [x]. Qed.

Lemma writes_set k v : writes (St.set k v) tt (insert k v).
Proof.
  intros [d scr]. exists []. unfold St.set, St.with_store. simpl.
  by rewrite app_nil_r.
Qed.

Lemma writes_widget k v : writes (St.keyed_widget k v) v (insert k v).
Proof.
  intros [d scr]. exists []. unfold St.keyed_widget, St.with_store. simpl.
  by rewrite app_nil_r.
Qed.

Ltac read_only_step :=
  first
    [ apply read_only_ret | apply read_only_lift | apply read_only_get
    | apply read_only_attr
    | apply read_only_bind; [ | intros ? ]
    | match goal with
      | |- read_only (if ?b then _ else _) => destruct b
      | |- read_only (match ?x with _ => _ end) => destruct x
      end ].

(** ** Regular expressions: the matcher decides the language *)

Lemma matches_nil_nullable r : matches r [] -> nullable r = true.
Proof.
  intros H. remember [] as s eqn:Hs. induction H; simpl; try done.
  - apply app_eq_nil in Hs as [-> ->]. by rewrite IHmatches1, IHmatches2.
  - by rewrite IHmatches.
  - rewrite IHmatches by done. apply orb_true_r.
  - apply app_eq_nil in Hs as [-> ->]. destruct lo; [done|].
    by apply IHmatches1.
Qed.

Lemma repeat_matches_nil r lo hi :
  matches r [] ->
  match hi with Some h => (lo <= h)%nat | None => True end ->
  matches (Repeat r lo hi) [].
Proof.
  intros Hr. revert hi. induction lo as [|lo IH]; intros hi Hhi.
  - constructor.
  - apply (matches_repeat_more r (S lo) hi [] []); [|done|].
    + destruct hi as [[|h]|]; [lia|done|done].
    + apply IH. destruct hi as [[|h]|]; simpl; [lia|lia|done].
Qed.

Lemma nullable_matches_nil r :
  well_formed_regex r = true -> nullable r = true -> matches r [].
Proof.
  induction r as [| |p|r1 IH1 r2 IH2|r1 IH1 r2 IH2|r IH lo hi]; simpl; try done.
  - constructor.
  - intros [? ?]%andb_true_iff [? ?]%andb_true_iff.
    apply (matches_cat _ _ [] []); auto.
  - intros [? ?]%andb_true_iff [?|?]%orb_true_iff;
      [apply matches_alt_l | apply matches_alt_r]; auto.
  - intros [Hr Hhi]%andb_true_iff Hn. destruct lo as [|lo]; [constructor|].
    apply repeat_matches_nil; [auto|].
    destruct hi; [by apply Nat.leb_le|done].
Qed.

Lemma well_formed_deriv c r :
  well_formed_regex r = true -> well_formed_regex (deriv c r) = true.
Proof.
  induction r as [| |p|r1 IH1 r2 IH2|r1 IH1 r2 IH2|r IH lo hi]; simpl; try done.
  - by destruct (p c).
  - intros [H1 H2]%andb_true_iff. destruct (nullable r1); simpl;
      rewrite ?IH1, ?IH2, ?H2 by done; done.
  - intros [H1 H2]%andb_true_iff. by rewrite IH1, IH2.
  - intros [Hr Hhi]%andb_true_iff.
    destruct hi as [[|h]|]; simpl; [done| |].
    + rewrite IH, Hr by done. simpl. apply Nat.leb_le.
      apply Nat.leb_le in Hhi. lia.
    + by rewrite IH, Hr.
Qed.

Lemma matches_deriv_1 c r s0 :
  matches r s0 -> forall s, s0 = c :: s -> matches (deriv c r) s.
Proof.
  induction 1 as [|p c' Hp|r1 r2 s1 s2 H1 IH1 H2 IH2|r1 r2 s0 H IH|r1 r2 s0 H IH
                 |r hi|r lo hi s1 s2 Hhi H1 IH1 H2 IH2]; intros s Hs; simpl.
  - done.
  - injection Hs as -> <-. rewrite Hp. constructor.
  - destruct s1 as [|c1 s1].
    + simpl in Hs. subst s2. rewrite (matches_nil_nullable _ H1).
      apply matches_alt_r. by apply IH2.
    + injection Hs as -> <-.
      assert (matches (Cat (deriv c r1) r2) (s1 ++ s2))
        by (constructor; [by apply IH1|done]).
      destruct (nullable r1); [by apply matches_alt_l|done].
  - apply matches_alt_l. by apply IH.
  - apply matches_alt_r. by apply IH.
  - done.
  - assert (Hd : deriv c (Repeat r lo hi)
                 = Cat (deriv c r)
                     (Repeat r (Nat.pred lo) (option_map Nat.pred hi))).
    { simpl. by destruct hi as [[|h]|]. }
    simpl in Hd. rewrite Hd. clear Hd.
    destruct s1 as [|c1 s1].
    + simpl in Hs. subst s2. specialize (IH2 s eq_refl). simpl in IH2.
      destruct (option_map Nat.pred hi) as [[|h']|] eqn:Hh; [inversion IH2| |].
      * inversion IH2 as [| |? ? t1 t2 Ht1 Ht2| | | |]; subst.
        constructor; [done|].
        apply (matches_repeat_more _ _ _ [] t2); [done|done|done].
      * inversion IH2 as [| |? ? t1 t2 Ht1 Ht2| | | |]; subst.
        constructor; [done|].
        apply (matches_repeat_more _ _ _ [] t2); [done|done|done].
    + injection Hs as -> <-. constructor; [by apply IH1|done].
Qed.

Lemma matches_deriv_2 c r s :
  well_formed_regex r = true -> matches (deriv c r) s -> matches r (c :: s).
Proof.
  revert s.
  induction r as [| |p|r1 IH1 r2 IH2|r1 IH1 r2 IH2|r IH lo hi]; intros s; simpl.
  - intros _ H. inversion H.
  - intros _ H. inversion H.
  - intros _. destruct (p c) eqn:Hp; intros H; inversion H; subst.
    by constructor.
  - intros [W1 W2]%andb_true_iff H.
    assert (Hcat : forall t, matches (Cat (deriv c r1) r2) t ->
                             matches (Cat r1 r2) (c :: t)).
    { intros t Ht. inversion Ht as [| |? ? t1 t2 Ht1 Ht2| | | |]; subst.
      apply (matches_cat r1 r2 (c :: t1) t2); auto. }
    destruct (nullable r1) eqn:Hn; [|by apply Hcat].
    inversion H as [| | |? ? ? Hl|? ? ? Hr| |]; subst; [by apply Hcat|].
    apply (matches_cat r1 r2 [] (c :: s)); [by apply nullable_matches_nil|auto].
  - intros [W1 W2]%andb_true_iff H.
    inversion H; subst; [apply matches_alt_l|apply matches_alt_r]; auto.
  - intros [Wr Whi]%andb_true_iff H.
    assert (Hd : hi <> Some 0%nat
                 /\ matches
                      (Cat (deriv c r)
                         (Repeat r (Nat.pred lo) (option_map Nat.pred hi)))
                      s).
    { destruct hi as [[|h]|]; [inversion H|done|done]. }
    destruct Hd as [Hhi Hd].
    inversion Hd as [| |? ? t1 t2 Ht1 Ht2| | | |]; subst.
    apply (matches_repeat_more r lo hi (c :: t1) t2); auto.
Qed.

Lemma accepts_matches r s :
  well_formed_regex r = true -> accepts r s = true <-> matches r s.
Proof.
  revert r. induction s as [|c s IH]; intros r W; simpl.
  - split; [by apply nullable_matches_nil | apply matches_nil_nullable].
  - rewrite IH by by apply well_formed_deriv. split.
    + by apply matches_deriv_2.
    + intros H. by apply (matches_deriv_1 c r (c :: s)).
Qed.

Lemma chomp_app s : chomp (s ++ [10%N]) = Some s.
Proof.
  induction s as [|c s IH]; [done|].
  change (chomp ((c :: s) ++ [10%N]))
    with (match s ++ [10%N] with
          | [] => if (c =? 10)%N then Some [] else None
          | _ :: _ => option_map (cons c) (chomp (s ++ [10%N]))
          end).
  rewrite IH. by destruct s.
Qed.

Lemma chomp_spec s s' : chomp s = Some s' <-> s = s' ++ [10%N].
Proof.
  split; [|intros ->; apply chomp_app].
  revert s'. induction s as [|c s IH]; intros s'; [done|].
  destruct s as [|c' s].
  - simpl. destruct (N.eqb_spec c 10) as [->|Hc]; [|done]. by intros [= <-].
  - change (chomp (c :: c' :: s)) with (option_map (cons c) (chomp (c' :: s))).
    destruct (chomp (c' :: s)) as [t|]; [|done].
    intros [= <-]. by rewrite (IH t).
Qed.

Lemma re_match_spec r s :
  well_formed_regex r = true ->
  re_match r s = true
  <-> matches r s \/ exists s', s = s' ++ [10%N] /\ matches r s'.
Proof.
  intros W. unfold re_match. rewrite orb_true_iff, accepts_matches by done.
  split; intros [H|H]; [by left| |by left|].
  - right. destruct (chomp s) as [s'|] eqn:Hc; [|done].
    exists s'. split; [by apply chomp_spec|by apply accepts_matches].
  - right. destruct H as (s' & Hs & Hm). apply chomp_spec in Hs. rewrite Hs.
    by apply accepts_matches.
Qed.

(** The patterns of the two programs are well-formed. *)
Lemma patterns_well_formed :
  Forall (fun r => well_formed_regex r = true)
    [FormValidation.name_pattern; FormValidation.email_pattern;
     FormValidation.phone_pattern; FormValidation2.name_pattern;
     FormValidation2.email_pattern; FormValidation2.phone_pattern].
Proof. repeat constructor. Qed.

(** ** Validity records *)

Lemma lit_app_nonempty (prefix : str) (text : string) :
  lit text <> [] -> prefix ++ lit text <> [].
Proof. intros H E. by apply app_eq_nil in E as [_ E]. Qed.

(** A rule list whose messages are all non-empty yields a well-formed
    record. *)
Lemma first_violation_well_formed (rules : list (bool * str)) :
  Forall (fun rule => rule.2 <> []) rules ->
  well_formed (first_violation rules).
Proof.
  unfold first_violation. induction 1 as [|[violated m] rules Hm _ IH]; simpl.
  - by left.
  - destruct violated; simpl; [by right | apply IH].
Qed.

Lemma first_violation_verdict (rules : list (bool * str)) :
  (first_violation rules).1 = forallb (fun rule => negb rule.1) rules.
Proof.
  unfold first_violation. induction rules as [|[violated m] rules IH]; simpl.
  - done.
  - by destruct violated.
Qed.

Ltac nonempty_messages :=
  repeat constructor; simpl;
  first [ by apply lit_app_nonempty | done ].

(** ** The validators on the raw values of their fields *)

Section ValidatorsA.

Variable today : Z.
Variable int_of_str : str -> option Z.

Lemma validate_name_rules_A s fn :
  FormValidation.validate_name (VStr s) fn
  = Ok (first_violation (FormValidation.name_rules s fn)).
Proof.
  unfold FormValidation.validate_name, FormValidation.name_rules,
    first_violation.
  simpl. destruct (truthy_str s); simpl; [|done].
  destruct (re_match FormValidation.name_pattern s); simpl; [|done].
  by destruct (length s <? 2)%nat.
Qed.

Lemma validate_email_rules_A s :
  FormValidation.validate_email (VStr s)
  = Ok (first_violation (FormValidation.email_rules s)).
Proof.
  unfold FormValidation.validate_email, FormValidation.email_rules,
    first_violation.
  simpl. by destruct (re_match FormValidation.email_pattern s).
Qed.

Lemma validate_phone_rules_A s :
  FormValidation.validate_phone (VStr s)
  = Ok (first_violation (FormValidation.phone_rules s)).
Proof.
  unfold FormValidation.validate_phone, FormValidation.phone_rules,
    first_violation.
  simpl. by destruct (re_match FormValidation.phone_pattern s).
Qed.

(** The conversion of the age raises [TypeError] on nothing that is a
    string or an integer, and [validate_age] catches its [ValueError]. *)
Lemma validate_age_rules_A v :
  (exists z, v = VInt z) \/ (exists s, v = VStr s) ->
  FormValidation.validate_age int_of_str v
  = Ok (first_violation (FormValidation.age_rules int_of_str v)).
Proof.
  unfold FormValidation.validate_age, FormValidation.age_rules,
    first_violation.
  intros [[z ->]|[s ->]]; simpl.
  - by destruct ((z <? 0)%Z || (z >? 120)%Z).
  - destruct (int_of_str s) as [z|]; simpl; [|done].
    by destruct ((z <? 0)%Z || (z >? 120)%Z).
Qed.

Lemma add_days_in_range d n :
  (0 < d + n <= MAXORDINAL)%Z -> add_days d n = Ok (d + n)%Z.
Proof.
  intros H. unfold add_days.
  replace ((0 <? d + n)%Z && (d + n <=? MAXORDINAL)%Z) with true; [done|].
  symmetry. apply andb_true_iff.
  split; [apply Z.ltb_lt | apply Z.leb_le]; lia.
Qed.

Lemma validate_date_rules_A d :
  (0 < today + 5 * 365 <= MAXORDINAL)%Z ->
  FormValidation.validate_date today (VDate d)
  = Ok (first_violation (FormValidation.date_rules today d)).
Proof.
  intros H. unfold FormValidation.validate_date, FormValidation.date_rules,
    first_violation.
  rewrite add_days_in_range by done.
  cbn [rbind lt gt compare List.find fst].
  rewrite Z.ltb_compare, Z.gtb_ltb, Z.ltb_antisym, Z.leb_compare.
  destruct (d ?= FormValidation.earliest_date)%Z; try done;
    destruct (d ?= today + 5 * 365)%Z; done.
Qed.

End ValidatorsA.

Section ValidatorsB.

Variable today : Z.

Lemma validate_name_rules_B s fn :
  FormValidation2.validate_name (VStr s) fn
  = Ok (first_violation (FormValidation2.name_rules s fn)).
Proof.
  unfold FormValidation2.validate_name, FormValidation2.name_rules,
    first_violation.
  simpl. destruct (truthy_str s); simpl; [|done].
  by destruct (re_match FormValidation2.name_pattern s).
Qed.

Lemma validate_email_rules_B s :
  FormValidation2.validate_email (VStr s)
  = Ok (first_violation (FormValidation2.email_rules s)).
Proof.
  unfold FormValidation2.validate_email, FormValidation2.email_rules,
    first_violation.
  simpl. destruct (truthy_str s); simpl; [|done].
  by destruct (re_match FormValidation2.email_pattern s).
Qed.

Lemma validate_phone_rules_B s :
  FormValidation2.validate_phone (VStr s)
  = Ok (first_violation (FormValidation2.phone_rules s)).
Proof.
  unfold FormValidation2.validate_phone, FormValidation2.phone_rules,
    first_violation.
  simpl. destruct (truthy_str s); simpl; [|done].
  by destruct (re_match FormValidation2.phone_pattern _).
Qed.

Lemma validate_age_rules_B z :
  FormValidation2.validate_age (VInt z)
  = Ok (first_violation (FormValidation2.age_rules z)).
Proof.
  unfold FormValidation2.validate_age, FormValidation2.age_rules,
    first_violation, le, gt.
  cbn [rbind compare List.find fst].
  rewrite Z.leb_compare, Z.gtb_ltb, Z.ltb_antisym, Z.leb_compare.
  destruct (z ?= 0)%Z; try done; destruct (z ?= 120)%Z; done.
Qed.

Lemma validate_date_rules_B d :
  FormValidation2.validate_date today (FormValidation2.date_value d)
  = Ok (first_violation (FormValidation2.date_rules today d)).
Proof.
  unfold FormValidation2.validate_date, FormValidation2.date_rules,
    first_violation, gt.
  destruct d as [d|]; [|done].
  cbn [FormValidation2.date_value truthy negb rbind compare List.find fst
       bool_decide].
  rewrite Z.gtb_ltb, Z.ltb_antisym, Z.leb_compare.
  by destruct (d ?= today)%Z.
Qed.

End ValidatorsB.

(** Whatever the argument, a record that a validator returns is
    well-formed. *)

Ltac returned_record :=
  repeat first
    [ progress simpl
    | match goal with
      | |- Ok _ = Ok _ -> _ => intros [= <-]
      | |- Raise _ = Ok _ -> _ => discriminate
      | |- well_formed (true, []) => by left
      | |- well_formed (false, _) =>
          right; split; [done | first [ by apply lit_app_nonempty | done ]]
      | |- context [if ?b then _ else _] => destruct b
      | |- context [rbind ?m _] => destruct m
      | |- context [try_except_ValueError ?m _] => destruct m as [?|[]]
      end ].

Section AnyArgument.

Variable today : Z.
Variable int_of_str : str -> option Z.

Lemma validate_name_returns_A v fn r :
  FormValidation.validate_name v fn = Ok r -> well_formed r.
Proof. unfold FormValidation.validate_name. returned_record. Qed.

Lemma validate_email_returns_A v r :
  FormValidation.validate_email v = Ok r -> well_formed r.
Proof. unfold FormValidation.validate_email. returned_record. Qed.

Lemma validate_phone_returns_A v r :
  FormValidation.validate_phone v = Ok r -> well_formed r.
Proof. unfold FormValidation.validate_phone. returned_record. Qed.

Lemma validate_age_returns_A v r :
  FormValidation.validate_age int_of_str v = Ok r -> well_formed r.
Proof.
  unfold FormValidation.validate_age.
  destruct (int int_of_str v) as [z|[]]; returned_record.
Qed.

Lemma validate_date_returns_A v r :
  FormValidation.validate_date today v = Ok r -> well_formed r.
Proof. unfold FormValidation.validate_date. returned_record. Qed.

Lemma validate_name_returns_B v fn r :
  FormValidation2.validate_name v fn = Ok r -> well_formed r.
Proof. unfold FormValidation2.validate_name. returned_record. Qed.

Lemma validate_email_returns_B v r :
  FormValidation2.validate_email v = Ok r -> well_formed r.
Proof. unfold FormValidation2.validate_email. returned_record. Qed.

Lemma validate_phone_returns_B v r :
  FormValidation2.validate_phone v = Ok r -> well_formed r.
Proof. unfold FormValidation2.validate_phone. returned_record. Qed.

Lemma validate_age_returns_B v r :
  FormValidation2.validate_age v = Ok r -> well_formed r.
Proof. unfold FormValidation2.validate_age. returned_record. Qed.

Lemma validate_date_returns_B v r :
  FormValidation2.validate_date today v = Ok r -> well_formed r.
Proof. unfold FormValidation2.validate_date. returned_record. Qed.

End AnyArgument.

(** C3: on every raw value of its field (a string for the names, the
    email and the phone; an integer or, in variant A, a string for the
    age; a date for the dates) each validator returns the record of the
    first violated rule: success with the empty message, or failure with
    the non-empty message of that rule.  And whatever a validator is
    given, it never returns success with a message or failure without
    one. *)
Theorem validators_return_well_formed_records
  (today : Z) (int_of_str : str -> option Z)
  (Htoday : (0 < today + 5 * 365 <= MAXORDINAL)%Z) :
  ((forall s fn,
      reports_first_violation (FormValidation.validate_name (VStr s) fn)
        (FormValidation.name_rules s fn))
   /\ (forall s,
      reports_first_violation (FormValidation.validate_email (VStr s))
        (FormValidation.email_rules s))
   /\ (forall s,
      reports_first_violation (FormValidation.validate_phone (VStr s))
        (FormValidation.phone_rules s))
   /\ (forall z,
      reports_first_violation
        (FormValidation.validate_age int_of_str (VInt z))
        (FormValidation.age_rules int_of_str (VInt z)))
   /\ (forall s,
      reports_first_violation
        (FormValidation.validate_age int_of_str (VStr s))
        (FormValidation.age_rules int_of_str (VStr s)))
   /\ (forall d,
      reports_first_violation (FormValidation.validate_date today (VDate d))
        (FormValidation.date_rules today d)))
  /\ ((forall s fn,
      reports_first_violation (FormValidation2.validate_name (VStr s) fn)
        (FormValidation2.name_rules s fn))
   /\ (forall s,
      reports_first_violation (FormValidation2.validate_email (VStr s))
        (FormValidation2.email_rules s))
   /\ (forall s,
      reports_first_violation (FormValidation2.validate_phone (VStr s))
        (FormValidation2.phone_rules s))
   /\ (forall z,
      reports_first_violation (FormValidation2.validate_age (VInt z))
        (FormValidation2.age_rules z))
   /\ (forall d,
      reports_first_violation
        (FormValidation2.validate_date today (FormValidation2.date_value d))
        (FormValidation2.date_rules today d)))
  /\ ((forall fn,
        never_ill_formed (fun v => FormValidation.validate_name v fn))
   /\ never_ill_formed FormValidation.validate_email
   /\ never_ill_formed FormValidation.validate_phone
   /\ never_ill_formed (FormValidation.validate_age int_of_str)
   /\ never_ill_formed (FormValidation.validate_date today)
   /\ (forall fn,
        never_ill_formed (fun v => FormValidation2.validate_name v fn))
   /\ never_ill_formed FormValidation2.validate_email
   /\ never_ill_formed FormValidation2.validate_phone
   /\ never_ill_formed FormValidation2.validate_age
   /\ never_ill_formed (FormValidation2.validate_date today)).
Proof.
  split; [|split].
  - repeat split; try (apply first_violation_well_formed; nonempty_messages).
    + apply validate_name_rules_A.
    + apply validate_email_rules_A.
    + apply validate_phone_rules_A.
    + apply validate_age_rules_A. left. by eexists.
    + apply validate_age_rules_A. right. by eexists.
    + by apply validate_date_rules_A.
  - repeat split; try (apply first_violation_well_formed; nonempty_messages).
    + apply validate_name_rules_B.
    + apply validate_email_rules_B.
    + apply validate_phone_rules_B.
    + apply validate_age_rules_B.
    + apply validate_date_rules_B.
  - unfold never_ill_formed.
    repeat split; intros.
    + by eapply validate_name_returns_A.
    + by eapply validate_email_returns_A.
    + by eapply validate_phone_returns_A.
    + by eapply validate_age_returns_A.
    + by eapply validate_date_returns_A.
    + by eapply validate_name_returns_B.
    + by eapply validate_email_returns_B.
    + by eapply validate_phone_returns_B.
    + by eapply validate_age_returns_B.
    + by eapply validate_date_returns_B.
Qed.

(** On the day of the scenarios the birth date 1985-03-09 breaks the
    first rule of variant A, and its validator says so. *)
Lemma validators_return_well_formed_records_witness :
  (0 < Scenario.today + 5 * 365 <= MAXORDINAL)%Z
  /\ FormValidation.validate_date Scenario.today (VDate (date 1985 3 9))
     = Ok (false, lit "Date must be after 1990-01-01").
Proof.
  assert (H : (0 < Scenario.today + 5 * 365 <= MAXORDINAL)%Z)
    by (split; [reflexivity | discriminate]).
  split; [exact H|].
  exact (proj1 (proj2 (proj2 (proj2 (proj2 (proj2 (proj1
    (validators_return_well_formed_records
       Scenario.today Scenario.int_of_str H))))))
    (date 1985 3 9))).
Defined.

(** ** The concrete scenarios *)

(** C8: the phone number (555) 123-4567 passes in variant A, and
    555-CALL-NOW fails in both variants. *)
Theorem validate_phone_scenarios :
  FormValidation.validate_phone (VStr (lit "(555) 123-4567")) = Ok (true, [])
  /\ FormValidation.validate_phone (VStr (lit "555-CALL-NOW"))
     = Ok (false, lit "Please enter a valid phone number")
  /\ FormValidation2.validate_phone (VStr (lit "555-CALL-NOW"))
     = Ok (false, lit "Phone must be 10 digits").
Proof. repeat split; vm_compute; reflexivity. Qed.

(** C10: in both variants [validate_name] accepts the two hyphens and the
    two spaces, non-empty strings without a single letter, whatever the
    name of the field. *)
Theorem validate_name_accepts_letterless (field_name : str) :
  Forall
    (fun name =>
       name <> []
       /\ existsb ascii_letter name = false
       /\ FormValidation.validate_name (VStr name) field_name = Ok (true, [])
       /\ FormValidation2.validate_name (VStr name) field_name = Ok (true, []))
    [lit "--"; lit "  "].
Proof. repeat constructor; try done; vm_compute; reflexivity. Qed.

(** ** The window of accepted dates in variant A *)

(** [validate_date] accepts exactly the dates from 1990-01-01 to 1825 days
    after today. *)
Lemma validate_date_accepts_A (today d : Z) :
  (0 < today + 5 * 365 <= MAXORDINAL)%Z ->
  verdict (FormValidation.validate_date today (VDate d)) = true
  <-> (date 1990 1 1 <= d <= today + 1825)%Z.
Proof.
  intros H. rewrite validate_date_rules_A by done.
  unfold verdict, first_violation, FormValidation.date_rules,
    FormValidation.earliest_date.
  cbn [List.find fst].
  destruct (Z.ltb_spec d (date 1990 1 1)); simpl.
  - split; [done | lia].
  - rewrite Z.gtb_ltb.
    destruct (Z.ltb_spec (today + 5 * 365) d); simpl; split; (done || lia).
Qed.

(** C5: the upper end of the window is 1825 days after today, which is
    short of five years: on 2024-01-01 the last accepted date is
    2028-12-30, and 2028-12-31, a day before the fifth anniversary
    2029-01-01, is rejected as more than five years ahead. *)
Theorem validate_date_five_years_short :
  let today := date 2024 1 1 in
  add_days today (5 * 365) = Ok (date 2028 12 30)
  /\ (date 2028 12 31 < date (2024 + 5) 1 1)%Z
  /\ FormValidation.validate_date today (VDate (date 2028 12 31))
     = Ok (false, lit "Date cannot be more than 5 years in the future").
Proof. repeat split. Qed.

(** ** Malformed ages *)

(** The string abc is not a number, and the [validate_age] of variant B,
    which compares its argument without converting it, raises on it. *)
Lemma validate_age_live_raises_on_text :
  int Scenario.int_of_str (VStr (lit "abc")) = Raise ValueError
  /\ FormValidation2.validate_age (VStr (lit "abc")) = Raise TypeError
  /\ ~ (exists r, FormValidation2.validate_age (VStr (lit "abc")) = Ok r).
Proof. repeat split. intros [r Hr]. discriminate Hr. Qed.

(** C7, amended: in variant A, on every string that [int] cannot convert,
    [validate_age] returns the failure record with the message asking for
    a valid number and does not raise; the [validate_age] of variant B
    converts nothing and raises [TypeError] on a string. *)
Theorem validate_age_malformed_input
  (int_of_str : str -> option Z) (s : str) :
  int_of_str s = None ->
  FormValidation.validate_age int_of_str (VStr s)
  = Ok (false, lit "Please enter a valid number")
  /\ FormValidation2.validate_age (VStr s) = Raise TypeError.
Proof.
  intros H. split; [|done].
  unfold FormValidation.validate_age. simpl. by rewrite H.
Qed.

Lemma validate_age_malformed_input_witness :
  Scenario.int_of_str (lit "12a") = None
  /\ FormValidation.validate_age Scenario.int_of_str (VStr (lit "12a"))
     = Ok (false, lit "Please enter a valid number").
Proof.
  split; [reflexivity|].
  apply (validate_age_malformed_input Scenario.int_of_str (lit "12a")).
  reflexivity.
Defined.

(** ** Variant A: the submit handler *)

Lemma lt_dates (a b : Z) : lt (VDate a) (VDate b) = Ok (a <? b)%Z.
Proof. unfold lt. simpl. rewrite Z.ltb_compare. by destruct (a ?= b)%Z. Qed.

Lemma ge_dates (a b : Z) : ge (VDate a) (VDate b) = Ok (negb (a <? b)%Z).
Proof. unfold ge. simpl. rewrite Z.ltb_compare. by destruct (a ?= b)%Z. Qed.

(** The loop over the validations shows the failing messages, in order. *)
Lemma for_each_shows_failing (validations : list (bool * str)) s :
  for_each validations
    (fun '(valid, message) =>
       if negb valid then St.error message else ret tt) s
  = (Ok tt, {| St.store := St.store s;
               St.screen :=
                 St.screen s ++ map St.Error (failing validations) |}).
Proof.
  revert s. induction validations as [|[valid m] vs IH]; intros [d scr].
  - simpl. unfold ret. by rewrite app_nil_r.
  - cbn [for_each]. unfold bind. destruct valid; simpl.
    + apply IH.
    + rewrite IH. unfold failing. simpl. by rewrite <- app_assoc.
Qed.

Lemma failing_nil_iff (validations : list (bool * str)) :
  failing validations = [] <-> forallb fst validations = true.
Proof.
  unfold failing. induction validations as [|[valid m] vs IH]; simpl.
  - done.
  - destruct valid; simpl; [done|]. split; discriminate.
Qed.

Section SubmitA.

Variable today : Z.
Variable int_of_str : str -> option Z.
Hypothesis Htoday : (0 < today + 5 * 365 <= MAXORDINAL)%Z.

(** The seven validations are computed without an exception, and their
    verdicts are those of the six fields and of the date range. *)
Lemma validations_returns w :
  exists vs,
    FormValidation.validations today int_of_str w = Ok vs
    /\ forallb fst vs
       = FormValidation.fields_valid today int_of_str w
         && (FormValidation.start_date w <? FormValidation.end_date w)%Z.
Proof using Htoday.
  unfold FormValidation.validations, FormValidation.fields_valid.
  rewrite !validate_name_rules_A, validate_email_rules_A,
    validate_phone_rules_A, validate_date_rules_A, lt_dates by done.
  rewrite validate_age_rules_A by (left; by eexists).
  eexists. split; [reflexivity|].
  cbn [forallb fst verdict].
  repeat match goal with
         | |- context [first_violation ?l] => destruct (first_violation l)
         end.
  cbn [fst verdict]. by rewrite andb_true_r, !andb_assoc.
Qed.

Lemma on_submit_accepts w s :
  FormValidation.fields_valid today int_of_str w
  && (FormValidation.start_date w <? FormValidation.end_date w)%Z = true ->
  FormValidation.on_submit today int_of_str w s
  = (Raise RerunException,
     {| St.store :=
          list_to_map (FormValidation.submitted_entries w) ∪ St.store s;
        St.screen :=
          St.screen s
          ++ [St.Success (lit "Form submitted successfully!")] |}).
Proof using Htoday.
  intros Hvalid. destruct (validations_returns w) as (vs & Hvs & Hall).
  unfold FormValidation.on_submit, bind, lift. rewrite Hvs, Hall, Hvalid.
  reflexivity.
Qed.

Lemma on_submit_rejects w s :
  FormValidation.fields_valid today int_of_str w
  && (FormValidation.start_date w <? FormValidation.end_date w)%Z = false ->
  exists vs,
    FormValidation.validations today int_of_str w = Ok vs
    /\ failing vs <> []
    /\ FormValidation.on_submit today int_of_str w s
       = (Ok tt,
          {| St.store := St.store s;
             St.screen := St.screen s ++ map St.Error (failing vs) |}).
Proof using Htoday.
  intros Hvalid. destruct (validations_returns w) as (vs & Hvs & Hall).
  exists vs. split; [done|]. split.
  - rewrite failing_nil_iff, Hall, Hvalid. discriminate.
  - unfold FormValidation.on_submit, bind, lift. rewrite Hvs, Hall, Hvalid.
    apply for_each_shows_failing.
Qed.

Lemma submitted_after_accept w (d : gmap string value) :
  (list_to_map (FormValidation.submitted_entries w) ∪ d) !! "submitted"
  = Some (VBool true).
Proof.
  apply lookup_union_Some_l. unfold FormValidation.submitted_entries.
  by simplify_map_eq.
Qed.

End SubmitA.

(** ** Loops over the keys of the store *)

Lemma for_each_ext {S A} (l : list A) (f g : A -> M S unit) :
  (forall x, f x = g x) -> for_each l f = for_each l g.
Proof.
  intros H. induction l as [|x l IH]; simpl; [done|]. by rewrite H, IH.
Qed.

Lemma for_each_set (f : string -> value) (l : list string) s :
  for_each l (fun k => St.set k (f k)) s
  = (Ok tt, St.with_store (fun d => foldl (fun d k => <[k := f k]> d) d l) s).
Proof.
  revert s. induction l as [|k l IH]; intros [d scr]; [done|].
  cbn [for_each]. unfold bind, St.set at 1. by rewrite IH.
Qed.

Lemma lookup_foldl_insert (f : string -> value) (l : list string)
  (d : gmap string value) (j : string) :
  foldl (fun d k => <[k := f k]> d) d l !! j
  = if decide (j ∈ l) then Some (f j) else d !! j.
Proof.
  revert d. induction l as [|k l IH]; intros d.
  - by rewrite decide_False by apply not_elem_of_nil.
  - cbn [foldl]. rewrite IH. destruct (decide (j ∈ l)) as [Hin|Hin].
    + by rewrite decide_True by (by apply list_elem_of_further).
    + destruct (decide (j = k)) as [->|Hne].
      * rewrite lookup_insert_eq.
        by rewrite decide_True by apply list_elem_of_here.
      * rewrite lookup_insert_ne by done.
        rewrite decide_False; [done|].
        by intros [?|?]%elem_of_cons.
Qed.

Lemma for_each_del (l : list string) s :
  NoDup l -> (forall k, k ∈ l -> is_Some (St.store s !! k)) ->
  for_each l St.del s
  = (Ok tt, St.with_store (fun d => foldl (fun d k => delete k d) d l) s).
Proof.
  revert s. induction l as [|k l IH]; intros [d scr] Hnd Hin; [done|].
  apply NoDup_cons in Hnd as [Hk Hnd].
  cbn [for_each]. unfold bind, St.del at 1. simpl.
  destruct (Hin k) as [v Hv]; [set_solver|]. simpl in Hv. rewrite Hv.
  rewrite IH; [done|done|].
  intros k' Hk'. simpl. rewrite lookup_delete_ne by set_solver.
  apply Hin. set_solver.
Qed.

Lemma lookup_foldl_delete (l : list string) (d : gmap string value)
  (j : string) :
  foldl (fun d k => delete k d) d l !! j
  = if decide (j ∈ l) then None else d !! j.
Proof.
  revert d. induction l as [|k l IH]; intros d.
  - by rewrite decide_False by apply not_elem_of_nil.
  - cbn [foldl]. rewrite IH. destruct (decide (j ∈ l)) as [Hin|Hin].
    + by rewrite decide_True by (by apply list_elem_of_further).
    + destruct (decide (j = k)) as [->|Hne].
      * rewrite lookup_delete_eq.
        by rewrite decide_True by apply list_elem_of_here.
      * rewrite lookup_delete_ne by done.
        rewrite decide_False; [done|].
        by intros [?|?]%elem_of_cons.
Qed.

Lemma elem_of_keys (d : gmap string value) (k : string) :
  k ∈ (map_to_list d).*1 <-> is_Some (d !! k).
Proof.
  rewrite list_elem_of_fmap. split.
  - intros ([k' v] & -> & Hin). apply elem_of_map_to_list in Hin. by eexists.
  - intros [v Hv]. exists (k, v). split; [done|]. by apply elem_of_map_to_list.
Qed.

Lemma clear_form_spec today s :
  exists d',
    FormValidation.clear_form today s
    = (Ok tt, {| St.store := d'; St.screen := St.screen s |})
    /\ forall k,
         d' !! k
         = (fun _ => FormValidation.cleared_value today k) <$> St.store s !! k.
Proof.
  unfold FormValidation.clear_form, bind, St.keys.
  rewrite (for_each_ext _ _
             (fun k => St.set k (FormValidation.cleared_value today k))).
  2: { intros k. unfold FormValidation.cleared_value.
       by repeat case_bool_decide. }
  rewrite for_each_set. eexists. split; [reflexivity|].
  intros k. rewrite lookup_foldl_insert.
  destruct (decide _) as [Hin|Hin].
  - apply elem_of_keys in Hin as [v ->]. done.
  - destruct (St.store s !! k) eqn:E; [|done].
    exfalso. apply Hin, elem_of_keys. by eexists.
Qed.

Lemma clear_session_spec s :
  FormValidation2.clear_session s
  = (Ok tt, {| St.store := ∅; St.screen := St.screen s |}).
Proof.
  unfold FormValidation2.clear_session, bind, St.keys.
  rewrite for_each_del.
  - unfold St.with_store. f_equal. f_equal. apply map_eq. intros j.
    rewrite lookup_foldl_delete, lookup_empty.
    destruct (decide _) as [Hin|Hin]; [done|].
    destruct (St.store s !! j) eqn:E; [|done].
    exfalso. apply Hin, elem_of_keys. by eexists.
  - apply NoDup_fst_map_to_list.
  - intros k. apply elem_of_keys.
Qed.

(** ** Variant B: a run of the live form *)

Section LiveForm.

Variable today : Z.

Lemma holds_edited_store w d :
  FormValidation2.holds_fields today w (FormValidation2.edited_store today w d).
Proof.
  intros key Hkey. unfold FormValidation2.edited_store.
  repeat (apply elem_of_cons in Hkey as [->|Hkey]; [by simplify_map_eq|]).
  by apply elem_of_nil in Hkey.
Qed.

Lemma holds_insert_other w d key v :
  key ∉ ["first_name"; "first_name_valid"; "last_name";
           "last_name_valid"; "email"; "email_valid"; "phone";
           "phone_valid"; "age"; "age_valid"; "birth_date";
           "birth_date_valid"; "start_date"; "start_date_valid";
           "end_date"; "end_date_valid"] ->
  FormValidation2.holds_fields today w d ->
  FormValidation2.holds_fields today w (<[key := v]> d).
Proof.
  intros Hkey Hd k Hk. rewrite lookup_insert_ne; [by apply Hd|].
  intros ->. done.
Qed.

(** A block of the live form: the flag of a field is set to the verdict
    of its validator. *)
Lemma writes_validated (cond : bool) (r : result (bool * str)) flag okmsg :
  (exists p, r = Ok p) -> (cond = false -> verdict r = false) ->
  writes
    (if cond then
       let* ' (is_valid, message) := lift r in
       St.set flag (VBool is_valid);;;
       if negb is_valid then St.error message else St.success okmsg
     else St.set flag (VBool false))
    tt (insert flag (VBool (verdict r))).
Proof.
  intros [[b m] ->] Hc. destruct cond.
  - eapply writes_ext.
    + eapply writes_bind; [apply writes_lift|]. simpl.
      eapply writes_bind; [apply writes_set|].
      destruct b; apply writes_show.
    + done.
  - rewrite Hc by done. apply writes_set.
Qed.

Lemma validate_date_rules_B_date d :
  FormValidation2.validate_date today (VDate d)
  = Ok (first_violation (FormValidation2.date_rules today (Some d))).
Proof. exact (validate_date_rules_B today (Some d)). Qed.

Lemma gt_ints (a b : Z) : gt (VInt a) (VInt b) = Ok (b <? a)%Z.
Proof.
  unfold gt. simpl. rewrite Z.ltb_compare, (Z.compare_antisym a b).
  by destruct (a ?= b)%Z.
Qed.

Lemma writes_date_range (a b : Z) :
  writes
    (if truthy (VDate a) && truthy (VDate b) then
       let* reversed := lift (ge (VDate a) (VDate b)) in
       if reversed then
         St.error (lit "Start date must be before end date");;;
         St.set "start_date_valid" (VBool false);;;
         St.set "end_date_valid" (VBool false)
       else
         St.success (lit "Valid date range!");;;
         St.set "start_date_valid" (VBool true);;;
         St.set "end_date_valid" (VBool true)
     else ret tt)
    tt
    (fun d => <["end_date_valid" := VBool (a <? b)%Z]>
                (<["start_date_valid" := VBool (a <? b)%Z]> d)).
Proof.
  cbn [truthy andb]. rewrite ge_dates.
  destruct (a <? b)%Z; cbn [negb].
  - eapply writes_ext.
    + eapply writes_bind; [apply writes_lift|].
      eapply writes_bind; [apply writes_show|].
      eapply writes_bind; apply writes_set.
    + done.
  - eapply writes_ext.
    + eapply writes_bind; [apply writes_lift|].
      eapply writes_bind; [apply writes_show|].
      eapply writes_bind; apply writes_set.
    + done.
Qed.

Lemma edit_fields_writes w :
  writes (FormValidation2.edit_fields today w) tt
    (FormValidation2.edited_store today w).
Proof.
  unfold FormValidation2.edit_fields.
  eapply writes_ext.
  - eapply writes_bind; [apply writes_widget|].
    eapply writes_bind.
    { apply writes_validated.
      - rewrite validate_name_rules_B. by eexists.
      - by destruct (FormValidation2.first_name w). }
    eapply writes_bind; [apply writes_widget|].
    eapply writes_bind.
    { apply writes_validated.
      - rewrite validate_name_rules_B. by eexists.
      - by destruct (FormValidation2.last_name w). }
    eapply writes_bind; [apply writes_widget|].
    eapply writes_bind.
    { apply writes_validated.
      - rewrite validate_email_rules_B. by eexists.
      - by destruct (FormValidation2.email w). }
    eapply writes_bind; [apply writes_widget|].
    eapply writes_bind.
    { apply writes_validated.
      - rewrite validate_phone_rules_B. by eexists.
      - by destruct (FormValidation2.phone w). }
    eapply writes_bind; [apply writes_widget|].
    eapply writes_bind; [rewrite gt_ints; apply writes_lift|].
    eapply writes_bind.
    { apply writes_validated.
      - rewrite validate_age_rules_B. by eexists.
      - intros Hage. rewrite validate_age_rules_B.
        unfold verdict, first_violation, FormValidation2.age_rules.
        cbn [List.find fst].
        rewrite Z.leb_antisym, Z.gtb_ltb, Hage. done. }
    eapply writes_bind; [apply writes_widget|].
    eapply writes_bind.
    { apply (writes_validated true).
      - rewrite validate_date_rules_B_date. by eexists.
      - done. }
    eapply writes_bind; [apply writes_widget|].
    eapply writes_bind; [apply writes_widget|].
    apply writes_date_range.
  - done.
Qed.

Lemma held_lookups w d :
  FormValidation2.holds_fields today w d ->
  d !! "first_name" = Some (VStr (FormValidation2.first_name w))
  /\ d !! "first_name_valid"
     = Some (VBool (verdict (FormValidation2.validate_name
                               (VStr (FormValidation2.first_name w))
                               (lit "First name"))))
  /\ d !! "last_name" = Some (VStr (FormValidation2.last_name w))
  /\ d !! "last_name_valid"
     = Some (VBool (verdict (FormValidation2.validate_name
                               (VStr (FormValidation2.last_name w))
                               (lit "Last name"))))
  /\ d !! "email" = Some (VStr (FormValidation2.email w))
  /\ d !! "email_valid"
     = Some (VBool (verdict (FormValidation2.validate_email
                               (VStr (FormValidation2.email w)))))
  /\ d !! "phone" = Some (VStr (FormValidation2.phone w))
  /\ d !! "phone_valid"
     = Some (VBool (verdict (FormValidation2.validate_phone
                               (VStr (FormValidation2.phone w)))))
  /\ d !! "age" = Some (VInt (FormValidation2.age w))
  /\ d !! "age_valid"
     = Some (VBool (verdict (FormValidation2.validate_age
                               (VInt (FormValidation2.age w)))))
  /\ d !! "birth_date" = Some (VDate (FormValidation2.birth_date w))
  /\ d !! "birth_date_valid"
     = Some (VBool (verdict (FormValidation2.validate_date today
                               (VDate (FormValidation2.birth_date w)))))
  /\ d !! "start_date" = Some (VDate (FormValidation2.start_date w))
  /\ d !! "start_date_valid"
     = Some (VBool (FormValidation2.start_date w
                    <? FormValidation2.end_date w)%Z)
  /\ d !! "end_date" = Some (VDate (FormValidation2.end_date w))
  /\ d !! "end_date_valid"
     = Some (VBool (FormValidation2.start_date w
                    <? FormValidation2.end_date w)%Z).
Proof.
  intros H.
  repeat split;
    (rewrite H by (repeat first [ apply list_elem_of_here
                                | apply list_elem_of_further ]);
     unfold FormValidation2.edited_store; by simplify_map_eq).
Qed.

(** The block of [get_validation_status] for a field whose flag is the
    verdict of its validator on the value held. *)
Lemma status_block {C} flag_key key default
  (validate : value -> result (bool * str)) required
  (acc : list str) (rest : list str -> M St.state C) s v :
  St.store s !! flag_key = Some (VBool (verdict (validate v))) ->
  St.store s !! key = Some v ->
  (exists p, validate v = Ok p) ->
  bind (St.get flag_key (VBool false))
    (fun flag =>
       bind
         (if negb (truthy flag) then
            let* current := St.get key default in
            if truthy current then
              let* arg := St.attr key in
              let* ' (is_valid, message) := lift (validate arg) in
              ret (if negb is_valid then acc ++ [message] else acc)
            else ret (acc ++ [required])
          else ret acc)
         rest) s
  = rest (acc ++ outstanding_of (truthy v) (validate v) required) s.
Proof.
  intros Hflag Hkey [[b m] Hv].
  unfold bind, St.get, St.attr, outstanding_of. rewrite Hflag, Hv. simpl.
  destruct b; simpl.
  - by rewrite app_nil_r.
  - rewrite Hkey. destruct (truthy v); simpl; [|done].
    rewrite Hkey. unfold lift. by rewrite Hv.
Qed.

Lemma status_block_age {C} required
  (acc : list str) (rest : list str -> M St.state C) s a :
  St.store s !! "age_valid"
  = Some (VBool (verdict (FormValidation2.validate_age (VInt a)))) ->
  St.store s !! "age" = Some (VInt a) ->
  bind (St.get "age_valid" (VBool false))
    (fun flag =>
       bind
         (if negb (truthy flag) then
            let* current := St.get "age" (VInt 0) in
            let* positive := lift (gt current (VInt 0)) in
            if positive then
              let* arg := St.attr "age" in
              let* ' (is_valid, message) :=
                lift (FormValidation2.validate_age arg) in
              ret (if negb is_valid then acc ++ [message] else acc)
            else ret (acc ++ [required])
          else ret acc)
         rest) s
  = rest (acc ++ outstanding_of (0 <? a)%Z
                   (FormValidation2.validate_age (VInt a)) required) s.
Proof.
  intros Hflag Hkey.
  unfold bind, St.get, St.attr, outstanding_of. rewrite Hflag.
  rewrite validate_age_rules_B.
  destruct (first_violation (FormValidation2.age_rules a)) as [b m] eqn:Hv.
  cbn [verdict message truthy negb].
  destruct b; cbn [negb].
  - unfold ret. by rewrite app_nil_r.
  - rewrite Hkey. unfold lift at 1. rewrite gt_ints.
    destruct (0 <? a)%Z; [|done].
    rewrite Hkey. unfold lift. rewrite validate_age_rules_B, Hv. done.
Qed.

Lemma get_validation_status_held w s :
  FormValidation2.holds_fields today w (St.store s) ->
  FormValidation2.get_validation_status today s
  = (Ok (FormValidation2.outstanding today w), s).
Proof.
  intros H. apply held_lookups in H.
  destruct H as (H1 & F1 & H2 & F2 & H3 & F3 & H4 & F4 & H5 & F5 & H6 & F6
                 & H7 & F7 & H8 & F8).
  unfold FormValidation2.get_validation_status.
  rewrite (status_block "first_name_valid" "first_name" (VStr [])
             (fun arg => FormValidation2.validate_name arg (lit "First name"))
             _ _ _ _ _ F1 H1)
    by (rewrite validate_name_rules_B; by eexists).
  rewrite (status_block "last_name_valid" "last_name" (VStr [])
             (fun arg => FormValidation2.validate_name arg (lit "Last name"))
             _ _ _ _ _ F2 H2)
    by (rewrite validate_name_rules_B; by eexists).
  rewrite (status_block "email_valid" "email" (VStr [])
             FormValidation2.validate_email _ _ _ _ _ F3 H3)
    by (rewrite validate_email_rules_B; by eexists).
  rewrite (status_block "phone_valid" "phone" (VStr [])
             FormValidation2.validate_phone _ _ _ _ _ F4 H4)
    by (rewrite validate_phone_rules_B; by eexists).
  rewrite (status_block_age _ _ _ _ _ F5 H5).
  rewrite (status_block "birth_date_valid" "birth_date" VNone
             (FormValidation2.validate_date today) _ _ _ _ _ F6 H6)
    by (rewrite validate_date_rules_B_date; by eexists).
  unfold bind, St.get, ret, lift. rewrite H7, H8.
  cbn [truthy]. rewrite ge_dates.
  unfold FormValidation2.outstanding. cbn [truthy app].
  destruct (_ <? _)%Z; cbn [negb]; by rewrite <- ?app_assoc, ?app_nil_r.
Qed.

Lemma outstanding_of_nil current r required :
  outstanding_of current r required = [] <-> verdict r = true.
Proof.
  unfold outstanding_of. destruct (verdict r); [done|].
  by destruct current.
Qed.

Lemma outstanding_nil_iff w :
  FormValidation2.outstanding today w = []
  <-> FormValidation2.fields_valid today w
      && (FormValidation2.start_date w <? FormValidation2.end_date w)%Z
      = true.
Proof.
  unfold FormValidation2.outstanding, FormValidation2.fields_valid.
  rewrite !app_nil, !outstanding_of_nil, !andb_true_iff.
  destruct (_ <? _)%Z; intuition congruence.
Qed.

Lemma form_valid_held w s :
  FormValidation2.holds_fields today w (St.store s) ->
  FormValidation2.form_valid s
  = FormValidation2.fields_valid today w
    && (FormValidation2.start_date w <? FormValidation2.end_date w)%Z.
Proof.
  intros H. apply held_lookups in H.
  destruct H as (H1 & F1 & H2 & F2 & H3 & F3 & H4 & F4 & H5 & F5 & H6 & F6
                 & H7 & F7 & H8 & F8).
  unfold FormValidation2.form_valid, FormValidation2.flag, read,
    FormValidation2.fields_valid.
  rewrite F1, F2, F3, F4, F5, F6, F7, F8. cbn [truthy].
  by rewrite <- andb_assoc, andb_diag.
Qed.

Lemma for_each_shows {X} (f : X -> St.shown) (l : list X) s :
  for_each l (fun x => St.show (f x)) s
  = (Ok tt, {| St.store := St.store s;
               St.screen := St.screen s ++ map f l |}).
Proof.
  revert s. induction l as [|x l IH]; intros [d scr].
  - simpl. unfold ret. by rewrite app_nil_r.
  - cbn [for_each]. unfold bind, St.show at 1. rewrite IH. simpl.
    by rewrite <- app_assoc.
Qed.

Lemma on_submit_held w s :
  FormValidation2.holds_fields today w (St.store s) ->
  FormValidation2.on_submit today s
  = (Ok tt,
     if FormValidation2.fields_valid today w
        && (FormValidation2.start_date w <? FormValidation2.end_date w)%Z
     then
       {| St.store := <["form_submitted" := VBool true]> (St.store s);
          St.screen :=
            St.screen s
            ++ [St.Success (lit "Form submitted successfully!")] |}
     else
       {| St.store := St.store s;
          St.screen :=
            St.screen s
            ++ St.Error (lit "Please fix the following validation errors:")
               :: map (fun m => St.Error (FormValidation2.bullet ++ m))
                      (FormValidation2.outstanding today w) |}).
Proof.
  intros H. unfold FormValidation2.on_submit, bind.
  rewrite (get_validation_status_held w) by done.
  pose proof (outstanding_nil_iff w) as Hnil.
  destruct (FormValidation2.outstanding today w) as [|m l] eqn:Hout.
  - rewrite (proj1 Hnil) by done. by destruct s.
  - destruct (_ && _); [by destruct Hnil as [_ Hnil]; discriminate Hnil|].
    cbn [truthy negb]. unfold St.error, St.show at 1.
    unfold St.error.
    rewrite (for_each_shows
               (fun m => St.Error (FormValidation2.bullet ++ m))).
    simpl. by rewrite <- app_assoc.
Qed.

Lemma ensure_key {C} key v (rest : unit -> M St.state C) s :
  bind (St.contains key)
    (fun present =>
       bind (if negb present then St.set key v else ret tt) rest) s
  = rest tt
      (St.with_store
         (fun d => match d !! key with Some _ => d | None => <[key := v]> d end)
         s).
Proof.
  destruct s as [d scr]. unfold bind, St.contains, St.with_store. simpl.
  by destruct (d !! key).
Qed.

Lemma bind_ok {S X Y} (m : M S X) (k : X -> M S Y) s a s' :
  m s = (Ok a, s') -> bind m k s = k a s'.
Proof. intros E. unfold bind. by rewrite E. Qed.

Lemma main_after_edit w c s :
  exists shown,
    FormValidation2.main today w c s
    = ((match c with
        | FormValidation2.Submit => FormValidation2.on_submit today
        | _ => ret tt
        end);;;
       FormValidation2.update_sidebar_table today c;;;
       FormValidation2.validation_summary today)
        {| St.store :=
             FormValidation2.edited_store today w
               (FormValidation2.initialised (St.store s));
           St.screen := St.screen s ++ shown |}.
Proof.
  unfold FormValidation2.main. rewrite !ensure_key.
  destruct (edit_fields_writes w
              (St.with_store
                 (fun d => match d !! "validation_messages" with
                           | Some _ => d
                           | None => <["validation_messages" := VList []]> d
                           end)
                 (St.with_store
                    (fun d => match d !! "form_submitted" with
                              | Some _ => d
                              | None => <["form_submitted" := VBool false]> d
                              end) s))) as [shown E].
  exists shown. by rewrite (bind_ok _ _ _ _ _ E).
Qed.

Lemma update_sidebar_table_shows c s :
  c <> FormValidation2.ClearForm ->
  exists shown,
    FormValidation2.update_sidebar_table today c s
    = (Ok tt, {| St.store := St.store s; St.screen := St.screen s ++ shown |}).
Proof.
  intros Hc. destruct s as [d scr].
  unfold FormValidation2.update_sidebar_table, FormValidation2.current_data,
    bind, St.get, ret. simpl.
  destruct (truthy _); simpl; destruct c; try done;
    first [ by eexists | exists []; by rewrite app_nil_r ].
Qed.

Lemma validation_summary_shows w s :
  FormValidation2.holds_fields today w (St.store s) ->
  exists shown,
    FormValidation2.validation_summary today s
    = (Ok tt, {| St.store := St.store s; St.screen := St.screen s ++ shown |}).
Proof.
  intros H. unfold FormValidation2.validation_summary.
  rewrite (bind_ok _ _ _ _ _ (get_validation_status_held w s H)).
  destruct (FormValidation2.outstanding today w) as [|m l] eqn:Hout.
  - destruct s. by eexists.
  - cbn [truthy negb].
    rewrite (bind_ok _ _ _ _ _ (get_validation_status_held w s H)).
    rewrite Hout. unfold St.error, St.warning, bind, St.show at 1.
    rewrite (for_each_shows
               (fun m => St.Warning (FormValidation2.bullet ++ m))).
    simpl. eexists. by rewrite <- app_assoc.
Qed.

Lemma form_submitted_not_field :
  "form_submitted"
  ∉ ["first_name"; "first_name_valid"; "last_name";
     "last_name_valid"; "email"; "email_valid"; "phone";
     "phone_valid"; "age"; "age_valid"; "birth_date";
     "birth_date_valid"; "start_date"; "start_date_valid";
     "end_date"; "end_date_valid"].
Proof.
  intros Hin.
  repeat (apply elem_of_cons in Hin as [Hin|Hin]; [discriminate|]).
  by apply elem_of_nil in Hin.
Qed.

Lemma submission_state_edited w d scr :
  FormValidation2.submission_state
    {| St.store :=
         FormValidation2.edited_store today w (FormValidation2.initialised d);
       St.screen := scr |}
  = FormValidation2.submission_state {| St.store := d; St.screen := scr |}.
Proof.
  unfold FormValidation2.submission_state, read,
    FormValidation2.edited_store, FormValidation2.initialised.
  cbn [St.store]. rewrite !lookup_insert_ne by done.
  destruct (d !! "form_submitted") as [v|] eqn:E; cbn zeta.
  - by destruct (d !! "validation_messages"); simplify_map_eq.
  - rewrite lookup_insert_ne by done.
    by destruct (d !! "validation_messages"); simplify_map_eq.
Qed.

Lemma main_submit w s :
  exists s',
    FormValidation2.main today w FormValidation2.Submit s = (Ok tt, s')
    /\ FormValidation2.holds_fields today w (St.store s')
    /\ FormValidation2.submission_state s'
       = if FormValidation2.fields_valid today w
            && (FormValidation2.start_date w <? FormValidation2.end_date w)%Z
         then Submitted
         else FormValidation2.submission_state s.
Proof.
  destruct (main_after_edit w FormValidation2.Submit s) as [sh1 ->].
  pose (s3 := {| St.store :=
                   FormValidation2.edited_store today w
                     (FormValidation2.initialised (St.store s));
                 St.screen := St.screen s ++ sh1 |}).
  fold s3.
  assert (H3 : FormValidation2.holds_fields today w (St.store s3))
    by apply holds_edited_store.
  rewrite (bind_ok _ _ _ _ _ (on_submit_held w s3 H3)).
  match goal with
  | |- context [if ?b then ?x else ?y] => set (s4 := if b then x else y)
  end.
  assert (H4 : FormValidation2.holds_fields today w (St.store s4)).
  { subst s4. destruct (_ && _); [|done]. simpl.
    apply holds_insert_other; [apply form_submitted_not_field | done]. }
  destruct (update_sidebar_table_shows FormValidation2.Submit s4) as [sh5 E5];
    [done|].
  rewrite (bind_ok _ _ _ _ _ E5).
  destruct (validation_summary_shows w
              {| St.store := St.store s4;
                 St.screen := St.screen s4 ++ sh5 |} H4)
    as [sh6 E6].
  rewrite E6. eexists. split; [reflexivity|]. split; [done|].
  cbn [St.store]. subst s4.
  destruct (_ && _).
  - unfold FormValidation2.submission_state, read. cbn [St.store].
    by rewrite lookup_insert_eq.
  - subst s3. cbn [St.store St.screen].
    etrans;
      [|etrans;
         [apply (submission_state_edited w (St.store s) (St.screen s))|]].
    + done.
    + by destruct s.
Qed.
End LiveForm.

(** ** The date range in the submit handler of variant A *)

Lemma failing_last (validations : list (bool * str)) (valid : bool) (m : str) :
  failing (validations ++ [(valid, m)])
  = failing validations ++ (if valid then [] else [m]).
Proof.
  unfold failing. rewrite List.filter_app, map_app. by destruct valid.
Qed.

Lemma validations_end_with_range today int_of_str w :
  (0 < today + 5 * 365 <= MAXORDINAL)%Z ->
  exists fields,
    FormValidation.validations today int_of_str w
    = Ok (fields
          ++ [((FormValidation.start_date w <? FormValidation.end_date w)%Z,
               lit "Start date must be before end date")]).
Proof.
  intros Htoday. unfold FormValidation.validations.
  rewrite !validate_name_rules_A, validate_email_rules_A,
    validate_phone_rules_A, validate_date_rules_A, lt_dates by done.
  rewrite validate_age_rules_A by (left; by eexists).
  by eexists [_; _; _; _; _; _].
Qed.

(** ** Variant A: a run of the form *)

(** The feedback of variant A only shows. *)
Lemma writes_feedback (cond : bool) (r : result (bool * str)) okmsg :
  (exists p, r = Ok p) ->
  writes
    (if cond then
       let* ' (is_valid, message) := lift r in
       if negb is_valid then St.error message else St.success okmsg
     else ret tt)
    tt id.
Proof.
  intros [[b m] ->]. destruct cond; [|apply writes_ret].
  eapply writes_ext.
  - eapply writes_bind; [apply writes_lift|]. destruct b; apply writes_show.
  - done.
Qed.

Lemma form_fields_writes today int_of_str w :
  (0 < today + 5 * 365 <= MAXORDINAL)%Z ->
  writes (FormValidation.form_fields today int_of_str w) tt id.
Proof.
  intros Htoday. unfold FormValidation.form_fields. eapply writes_ext.
  - eapply writes_bind.
    { apply writes_feedback. rewrite validate_name_rules_A. by eexists. }
    eapply writes_bind.
    { apply writes_feedback. rewrite validate_name_rules_A. by eexists. }
    eapply writes_bind.
    { apply writes_feedback. rewrite validate_email_rules_A. by eexists. }
    eapply writes_bind.
    { apply writes_feedback. rewrite validate_phone_rules_A. by eexists. }
    eapply writes_bind.
    { apply writes_feedback.
      rewrite validate_age_rules_A by (left; by eexists). by eexists. }
    apply writes_feedback. rewrite validate_date_rules_A by done. by eexists.
  - done.
Qed.

(** The date range is checked as soon as the two dates are entered: the
    message is shown exactly when the start date is not before the end
    date. *)
Lemma range_feedback_shows w s :
  FormValidation.range_feedback w s
  = (Ok tt,
     {| St.store := St.store s;
        St.screen :=
          St.screen s
          ++ (if (FormValidation.start_date w <? FormValidation.end_date w)%Z
              then []
              else [St.Error (lit "Start date must be before end date")]) |}).
Proof.
  unfold FormValidation.range_feedback. cbn [truthy andb].
  rewrite ge_dates. destruct s as [d scr].
  destruct (_ <? _)%Z; cbn [negb]; [|done].
  unfold bind, lift, ret. by rewrite app_nil_r.
Qed.

(** A run of variant A started by the submit button: the form is shown,
    then the handler decides. *)
Lemma main_submit_A today int_of_str w s :
  (0 < today + 5 * 365 <= MAXORDINAL)%Z ->
  is_Some (St.store s !! "submitted") ->
  exists r s',
    FormValidation.main today int_of_str w FormValidation.SubmitForm s
    = (r, s')
    /\ FormValidation.submission_state s'
       = (if FormValidation.fields_valid today int_of_str w
             && (FormValidation.start_date w <? FormValidation.end_date w)%Z
          then Some Submitted
          else FormValidation.submission_state s)
    /\ (FormValidation.fields_valid today int_of_str w
        && (FormValidation.start_date w <? FormValidation.end_date w)%Z
        = false ->
        r = Ok tt /\ St.store s' = St.store s).
Proof.
  intros Htoday [v Hv]. unfold FormValidation.main.
  destruct (form_fields_writes today int_of_str w Htoday s) as [sh1 E1].
  rewrite (bind_ok _ _ _ _ _ E1).
  rewrite (bind_ok _ _ _ _ _ (range_feedback_shows w _)).
  cbn [St.store St.screen id].
  match goal with
  | |- context [{| St.store := St.store s; St.screen := ?scr |}] =>
      set (s2 := {| St.store := St.store s; St.screen := scr |})
  end.
  destruct (FormValidation.fields_valid today int_of_str w
            && (FormValidation.start_date w <? FormValidation.end_date w)%Z)
    eqn:Hvalid.
  - unfold bind at 1.
    rewrite (on_submit_accepts today int_of_str Htoday w s2 Hvalid).
    do 2 eexists. split; [reflexivity|]. split; [|done].
    unfold FormValidation.submission_state. cbn [St.store].
    by rewrite submitted_after_accept.
  - destruct (on_submit_rejects today int_of_str Htoday w s2 Hvalid)
      as (vs & _ & _ & Hrun).
    rewrite (bind_ok _ _ _ _ _ Hrun).
    unfold FormValidation.create_sidebar_markdown, bind, ret, St.item.
    cbn [St.store]. subst s2. cbn [St.store]. rewrite Hv.
    unfold FormValidation.submission_state. rewrite Hv.
    destruct (truthy v) eqn:Htruthy; do 2 eexists; (split; [reflexivity|]);
      cbn [St.store]; rewrite ?Hv, ?Htruthy; done.
Qed.

(** ** The claims on the state machine *)

(** C1: a submit action takes the form from Editing to Submitted only
    when every field's verdict is true and the start date is strictly
    before the end date.  When a validation fails, the handler shows the
    outstanding messages (those of the failing validations in variant A,
    those of [get_validation_status] in variant B), shows no success, and
    leaves the store as it was, so that the form stays in Editing.  This
    holds of the handlers and of the whole run of [main] that the press
    of the submit button starts. *)
Theorem submit_gated_by_validation
  (today : Z) (int_of_str : str -> option Z)
  (Htoday : (0 < today + 5 * 365 <= MAXORDINAL)%Z) :
  (forall w s,
     let valid :=
       FormValidation.fields_valid today int_of_str w
       && (FormValidation.start_date w <? FormValidation.end_date w)%Z in
     let after := (FormValidation.on_submit today int_of_str w s).2 in
     (valid = true ->
      FormValidation.on_submit today int_of_str w s
      = (Raise RerunException,
         {| St.store :=
              list_to_map (FormValidation.submitted_entries w) ∪ St.store s;
            St.screen :=
              St.screen s
              ++ [St.Success (lit "Form submitted successfully!")] |})
      /\ FormValidation.submission_state after = Some Submitted)
     /\ (valid = false ->
         exists vs,
           FormValidation.validations today int_of_str w = Ok vs
           /\ failing vs <> []
           /\ FormValidation.on_submit today int_of_str w s
              = (Ok tt,
                 {| St.store := St.store s;
                    St.screen := St.screen s ++ map St.Error (failing vs) |}))
     /\ (FormValidation.submission_state s = Some Editing ->
         FormValidation.submission_state after = Some Submitted ->
         valid = true)
     /\ (is_Some (St.store s !! "submitted") ->
         exists r s',
           FormValidation.main today int_of_str w FormValidation.SubmitForm s
           = (r, s')
           /\ FormValidation.submission_state s'
              = (if valid then Some Submitted
                 else FormValidation.submission_state s)
           /\ (valid = false -> r = Ok tt /\ St.store s' = St.store s)))
  /\ (forall w s,
        FormValidation2.holds_fields today w (St.store s) ->
        let valid :=
          FormValidation2.fields_valid today w
          && (FormValidation2.start_date w <? FormValidation2.end_date w)%Z in
        (valid = true ->
         FormValidation2.on_submit today s
         = (Ok tt,
            {| St.store := <["form_submitted" := VBool true]> (St.store s);
               St.screen :=
                 St.screen s
                 ++ [St.Success (lit "Form submitted successfully!")] |}))
        /\ (valid = false ->
            exists messages,
              FormValidation2.get_validation_status today s = (Ok messages, s)
              /\ messages <> []
              /\ FormValidation2.on_submit today s
                 = (Ok tt,
                    {| St.store := St.store s;
                       St.screen :=
                         St.screen s
                         ++ St.Error
                              (lit "Please fix the following validation errors:")
                            :: map
                                 (fun m =>
                                    St.Error (FormValidation2.bullet ++ m))
                                 messages |})))
  /\ (forall w s,
        exists s',
          FormValidation2.main today w FormValidation2.Submit s = (Ok tt, s')
          /\ FormValidation2.holds_fields today w (St.store s')
          /\ FormValidation2.submission_state s'
             = if FormValidation2.fields_valid today w
                  && (FormValidation2.start_date w
                      <? FormValidation2.end_date w)%Z
               then Submitted
               else FormValidation2.submission_state s).
Proof.
  split; [|split].
  - intros w s valid after. subst after.
    assert (Hmain : is_Some (St.store s !! "submitted") ->
              exists r s',
                FormValidation.main today int_of_str w
                  FormValidation.SubmitForm s
                = (r, s')
                /\ FormValidation.submission_state s'
                   = (if valid then Some Submitted
                      else FormValidation.submission_state s)
                /\ (valid = false -> r = Ok tt /\ St.store s' = St.store s))
      by (intros Hkey; by apply main_submit_A).
    destruct valid eqn:Hvalid; subst valid.
    + rewrite (on_submit_accepts today int_of_str Htoday w s Hvalid).
      split; [|split; [|split]]; try done.
      intros _. split; [done|].
      unfold FormValidation.submission_state. cbn [snd St.store].
      by rewrite submitted_after_accept.
    + destruct (on_submit_rejects today int_of_str Htoday w s Hvalid)
        as (vs & Hvs & Hne & Hrun).
      split; [done|]. split; [by exists vs|]. split; [|done].
      rewrite Hrun. unfold FormValidation.submission_state. cbn [snd St.store].
      intros ->. discriminate.
  - intros w s Hheld valid. subst valid.
    rewrite (on_submit_held today w s Hheld).
    destruct (_ && _) eqn:Hvalid.
    + split; [done|discriminate].
    + split; [discriminate|]. intros _.
      exists (FormValidation2.outstanding today w).
      split; [by apply get_validation_status_held|]. split; [|done].
      rewrite outstanding_nil_iff, Hvalid. discriminate.
  - intros w s. apply main_submit.
Qed.

(** The scenario of the specification: age 25, every field valid, start
    date 2024-01-01 and end date 2024-01-02; the submission is accepted. *)
Lemma submit_gated_by_validation_witness :
  (0 < Scenario.today + 5 * 365 <= MAXORDINAL)%Z
  /\ FormValidation.submission_state
       (FormValidation.on_submit Scenario.today Scenario.int_of_str
          Scenario.accepted Scenario.fresh).2
     = Some Submitted.
Proof.
  assert (H : (0 < Scenario.today + 5 * 365 <= MAXORDINAL)%Z)
    by (split; [reflexivity | discriminate]).
  split; [exact H|].
  apply (proj1 (submit_gated_by_validation Scenario.today
                  Scenario.int_of_str H)
           Scenario.accepted Scenario.fresh).
  vm_compute. reflexivity.
Defined.

(** C2: the verdict on the whole form is true exactly when no message is
    outstanding.  In variant A the verdict is [all] over the validations
    and the messages are those that the loop of the submit handler shows,
    the messages of the failing validations; in variant B the verdict is
    the conjunction of the validity flags of the session, read once the
    widgets of the run have set them, and the messages are those of
    [get_validation_status]. *)
Theorem form_valid_iff_no_messages (today : Z) :
  (forall (validations : list (bool * str)) s,
     (forallb fst validations = true <-> failing validations = [])
     /\ for_each validations
          (fun '(valid, message) =>
             if negb valid then St.error message else ret tt) s
        = (Ok tt,
           {| St.store := St.store s;
              St.screen :=
                St.screen s ++ map St.Error (failing validations) |}))
  /\ (forall w s,
        FormValidation2.holds_fields today w (St.store s) ->
        exists messages,
          FormValidation2.get_validation_status today s = (Ok messages, s)
          /\ (FormValidation2.form_valid s = true <-> messages = []))
  /\ (forall w s,
        exists s',
          FormValidation2.edit_fields today w s = (Ok tt, s')
          /\ FormValidation2.holds_fields today w (St.store s')).
Proof.
  split; [|split].
  - intros vs s. split; [by rewrite failing_nil_iff|].
    apply for_each_shows_failing.
  - intros w s Hheld. exists (FormValidation2.outstanding today w).
    split; [by apply get_validation_status_held|].
    by rewrite (form_valid_held today w s Hheld), outstanding_nil_iff.
  - intros w s. destruct (edit_fields_writes today w s) as [shown ->].
    eexists. split; [reflexivity|]. apply holds_edited_store.
Qed.

(** C4: the date range is checked as start date strictly before end
    date.  In variant B every run sets the validity flags of both
    endpoints to that comparison, whatever else the form holds, and in
    variant A the form shows the message of the date range exactly when
    the comparison fails; in either variant a submission whose start
    date is not before its end date is not accepted: the store stays as
    it was and the message of the date range is among those shown. *)
Theorem reversed_range_is_rejected
  (today : Z) (int_of_str : str -> option Z)
  (Htoday : (0 < today + 5 * 365 <= MAXORDINAL)%Z) :
  (forall w s,
     exists s',
       FormValidation2.edit_fields today w s = (Ok tt, s')
       /\ St.store s' !! "start_date_valid"
          = Some (VBool (FormValidation2.start_date w
                         <? FormValidation2.end_date w)%Z)
       /\ St.store s' !! "end_date_valid"
          = Some (VBool (FormValidation2.start_date w
                         <? FormValidation2.end_date w)%Z))
  /\ (forall w s,
        FormValidation.range_feedback w s
        = (Ok tt,
           {| St.store := St.store s;
              St.screen :=
                St.screen s
                ++ (if (FormValidation.start_date w
                        <? FormValidation.end_date w)%Z
                    then []
                    else [St.Error
                            (lit "Start date must be before end date")]) |}))
  /\ (forall w s,
        (FormValidation.end_date w <= FormValidation.start_date w)%Z ->
        exists vs,
          FormValidation.validations today int_of_str w = Ok vs
          /\ lit "Start date must be before end date" ∈ failing vs
          /\ FormValidation.on_submit today int_of_str w s
             = (Ok tt,
                {| St.store := St.store s;
                   St.screen := St.screen s ++ map St.Error (failing vs) |}))
  /\ (forall w s,
        FormValidation2.holds_fields today w (St.store s) ->
        (FormValidation2.end_date w <= FormValidation2.start_date w)%Z ->
        exists messages,
          FormValidation2.get_validation_status today s = (Ok messages, s)
          /\ lit "Start date must be before end date" ∈ messages
          /\ FormValidation2.on_submit today s
             = (Ok tt,
                {| St.store := St.store s;
                   St.screen :=
                     St.screen s
                     ++ St.Error
                          (lit "Please fix the following validation errors:")
                        :: map
                             (fun m => St.Error (FormValidation2.bullet ++ m))
                             messages |})).
Proof.
  split; [|split; [|split]].
  - intros w s. destruct (edit_fields_writes today w s) as [shown ->].
    eexists. split; [reflexivity|]. cbn [St.store].
    pose proof (held_lookups today w _
                  (holds_edited_store today w (St.store s))) as H.
    split; apply H.
  - apply range_feedback_shows.
  - intros w s Hrange.
    assert (Hlt : (FormValidation.start_date w <? FormValidation.end_date w)%Z
                  = false) by (apply Z.ltb_ge; lia).
    destruct (on_submit_rejects today int_of_str Htoday w s)
      as (vs & Hvs & _ & Hrun); [by rewrite Hlt, andb_false_r|].
    exists vs. split; [done|]. split; [|done].
    destruct (validations_end_with_range today int_of_str w Htoday)
      as [fields Hfields].
    rewrite Hvs in Hfields. injection Hfields as ->.
    rewrite failing_last, Hlt, elem_of_app. right. apply list_elem_of_here.
  - intros w s Hheld Hrange.
    assert (Hlt : (FormValidation2.start_date w <? FormValidation2.end_date w)%Z
                  = false) by (apply Z.ltb_ge; lia).
    exists (FormValidation2.outstanding today w).
    split; [by apply get_validation_status_held|]. split.
    + unfold FormValidation2.outstanding. rewrite Hlt, !elem_of_app.
      do 6 right. apply list_elem_of_here.
    + rewrite (on_submit_held today w s Hheld). by rewrite Hlt, andb_false_r.
Qed.

(** The scenario of the specification: start date 2024-02-01 and end date
    2024-01-01; the submission of variant A shows the message of the date
    range and changes nothing in the store. *)
Lemma reversed_range_is_rejected_witness :
  (0 < Scenario.today + 5 * 365 <= MAXORDINAL)%Z
  /\ exists vs,
       FormValidation.validations Scenario.today Scenario.int_of_str
         Scenario.reversed
       = Ok vs
       /\ lit "Start date must be before end date" ∈ failing vs
       /\ FormValidation.on_submit Scenario.today Scenario.int_of_str
            Scenario.reversed Scenario.fresh
          = (Ok tt,
             {| St.store := St.store Scenario.fresh;
                St.screen :=
                  St.screen Scenario.fresh ++ map St.Error (failing vs) |}).
Proof.
  assert (H : (0 < Scenario.today + 5 * 365 <= MAXORDINAL)%Z)
    by (split; [reflexivity | discriminate]).
  split; [exact H|].
  apply (proj1 (proj2 (proj2 (reversed_range_is_rejected Scenario.today
                                Scenario.int_of_str H)))
           Scenario.reversed Scenario.fresh).
  discriminate.
Defined.

(** C9: [get_validation_status] changes neither the store nor the page,
    whether it returns or raises, and a second call returns what the
    first one did; on a session that holds the fields of the form it
    returns the outstanding messages. *)
Theorem get_validation_status_pure (today : Z) :
  (forall s, (FormValidation2.get_validation_status today s).2 = s)
  /\ (forall s,
        (FormValidation2.get_validation_status today
           (FormValidation2.get_validation_status today s).2).1
        = (FormValidation2.get_validation_status today s).1)
  /\ (forall w s,
        FormValidation2.holds_fields today w (St.store s) ->
        FormValidation2.get_validation_status today s
        = (Ok (FormValidation2.outstanding today w), s)).
Proof.
  assert (Hro : read_only (FormValidation2.get_validation_status today)).
  { unfold FormValidation2.get_validation_status. repeat read_only_step. }
  split; [exact Hro|]. split.
  - intros s. by rewrite Hro.
  - intros w s. apply get_validation_status_held.
Qed.

(** ** The clear action *)

(** In variant A the sidebar with its Clear Form button is there once the
    form is submitted; the press runs the clear loop and restarts. *)
Lemma main_clear_A today int_of_str w s :
  (0 < today + 5 * 365 <= MAXORDINAL)%Z ->
  FormValidation.submission_state s = Some Submitted ->
  exists shown d',
    FormValidation.main today int_of_str w FormValidation.ClearForm s
    = (Raise RerunException,
       {| St.store := d'; St.screen := St.screen s ++ shown |})
    /\ forall k,
         d' !! k
         = (fun _ => FormValidation.cleared_value today k) <$> St.store s !! k.
Proof.
  intros Htoday Hsub. unfold FormValidation.submission_state in Hsub.
  unfold FormValidation.main.
  destruct (form_fields_writes today int_of_str w Htoday s) as [sh1 E1].
  rewrite (bind_ok _ _ _ _ _ E1).
  rewrite (bind_ok _ _ _ _ _ (range_feedback_shows w _)).
  cbn [St.store St.screen id]. rewrite <- app_assoc.
  match goal with
  | |- context [{| St.store := _; St.screen := St.screen s ++ ?sh |}] =>
      set (shown := sh)
  end.
  destruct (clear_form_spec today
              {| St.store := St.store s; St.screen := St.screen s ++ shown |})
    as (d' & Hrun & Hd').
  exists shown, d'. split; [|done].
  unfold FormValidation.create_sidebar_markdown, bind, ret, St.item.
  cbn [St.store].
  destruct (St.store s !! "submitted") as [v|]; [|done].
  destruct (truthy v); [|done]. by rewrite Hrun.
Qed.

(** In variant B the press of Clear Form empties the session and
    restarts. *)
Lemma main_clear_B today w s :
  exists shown,
    FormValidation2.main today w FormValidation2.ClearForm s
    = (Raise RerunException,
       {| St.store := ∅; St.screen := St.screen s ++ shown |}).
Proof.
  destruct (main_after_edit today w FormValidation2.ClearForm s) as [sh ->].
  unfold FormValidation2.update_sidebar_table, FormValidation2.current_data,
    bind, St.get, ret.
  cbn [St.store].
  destruct (truthy _).
  - unfold St.success, St.show. rewrite clear_session_spec. cbn [St.screen].
    eexists. by rewrite <- app_assoc.
  - rewrite clear_session_spec. by eexists.
Qed.

(** C6: the clear action of either variant leaves every field at its
    default, today's date for the three dates and the empty string or
    zero for the others, and the form in the state Editing, whatever the
    session held before.  In variant A the loop overwrites every key of
    the form data; in variant B it deletes every key, so that every
    field is read back at its default. *)
Theorem clear_restores_defaults (today : Z) :
  (forall s,
     exists d',
       FormValidation.clear_form today s
       = (Ok tt, {| St.store := d'; St.screen := St.screen s |})
       /\ dom d' = dom (St.store s)
       /\ (forall k,
            k ∈ ["first_name"; "last_name"; "email"; "phone"; "age"] ->
            is_Some (St.store s !! k) -> d' !! k = Some (VStr []))
       /\ (forall k,
            k ∈ ["birth_date"; "start_date"; "end_date"] ->
            is_Some (St.store s !! k) -> d' !! k = Some (VDate today))
       /\ (is_Some (St.store s !! "submitted") ->
           FormValidation.submission_state
             {| St.store := d'; St.screen := St.screen s |}
           = Some Editing)
       /\ (forall int_of_str w,
             (0 < today + 5 * 365 <= MAXORDINAL)%Z ->
             FormValidation.submission_state s = Some Submitted ->
             exists shown,
               FormValidation.main today int_of_str w
                 FormValidation.ClearForm s
               = (Raise RerunException,
                  {| St.store := d'; St.screen := St.screen s ++ shown |})))
  /\ (forall s,
       let cleared := {| St.store := ∅; St.screen := St.screen s |} in
       FormValidation2.clear_session s = (Ok tt, cleared)
       /\ FormValidation2.current_data today cleared
          = (Ok [("First Name", VStr []); ("Last Name", VStr []);
                 ("Email", VStr []); ("Phone", VStr []); ("Age", VInt 0);
                 ("Birth Date", VDate today); ("Start Date", VDate today);
                 ("End Date", VDate today)],
             cleared)
       /\ FormValidation2.submission_state cleared = Editing
       /\ (forall w,
             exists shown,
               FormValidation2.main today w FormValidation2.ClearForm s
               = (Raise RerunException,
                  {| St.store := ∅; St.screen := St.screen s ++ shown |}))).
Proof.
  split.
  - intros s. destruct (clear_form_spec today s) as (d' & Hrun & Hd').
    exists d'. split; [done|]. split; [|split; [|split; [|split]]].
    + apply set_eq. intros k. rewrite !elem_of_dom, Hd'.
      by rewrite fmap_is_Some.
    + intros k Hk [v Hv]. rewrite Hd', Hv. simpl. f_equal.
      unfold FormValidation.cleared_value.
      repeat (apply elem_of_cons in Hk as [->|Hk]; [done|]).
      by apply elem_of_nil in Hk.
    + intros k Hk [v Hv]. rewrite Hd', Hv. simpl. f_equal.
      unfold FormValidation.cleared_value.
      repeat (apply elem_of_cons in Hk as [->|Hk]; [done|]).
      by apply elem_of_nil in Hk.
    + intros [v Hv]. unfold FormValidation.submission_state. simpl.
      by rewrite Hd', Hv.
    + intros int_of_str w Htoday Hsub.
      destruct (main_clear_A today int_of_str w s Htoday Hsub)
        as (shown & d'' & -> & Hd'').
      exists shown. do 2 f_equal. apply map_eq. intros k.
      by rewrite Hd', Hd''.
  - intros s cleared. split; [apply clear_session_spec|].
    do 2 (split; [done|]). intros w. apply main_clear_B.
Qed.

(* ===================================================================== *)
(** * Beyond the claims: what the validators accept                       *)
(* ===================================================================== *)

(** ** The languages of the name patterns *)

Lemma matches_chars_inv p s :
  matches (Chars p) s -> exists c, s = [c] /\ p c = true.
Proof. inversion 1; subst. by eexists. Qed.

(** A repeated character class matches the strings over the class whose
    length is within the bounds. *)
Lemma matches_repeat_chars p lo hi s :
  matches (Repeat (Chars p) lo hi) s
  <-> forallb p s = true
      /\ (lo <= length s)%nat
      /\ match hi with Some h => (length s <= h)%nat | None => True end.
Proof.
  split.
  - intros H. remember (Repeat (Chars p) lo hi) as r eqn:Hr.
    revert lo hi Hr.
    induction H as [| | | | |r' hi'|r' lo' hi' s1 s2 Hhi H1 _ H2 IH2];
      intros lo hi Hr; try discriminate.
    + injection Hr as -> <- ->. simpl. split; [done|]. split; [lia|].
      destruct hi; [lia|done].
    + injection Hr as -> -> ->.
      apply matches_chars_inv in H1 as (c & -> & Hc).
      destruct (IH2 _ _ eq_refl) as (Hall & Hlo & Hhi2).
      simpl. rewrite Hc, Hall. split; [done|]. split; [lia|].
      destruct hi as [[|h]|]; simpl in *; [done|lia|done].
  - revert lo hi. induction s as [|c s IH]; intros lo hi (Hall & Hlo & Hhi).
    + simpl in Hlo. assert (lo = 0)%nat as -> by lia. constructor.
    + simpl in Hall. apply andb_true_iff in Hall as [Hc Hall].
      apply (matches_repeat_more (Chars p) lo hi [c] s).
      * destruct hi as [[|h]|]; simpl in *; [lia|done|done].
      * by constructor.
      * apply IH. split; [done|]. simpl in Hlo. split; [lia|].
        destruct hi as [[|h]|]; simpl in *; [lia|lia|done].
Qed.

Lemma forallb_snoc {A} (p : A -> bool) l x :
  forallb p (l ++ [x]) = forallb p l && p x.
Proof. rewrite forallb_app. simpl. by rewrite andb_true_r. Qed.

Lemma re_match_name_A s :
  re_match FormValidation.name_pattern s = true
  <-> forallb (bracket [range "A" "Z"; range "a" "z"; is_space; one "-"]) s
      = true
      /\ (1 <= length s)%nat.
Proof.
  rewrite re_match_spec by done.
  unfold FormValidation.name_pattern, Plus. rewrite matches_repeat_chars.
  split.
  - intros [(Hall & Hlen & _)|(s' & -> & H)]; [done|].
    apply matches_repeat_chars in H as (Hall & Hlen & _).
    rewrite forallb_snoc, Hall, length_app. simpl. split; [done|lia].
  - intros [Hall Hlen]. by left.
Qed.

Lemma re_match_name_B s :
  re_match FormValidation2.name_pattern s = true
  <-> forallb (bracket [range "a" "z"; range "A" "Z"; one "'"; is_space;
                        one "-"]) s
      = true
      /\ ((2 <= length s <= 50)%nat
          \/ (length s = 51%nat /\ last s = Some 10%N)).
Proof.
  rewrite re_match_spec by done.
  unfold FormValidation2.name_pattern. rewrite matches_repeat_chars.
  split.
  - intros [(Hall & Hlo & Hhi)|(s' & -> & H)].
    + split; [done|]. left. lia.
    + apply matches_repeat_chars in H as (Hall & Hlo & Hhi).
      rewrite forallb_snoc, Hall, length_app, last_snoc. simpl.
      split; [done|].
      destruct (decide (length s' = 50%nat)); [right|left]; split;
        (done || lia).
  - intros [Hall [Hlen|[Hlen Hlast]]]; [left; split; [done|lia]|].
    right. destruct (last_Some s 10%N) as [[s' ->] _]; [done|].
    exists s'. split; [done|]. apply matches_repeat_chars.
    rewrite forallb_snoc in Hall. apply andb_true_iff in Hall as [Hall _].
    rewrite length_app in Hlen. simpl in Hlen. split; [done|]. lia.
Qed.

Lemma verdict_first_violation rules :
  verdict (Ok (first_violation rules))
  = forallb (fun rule : bool * str => negb rule.1) rules.
Proof.
  unfold verdict. rewrite (surjective_pairing (first_violation _)).
  apply first_violation_verdict.
Qed.

(** X1: the [validate_name] of variant A accepts exactly the strings of at
    least two characters that are all letters A to Z or a to z,
    whitespace or hyphens; since whitespace includes the newline, a name
    may contain or end with one. *)
Theorem validate_name_accepts_A s fn :
  verdict (FormValidation.validate_name (VStr s) fn) = true
  <-> forallb (bracket [range "A" "Z"; range "a" "z"; is_space; one "-"]) s
      = true
      /\ (2 <= length s)%nat.
Proof.
  rewrite validate_name_rules_A.
  unfold verdict. rewrite (surjective_pairing (first_violation _)).
  rewrite first_violation_verdict. unfold FormValidation.name_rules.
  cbn [forallb fst]. rewrite !negb_involutive, andb_true_r, !andb_true_iff.
  rewrite re_match_name_A, negb_true_iff, Nat.ltb_ge.
  destruct s as [|c s]; cbn [truthy_str length]; [|intuition lia].
  split; [intros [[=] _] | lia].
Qed.

(** X2: the [validate_name] of variant B accepts exactly the strings over
    letters, apostrophes, whitespace and hyphens that have 2 to 50
    characters, and also those of 51 characters whose last one is a
    newline: the [$] of the pattern matches before a final newline, so
    the bound of 50 is exceeded by one. *)
Theorem validate_name_accepts_B s fn :
  verdict (FormValidation2.validate_name (VStr s) fn) = true
  <-> forallb (bracket [range "a" "z"; range "A" "Z"; one "'"; is_space;
                        one "-"]) s
      = true
      /\ ((2 <= length s <= 50)%nat
          \/ (length s = 51%nat /\ last s = Some 10%N)).
Proof.
  rewrite validate_name_rules_B.
  unfold verdict. rewrite (surjective_pairing (first_violation _)).
  rewrite first_violation_verdict. unfold FormValidation2.name_rules.
  cbn [forallb fst]. rewrite !negb_involutive, andb_true_r, !andb_true_iff.
  rewrite re_match_name_B.
  destruct s as [|c s]; cbn [truthy_str length]; [|intuition lia].
  split; [intros [[=] _]|]. intros [_ [?|[? _]]]; lia.
Qed.

Lemma name_class_A_in_B c :
  bracket [range "A" "Z"; range "a" "z"; is_space; one "-"] c = true ->
  bracket [range "a" "z"; range "A" "Z"; one "'"; is_space; one "-"] c = true.
Proof.
  unfold bracket. cbn [existsb].
  destruct (range "A" "Z" c), (range "a" "z" c), (is_space c), (one "-" c);
    try done; by rewrite ?orb_true_r.
Qed.

(** X3: a name of at most 50 characters that the [validate_name] of
    variant A accepts is accepted by that of variant B, whatever the
    names of the two fields. *)
Theorem names_of_batch_form_pass_live_form s fn fn' :
  (length s <= 50)%nat ->
  verdict (FormValidation.validate_name (VStr s) fn) = true ->
  verdict (FormValidation2.validate_name (VStr s) fn') = true.
Proof.
  intros Hlen.
  rewrite validate_name_rules_A, validate_name_rules_B,
    !verdict_first_violation.
  unfold FormValidation.name_rules, FormValidation2.name_rules.
  cbn [forallb fst]. rewrite !negb_involutive, !andb_true_r, !andb_true_iff.
  rewrite negb_true_iff, Nat.ltb_ge.
  intros (Hs & [Hall _]%re_match_name_A & Hlo). split; [done|].
  apply re_match_name_B. split; [|left; lia].
  rewrite forallb_forall in *. intros c Hc. apply name_class_A_in_B, Hall, Hc.
Qed.

(** The name Ada passes in variant A and so in variant B. *)
Lemma names_of_batch_form_pass_live_form_witness :
  (length (lit "Ada") <= 50)%nat
  /\ verdict (FormValidation2.validate_name (VStr (lit "Ada"))
                (lit "First name"))
     = true.
Proof.
  split; [vm_compute; lia|].
  apply (names_of_batch_form_pass_live_form (lit "Ada") (lit "First name"));
    [vm_compute; lia | reflexivity].
Defined.

(** ** Emails, and the newline that [$] lets through *)

(** X4: the two [validate_email] functions have the same verdict on every
    string; the check for the empty string that variant B adds only
    changes the message. *)
Theorem validate_email_verdicts_agree s :
  verdict (FormValidation.validate_email (VStr s))
  = verdict (FormValidation2.validate_email (VStr s)).
Proof.
  rewrite validate_email_rules_A, validate_email_rules_B,
    !verdict_first_violation.
  unfold FormValidation.email_rules, FormValidation2.email_rules.
  cbn [forallb fst]. rewrite !negb_involutive, !andb_true_r.
  change FormValidation2.email_pattern with FormValidation.email_pattern.
  by destruct s.
Qed.

Lemma repeat_chars_ends_in p lo hi s :
  (1 <= lo)%nat -> matches (Repeat (Chars p) lo hi) s -> ends_in p s.
Proof.
  intros Hlo (Hall & Hlen & _)%matches_repeat_chars.
  destruct s as [|c s] using rev_ind; [simpl in Hlen; lia|].
  exists s, c. split; [done|].
  rewrite forallb_snoc in Hall. by apply andb_true_iff in Hall as [_ ?].
Qed.

Lemma cat_ends_in p r1 r2 s :
  (forall t, matches r2 t -> ends_in p t) ->
  matches (Cat r1 r2) s -> ends_in p s.
Proof.
  intros H2 H. inversion H as [| |? ? s1 s2 H1 Hs2| | | |]; subst.
  destruct (H2 _ Hs2) as (s' & c & -> & Hc).
  exists (s1 ++ s'), c. by rewrite app_assoc.
Qed.

Lemma email_ends_in_letter s :
  matches FormValidation.email_pattern s ->
  ends_in (bracket [range "a" "z"; range "A" "Z"]) s.
Proof.
  unfold FormValidation.email_pattern, AtLeast.
  repeat (apply cat_ends_in; intros ?).
  apply repeat_chars_ends_in. lia.
Qed.

Lemma phone_ends_in_digit s :
  matches FormValidation.phone_pattern s ->
  ends_in (bracket [range "0" "9"]) s.
Proof.
  unfold FormValidation.phone_pattern, Exactly.
  repeat (apply cat_ends_in; intros ?).
  apply repeat_chars_ends_in. lia.
Qed.

Lemma accepts_newline_false r p s :
  well_formed_regex r = true ->
  (forall t, matches r t -> ends_in p t) -> p 10%N = false ->
  accepts r (s ++ [10%N]) = false.
Proof.
  intros W H Hp. apply not_true_iff_false. intros Ha.
  apply accepts_matches in Ha; [|done].
  destruct (H _ Ha) as (s' & c & E & Hc).
  apply app_inj_tail in E as [_ <-]. congruence.
Qed.

Lemma chomp_None_last (s : str) : last s <> Some 10%N -> chomp s = None.
Proof.
  intros H. destruct (chomp s) as [s'|] eqn:E; [|done].
  apply chomp_spec in E. subst s. by rewrite last_snoc in H.
Qed.

(** With a pattern none of whose strings ends in a newline, a string
    followed by one newline matches exactly when the string itself is in
    the language, and never with two. *)
Lemma re_match_final_newline r p s :
  well_formed_regex r = true ->
  (forall t, matches r t -> ends_in p t) -> p 10%N = false ->
  re_match r (s ++ [10%N]) = accepts r s
  /\ re_match r (s ++ [10%N; 10%N]) = false
  /\ (last s <> Some 10%N -> re_match r s = accepts r s).
Proof.
  intros W H Hp. unfold re_match. split; [|split].
  - rewrite (accepts_newline_false r p) by done.
    by rewrite (proj2 (chomp_spec _ _) eq_refl).
  - change (s ++ [10%N; 10%N]) with (s ++ [10%N] ++ [10%N]).
    rewrite app_assoc, (accepts_newline_false r p) by done.
    rewrite (proj2 (chomp_spec _ _) eq_refl).
    by rewrite (accepts_newline_false r p).
  - intros Hlast. by rewrite chomp_None_last, orb_false_r.
Qed.

(** X5: one newline at the end of an email or, in variant A, of a phone
    number changes no verdict, because [$] also matches just before a
    newline that ends the string; with two newlines the string is
    rejected. *)
Theorem final_newline_is_ignored (s : str) :
  last s <> Some 10%N ->
  (verdict (FormValidation.validate_email (VStr (s ++ [10%N])))
   = verdict (FormValidation.validate_email (VStr s))
   /\ verdict (FormValidation.validate_email (VStr (s ++ [10%N; 10%N])))
      = false)
  /\ (verdict (FormValidation.validate_phone (VStr (s ++ [10%N])))
      = verdict (FormValidation.validate_phone (VStr s))
      /\ verdict (FormValidation.validate_phone (VStr (s ++ [10%N; 10%N])))
         = false)
  /\ (verdict (FormValidation2.validate_email (VStr (s ++ [10%N])))
      = verdict (FormValidation2.validate_email (VStr s))
      /\ verdict (FormValidation2.validate_email (VStr (s ++ [10%N; 10%N])))
         = false).
Proof.
  intros Hlast.
  destruct (re_match_final_newline FormValidation.email_pattern _ s eq_refl
              email_ends_in_letter eq_refl) as (E1 & E2 & E3).
  destruct (re_match_final_newline FormValidation.phone_pattern _ s eq_refl
              phone_ends_in_digit eq_refl) as (P1 & P2 & P3).
  rewrite !validate_email_rules_A, !validate_phone_rules_A,
    !validate_email_rules_B, !verdict_first_violation.
  unfold FormValidation.email_rules, FormValidation.phone_rules,
    FormValidation2.email_rules.
  cbn [forallb fst]. rewrite !negb_involutive, !andb_true_r.
  change FormValidation2.email_pattern with FormValidation.email_pattern.
  rewrite E1, E2, E3, P1, P2, P3 by done.
  repeat split; try by rewrite andb_false_r.
  destruct s as [|c s]; [done|]. done.
Qed.

(** The address ada@example.com followed by a newline is still accepted, and
    followed by two it is not. *)
Lemma final_newline_is_ignored_witness :
  last (lit "ada@example.com") <> Some 10%N
  /\ verdict (FormValidation.validate_email
                (VStr (lit "ada@example.com" ++ [10%N])))
     = verdict (FormValidation.validate_email (VStr (lit "ada@example.com")))
  /\ verdict (FormValidation.validate_email
                (VStr (lit "ada@example.com" ++ [10%N; 10%N])))
     = false.
Proof.
  assert (H : last (lit "ada@example.com") <> Some 10%N) by discriminate.
  split; [exact H|].
  exact (proj1 (final_newline_is_ignored (lit "ada@example.com") H)).
Defined.

(** ** Phone numbers *)

Lemma chomp_None_no_newline (s : str) :
  10%N ∉ s -> chomp s = None.
Proof.
  intros H. destruct (chomp s) as [s'|] eqn:E; [|done].
  apply chomp_spec in E. subst s. exfalso. apply H.
  apply elem_of_app. right. apply list_elem_of_here.
Qed.

Lemma re_match_phone_B (s : str) :
  10%N ∉ s ->
  re_match FormValidation2.phone_pattern s = true
  <-> forallb (bracket [range "0" "9"]) s = true /\ length s = 10%nat.
Proof.
  intros H. unfold re_match. rewrite chomp_None_no_newline by done.
  rewrite orb_false_r, accepts_matches by done.
  unfold FormValidation2.phone_pattern, Exactly.
  rewrite matches_repeat_chars. intuition lia.
Qed.

Lemma forallb_filter_negb (p q : N -> bool) (s : str) :
  (forall c, q c = true -> p c = false) ->
  forallb p (List.filter (fun c => negb (q c)) s) = true
  <-> forallb (fun c => p c || q c) s = true.
Proof.
  intros Hpq. induction s as [|c s IH]; simpl; [done|].
  destruct (q c) eqn:Hq; simpl.
  - by rewrite orb_true_r.
  - by rewrite orb_false_r, !andb_true_iff, IH.
Qed.

Lemma length_filter_negb (p q : N -> bool) (s : str) :
  (forall c, q c = true -> p c = false) ->
  forallb (fun c => p c || q c) s = true ->
  length (List.filter (fun c => negb (q c)) s) = length (List.filter p s).
Proof.
  intros Hpq. induction s as [|c s IH]; simpl; [done|].
  intros [Hc Hs]%andb_true_iff. destruct (q c) eqn:Hq; simpl.
  - rewrite (Hpq c Hq). auto.
  - rewrite orb_false_r in Hc. rewrite Hc. simpl. auto.
Qed.

Lemma digit_not_noise c :
  FormValidation2.phone_noise c = true -> bracket [range "0" "9"] c = false.
Proof.
  unfold FormValidation2.phone_noise, bracket, existsb, is_space, range, one,
    chr.
  simpl.
  rewrite !orb_false_r, !orb_true_iff, !andb_true_iff, !N.leb_le, !N.eqb_eq.
  intros H. apply andb_false_iff. rewrite !N.leb_gt. lia.
Qed.

Lemma phone_rules_pass_B s :
  forallb (fun rule : bool * str => negb rule.1)
    (FormValidation2.phone_rules s) = true
  <-> forallb phone_char s = true
      /\ length (List.filter (bracket [range "0" "9"]) s) = 10%nat.
Proof.
  unfold FormValidation2.phone_rules. cbn [forallb fst].
  rewrite !negb_involutive, andb_true_r, andb_true_iff.
  rewrite re_match_phone_B.
  2: { unfold re_sub_class. intros Hin%list_elem_of_In%filter_In.
       by destruct Hin. }
  unfold re_sub_class.
  rewrite (forallb_filter_negb _ _ s digit_not_noise).
  split.
  - intros (_ & Hall & Hlen). split; [done|].
    by rewrite <- (length_filter_negb _ _ s digit_not_noise Hall).
  - intros (Hall & Hlen). split; [by destruct s|]. split; [done|].
    by rewrite (length_filter_negb _ _ s digit_not_noise Hall).
Qed.

(** X6: the [validate_phone] of variant B accepts exactly the strings
    made of digits, whitespace, hyphens and parentheses that hold ten
    digits, wherever the other characters stand. *)
Theorem validate_phone_accepts_B (s : str) :
  verdict (FormValidation2.validate_phone (VStr s)) = true
  <-> forallb phone_char s = true
      /\ length (List.filter (bracket [range "0" "9"]) s) = 10%nat.
Proof.
  rewrite validate_phone_rules_B, verdict_first_violation.
  apply phone_rules_pass_B.
Qed.

Lemma phone_piece_app n m s t :
  phone_piece n s -> phone_piece m t -> phone_piece (n + m) (s ++ t).
Proof.
  intros [Hs Hn] [Ht Hm]. split.
  - by rewrite forallb_app, Hs, Ht.
  - by rewrite List.filter_app, length_app, Hn, Hm.
Qed.

Lemma phone_piece_digits n s :
  matches (Exactly n (Chars (bracket [range "0" "9"]))) s -> phone_piece n s.
Proof.
  intros (Hall & Hlo & Hhi)%matches_repeat_chars. split.
  - rewrite forallb_forall in *. intros c Hc. unfold phone_char.
    by rewrite (Hall c Hc).
  - rewrite (forallb_filter_id _ s Hall). lia.
Qed.

Lemma phone_piece_mark p s :
  (forall c, p c = true ->
             (phone_char c || one "." c) = true
             /\ bracket [range "0" "9"] c = false) ->
  matches (Opt (Chars p)) s -> phone_piece 0 s.
Proof.
  intros Hp (Hall & _ & Hhi)%matches_repeat_chars.
  destruct s as [|c [|c' s]]; [done| |simpl in Hhi; lia].
  simpl in Hall. rewrite andb_true_r in Hall.
  destruct (Hp c Hall) as [Hq Hd]. split.
  - cbn [forallb]. by rewrite Hq.
  - cbn [List.filter]. by rewrite Hd.
Qed.

Lemma matches_cat_inv r1 r2 s :
  matches (Cat r1 r2) s ->
  exists s1 s2, s = s1 ++ s2 /\ matches r1 s1 /\ matches r2 s2.
Proof. inversion 1; subst. by do 2 eexists. Qed.

Lemma phone_A_pieces s :
  matches FormValidation.phone_pattern s -> phone_piece 10 s.
Proof.
  unfold FormValidation.phone_pattern.
  intros (o1 & s1 & -> & H1 & H)%matches_cat_inv.
  apply matches_cat_inv in H as (d1 & s2 & -> & H2 & H).
  apply matches_cat_inv in H as (o2 & s3 & -> & H3 & H).
  apply matches_cat_inv in H as (o3 & s4 & -> & H4 & H).
  apply matches_cat_inv in H as (d2 & s5 & -> & H5 & H).
  apply matches_cat_inv in H as (o4 & d3 & -> & H6 & H7).
  assert (Hsep : forall c,
             bracket [one "-"; one "."; one " "] c = true ->
             (phone_char c || one "." c) = true
             /\ bracket [range "0" "9"] c = false).
  { intros c Hc. unfold bracket in Hc. cbn [existsb] in Hc.
    rewrite orb_false_r in Hc.
    apply orb_true_iff in Hc as [Hc|Hc];
      [|apply orb_true_iff in Hc as [Hc|Hc]];
      apply N.eqb_eq in Hc; by subst c. }
  apply (phone_piece_app 0 10).
  { apply (phone_piece_mark (one "(")); [|done].
    intros c ->%N.eqb_eq. done. }
  apply (phone_piece_app 3 7); [by apply phone_piece_digits|].
  apply (phone_piece_app 0 7).
  { apply (phone_piece_mark (one ")")); [|done].
    intros c ->%N.eqb_eq. done. }
  apply (phone_piece_app 0 7); [by apply (phone_piece_mark _ _ Hsep)|].
  apply (phone_piece_app 3 4); [by apply phone_piece_digits|].
  apply (phone_piece_app 0 4); [by apply (phone_piece_mark _ _ Hsep)|].
  by apply phone_piece_digits.
Qed.

Lemma phone_piece_no_dot n s :
  phone_piece n s ->
  forallb phone_char s = true <-> chr "." ∉ s.
Proof.
  intros [Hall _]. induction s as [|c s IH].
  - split; [intros _; apply not_elem_of_nil|done].
  - simpl in Hall. apply andb_true_iff in Hall as [Hc Hall].
    cbn [forallb]. rewrite andb_true_iff, (IH Hall), not_elem_of_cons.
    assert (Hdot : phone_char c = true <-> chr "." <> c); [|tauto].
    split.
    + intros Hp <-. done.
    + intros Hne. destruct (phone_char c); [done|].
      simpl in Hc. apply N.eqb_eq in Hc. by subst c.
Qed.

(** X7: a phone number that the [validate_phone] of variant A accepts is
    accepted by that of variant B exactly when it contains no dot: the
    dot is a separator for the pattern of variant A and is not among the
    characters that variant B removes. *)
Theorem phones_of_batch_form_in_live_form (s : str) :
  verdict (FormValidation.validate_phone (VStr s)) = true ->
  (verdict (FormValidation2.validate_phone (VStr s)) = true
   <-> chr "." ∉ s).
Proof.
  rewrite validate_phone_rules_A, verdict_first_violation.
  unfold FormValidation.phone_rules. cbn [forallb fst].
  rewrite negb_involutive, andb_true_r, re_match_spec by done.
  intros Hs.
  assert (Hpiece : phone_piece 10 s).
  { destruct Hs as [Hs|(t & -> & Ht)]; [by apply phone_A_pieces|].
    apply (phone_piece_app 10 0); [by apply phone_A_pieces|]. done. }
  rewrite validate_phone_rules_B, verdict_first_violation, phone_rules_pass_B.
  rewrite <- (phone_piece_no_dot 10 s Hpiece).
  destruct Hpiece as [_ Hlen]. tauto.
Qed.

(** The number 555.123.4567 passes in variant A and, for its dots, fails in
    variant B. *)
Lemma phones_of_batch_form_in_live_form_witness :
  verdict (FormValidation.validate_phone (VStr (lit "555.123.4567"))) = true
  /\ ~ verdict (FormValidation2.validate_phone (VStr (lit "555.123.4567")))
       = true.
Proof.
  assert (H : verdict (FormValidation.validate_phone
                         (VStr (lit "555.123.4567"))) = true)
    by reflexivity.
  split; [exact H|].
  intros HB.
  apply (proj1 (phones_of_batch_form_in_live_form (lit "555.123.4567") H) HB).
  by apply (bool_decide_unpack _).
Defined.

(** ** Ages and dates *)

(** X8: the [validate_age] of variant A accepts the integers from 0 to
    120 and the strings that [int] converts to one of them; that of
    variant B accepts the integers from 1 to 120; on integers the two
    verdicts differ at 0 only. *)
Theorem validate_age_bounds (int_of_str : str -> option Z) :
  (forall z,
     verdict (FormValidation.validate_age int_of_str (VInt z)) = true
     <-> (0 <= z <= 120)%Z)
  /\ (forall s,
        verdict (FormValidation.validate_age int_of_str (VStr s)) = true
        <-> exists z, int_of_str s = Some z /\ (0 <= z <= 120)%Z)
  /\ (forall z,
        verdict (FormValidation2.validate_age (VInt z)) = true
        <-> (1 <= z <= 120)%Z)
  /\ (forall z,
        verdict (FormValidation.validate_age int_of_str (VInt z))
        <> verdict (FormValidation2.validate_age (VInt z))
        <-> z = 0%Z).
Proof.
  assert (HA : forall z,
             verdict (FormValidation.validate_age int_of_str (VInt z))
             = ((0 <=? z) && (z <=? 120))%Z).
  { intros z. unfold FormValidation.validate_age. cbn [int rbind].
    rewrite Z.gtb_ltb, !Z.leb_antisym.
    by destruct (z <? 0)%Z, (120 <? z)%Z. }
  assert (HB : forall z,
             verdict (FormValidation2.validate_age (VInt z))
             = ((1 <=? z) && (z <=? 120))%Z).
  { intros z. rewrite validate_age_rules_B, verdict_first_violation.
    unfold FormValidation2.age_rules. cbn [forallb fst].
    rewrite andb_true_r, Z.gtb_ltb, <- Z.leb_antisym.
    f_equal. destruct (Z.leb_spec z 0), (Z.leb_spec 1 z); (done || lia). }
  split; [|split; [|split]].
  - intros z. rewrite HA, andb_true_iff, !Z.leb_le. done.
  - intros s. unfold FormValidation.validate_age. cbn [int].
    destruct (int_of_str s) as [z|]; cbn [rbind try_except_ValueError].
    + specialize (HA z). unfold FormValidation.validate_age in HA.
      cbn [int rbind try_except_ValueError] in HA.
      destruct ((z <? 0)%Z || (z >? 120)%Z); cbn [try_except_ValueError] in *;
        rewrite HA, andb_true_iff, !Z.leb_le.
      * split; [intros ?; by exists z|]. by intros (? & [= <-] & ?).
      * split; [intros ?; by exists z|]. by intros (? & [= <-] & ?).
    + split; [done|]. by intros (? & [=] & _).
  - intros z. rewrite HB, andb_true_iff, !Z.leb_le. done.
  - intros z. rewrite HA, HB.
    destruct (Z.leb_spec 0 z), (Z.leb_spec 1 z), (Z.leb_spec z 120);
      cbn [andb]; split; intros; (done || lia).
Qed.

Lemma validate_date_verdict_B today d :
  verdict (FormValidation2.validate_date today (VDate d)) = (d <=? today)%Z.
Proof.
  rewrite validate_date_rules_B_date, verdict_first_violation.
  unfold FormValidation2.date_rules. cbn [forallb fst bool_decide].
  rewrite andb_true_r, Z.gtb_ltb, Z.leb_antisym.
  by rewrite bool_decide_true by (by eexists).
Qed.

Lemma validate_date_verdict_A today d :
  (0 < today + 5 * 365 <= MAXORDINAL)%Z ->
  verdict (FormValidation.validate_date today (VDate d))
  = ((date 1990 1 1 <=? d) && (d <=? today + 1825))%Z.
Proof.
  intros H. rewrite validate_date_rules_A, verdict_first_violation by done.
  unfold FormValidation.date_rules, FormValidation.earliest_date.
  cbn [forallb fst]. rewrite andb_true_r, Z.gtb_ltb, !Z.leb_antisym. done.
Qed.

(** X9: the [validate_date] of variant A accepts the dates from
    1990-01-01 to 1825 days after today, that of variant B the dates up
    to today; the dates that both accept are those from 1990-01-01 to
    today. *)
Theorem validate_date_windows (today : Z) (d : Z) :
  (0 < today + 5 * 365 <= MAXORDINAL)%Z ->
  (verdict (FormValidation.validate_date today (VDate d)) = true
   <-> (date 1990 1 1 <= d <= today + 1825)%Z)
  /\ (verdict (FormValidation2.validate_date today (VDate d)) = true
      <-> (d <= today)%Z)
  /\ (verdict (FormValidation.validate_date today (VDate d)) = true
      /\ verdict (FormValidation2.validate_date today (VDate d)) = true
      <-> (date 1990 1 1 <= d <= today)%Z).
Proof.
  intros H. rewrite validate_date_verdict_A, validate_date_verdict_B by done.
  rewrite andb_true_iff, !Z.leb_le. repeat split; lia.
Qed.

(** On the day of the scenarios the date 2000-12-10 is in both windows. *)
Lemma validate_date_windows_witness :
  (0 < Scenario.today + 5 * 365 <= MAXORDINAL)%Z
  /\ (verdict (FormValidation.validate_date Scenario.today
                 (VDate (date 2000 12 10))) = true
      /\ verdict (FormValidation2.validate_date Scenario.today
                    (VDate (date 2000 12 10))) = true
      <-> (date 1990 1 1 <= date 2000 12 10 <= Scenario.today)%Z).
Proof.
  assert (H : (0 < Scenario.today + 5 * 365 <= MAXORDINAL)%Z)
    by (split; [reflexivity | discriminate]).
  split; [exact H|].
  exact (proj2 (proj2 (validate_date_windows Scenario.today
                         (date 2000 12 10) H))).
Defined.

(** X10: when today is within 1825 days of the last date that [date] can
    represent, the sum [date.today() + timedelta(days=5 * 365)] raises
    [OverflowError], and the [validate_date] of variant A raises it on
    every argument. *)
Theorem validate_date_overflows (today : Z) (v : value) :
  (MAXORDINAL < today + 5 * 365)%Z ->
  FormValidation.validate_date today v = Raise OverflowError.
Proof.
  intros H. unfold FormValidation.validate_date, add_days.
  replace (today + 5 * 365 <=? MAXORDINAL)%Z with false
    by (symmetry; apply Z.leb_gt; lia).
  by rewrite andb_false_r.
Qed.

(** On 9999-01-01 the date 1825 days later does not exist. *)
Lemma validate_date_overflows_witness :
  (MAXORDINAL < date 9999 1 1 + 5 * 365)%Z
  /\ FormValidation.validate_date (date 9999 1 1) (VDate (date 2000 1 1))
     = Raise OverflowError.
Proof.
  split; [reflexivity|].
  apply (validate_date_overflows (date 9999 1 1) (VDate (date 2000 1 1))).
  reflexivity.
Defined.

(* ===================================================================== *)
(** * Beyond the claims: the runs of variant A                            *)
(* ===================================================================== *)

(** A run that is not started by the submit button, and not by the Clear
    Form button while the form is submitted, only shows. *)
Lemma main_shows_A today int_of_str w c s :
  (0 < today + 5 * 365 <= MAXORDINAL)%Z ->
  c <> FormValidation.SubmitForm ->
  (c = FormValidation.ClearForm ->
   FormValidation.submission_state s = Some Editing) ->
  is_Some (St.store s !! "submitted") ->
  exists shown,
    FormValidation.main today int_of_str w c s
    = (Ok tt, {| St.store := St.store s; St.screen := St.screen s ++ shown |}).
Proof.
  intros Htoday Hc Hclear [v Hv]. unfold FormValidation.main.
  destruct (form_fields_writes today int_of_str w Htoday s) as [sh1 E1].
  rewrite (bind_ok _ _ _ _ _ E1).
  rewrite (bind_ok _ _ _ _ _ (range_feedback_shows w _)).
  cbn [St.store St.screen id]. rewrite <- app_assoc.
  unfold FormValidation.submission_state in Hclear. rewrite Hv in Hclear.
  unfold FormValidation.create_sidebar_markdown, bind, ret, St.item.
  destruct c; [|done|]; cbn [St.store]; rewrite Hv.
  - destruct (truthy v); by eexists.
  - destruct (truthy v); [by specialize (Hclear eq_refl)|]. by eexists.
Qed.

(** X11: after an accepted submission of variant A the form data hold
    every value of that submission and the keys outside the form are as
    they were; a later run without a button, whatever the widgets then
    hold, leaves the form data unchanged. *)
Theorem edits_leave_last_submission
  (today : Z) (int_of_str : str -> option Z)
  (w w' : FormValidation.widgets) (s : St.state) :
  (0 < today + 5 * 365 <= MAXORDINAL)%Z ->
  FormValidation.fields_valid today int_of_str w
  && (FormValidation.start_date w <? FormValidation.end_date w)%Z = true ->
  is_Some (St.store s !! "submitted") ->
  exists s1 s2,
    FormValidation.main today int_of_str w FormValidation.SubmitForm s
    = (Raise RerunException, s1)
    /\ FormValidation.main today int_of_str w' FormValidation.NoClick s1
       = (Ok tt, s2)
    /\ St.store s2 = St.store s1
    /\ (forall k v,
          (k, v) ∈ FormValidation.submitted_entries w ->
          St.store s2 !! k = Some v)
    /\ (forall k,
          k ∉ (FormValidation.submitted_entries w).*1 ->
          St.store s2 !! k = St.store s !! k).
Proof.
  intros Htoday Hvalid Hkey.
  assert (Hrun : exists shown,
            FormValidation.main today int_of_str w FormValidation.SubmitForm s
            = (Raise RerunException,
               {| St.store :=
                    list_to_map (FormValidation.submitted_entries w)
                    ∪ St.store s;
                  St.screen := St.screen s ++ shown |})).
  { unfold FormValidation.main.
    destruct (form_fields_writes today int_of_str w Htoday s) as [sh1 E1].
    rewrite (bind_ok _ _ _ _ _ E1).
    rewrite (bind_ok _ _ _ _ _ (range_feedback_shows w _)).
    unfold bind at 1.
    rewrite (on_submit_accepts today int_of_str Htoday w _ Hvalid).
    cbn [St.store St.screen id]. eexists. by rewrite <- !app_assoc. }
  destruct Hrun as [sh Hrun].
  destruct (main_shows_A today int_of_str w' FormValidation.NoClick
              {| St.store :=
                   list_to_map (FormValidation.submitted_entries w)
                   ∪ St.store s;
                 St.screen := St.screen s ++ sh |} Htoday)
    as [sh' Hrun']; [done|done| |].
  { cbn [St.store]. rewrite submitted_after_accept. by eexists. }
  do 2 eexists. split; [exact Hrun|]. split; [exact Hrun'|].
  cbn [St.store]. split; [done|]. split.
  - intros k v Hin. apply lookup_union_Some_l.
    apply elem_of_list_to_map; [|done].
    unfold FormValidation.submitted_entries. cbn [fmap list_fmap fst].
    by apply (bool_decide_unpack _).
  - intros k Hk. apply lookup_union_r. by apply not_elem_of_list_to_map_1.
Qed.

(** The accepted scenario is submitted, then the widgets are changed to the
    reversed scenario without a submit: the form data stay those of the
    submission. *)
Lemma edits_leave_last_submission_witness :
  (0 < Scenario.today + 5 * 365 <= MAXORDINAL)%Z
  /\ exists s1 s2,
       FormValidation.main Scenario.today Scenario.int_of_str Scenario.accepted
         FormValidation.SubmitForm
         (St.with_store (insert "submitted" (VBool false)) Scenario.fresh)
       = (Raise RerunException, s1)
       /\ FormValidation.main Scenario.today Scenario.int_of_str
            Scenario.reversed FormValidation.NoClick s1
          = (Ok tt, s2)
       /\ St.store s2 = St.store s1
       /\ (forall k v,
             (k, v) ∈ FormValidation.submitted_entries Scenario.accepted ->
             St.store s2 !! k = Some v)
       /\ (forall k,
             k ∉ (FormValidation.submitted_entries Scenario.accepted).*1 ->
             St.store s2 !! k
             = St.store
                 (St.with_store (insert "submitted" (VBool false))
                    Scenario.fresh) !! k).
Proof.
  assert (H : (0 < Scenario.today + 5 * 365 <= MAXORDINAL)%Z)
    by (split; [reflexivity | discriminate]).
  split; [exact H|].
  apply (edits_leave_last_submission Scenario.today Scenario.int_of_str
           Scenario.accepted Scenario.reversed
           (St.with_store (insert "submitted" (VBool false)) Scenario.fresh) H).
  - vm_compute. reflexivity.
  - by eexists.
Defined.

(** X12: the clear loop of variant A does not restore the form data of a
    new session: every key is as at the start except [end_date], which
    the loop sets to today while a new session has the day after
    today. *)
Theorem clear_form_differs_from_initial_form (today : Z) (s : St.state) :
  (0 < today + 1 <= MAXORDINAL)%Z ->
  (forall k,
     is_Some (St.store s !! k)
     <-> k ∈ ["first_name"; "last_name"; "email"; "phone"; "age";
              "birth_date"; "start_date"; "end_date"; "submitted"]) ->
  exists initial cleared,
    FormValidation.initial_form_data today = Ok initial
    /\ FormValidation.clear_form today s
       = (Ok tt, {| St.store := cleared; St.screen := St.screen s |})
    /\ (forall k, k <> "end_date" -> cleared !! k = initial !! k)
    /\ cleared !! "end_date" = Some (VDate today)
    /\ initial !! "end_date" = Some (VDate (today + 1)).
Proof.
  intros Htoday Hkeys.
  destruct (clear_form_spec today s) as (d' & Hrun & Hd').
  unfold FormValidation.initial_form_data.
  rewrite add_days_in_range by done. cbn [rbind].
  eexists _, d'. split; [reflexivity|]. split; [exact Hrun|].
  assert (Hin : forall k,
            k ∈ ["first_name"; "last_name"; "email"; "phone"; "age";
                 "birth_date"; "start_date"; "end_date"; "submitted"] ->
            d' !! k = Some (FormValidation.cleared_value today k)).
  { intros k [v Hv]%Hkeys. by rewrite Hd', Hv. }
  split; [|split].
  - intros k Hne.
    destruct (decide (k ∈ ["first_name"; "last_name"; "email"; "phone"; "age";
                           "birth_date"; "start_date"; "end_date";
                           "submitted"])) as [Hk|Hk].
    + rewrite (Hin k Hk).
      repeat (apply elem_of_cons in Hk as [->|Hk]; [done|]).
      by apply elem_of_nil in Hk.
    + rewrite Hd'. destruct (St.store s !! k) as [v|] eqn:Hv.
      { exfalso. apply Hk, Hkeys. by eexists. }
      symmetry. apply not_elem_of_list_to_map_1. done.
  - rewrite Hin; [done|]. by apply (bool_decide_unpack _).
  - done.
Qed.

(** The form data of the accepted scenario are cleared on the day of the
    scenarios. *)
Lemma clear_form_differs_from_initial_form_witness :
  (0 < Scenario.today + 1 <= MAXORDINAL)%Z
  /\ exists initial cleared,
       FormValidation.initial_form_data Scenario.today = Ok initial
       /\ FormValidation.clear_form Scenario.today
            (St.with_store
               (fun _ =>
                  list_to_map
                    (FormValidation.submitted_entries Scenario.accepted))
               Scenario.fresh)
          = (Ok tt, {| St.store := cleared; St.screen := [] |})
       /\ (forall k, k <> "end_date" -> cleared !! k = initial !! k)
       /\ cleared !! "end_date" = Some (VDate Scenario.today)
       /\ initial !! "end_date" = Some (VDate (Scenario.today + 1)).
Proof.
  assert (H : (0 < Scenario.today + 1 <= MAXORDINAL)%Z)
    by (split; [reflexivity | discriminate]).
  split; [exact H|].
  apply (clear_form_differs_from_initial_form Scenario.today
           (St.with_store
              (fun _ =>
                 list_to_map
                   (FormValidation.submitted_entries Scenario.accepted))
              Scenario.fresh) H).
  intros k. cbn [St.with_store St.store].
  rewrite <- elem_of_dom, dom_list_to_map_L.
  unfold FormValidation.submitted_entries. cbn [fmap list_fmap fst].
  rewrite elem_of_list_to_set. done.
Defined.

(** X13: in either variant the clear loop run on a cleared session
    returns and changes nothing. *)
Theorem clearing_twice_is_clearing_once (today : Z) (s : St.state) :
  (exists s1,
     FormValidation.clear_form today s = (Ok tt, s1)
     /\ FormValidation.clear_form today s1 = (Ok tt, s1))
  /\ (exists s1,
        FormValidation2.clear_session s = (Ok tt, s1)
        /\ FormValidation2.clear_session s1 = (Ok tt, s1)).
Proof.
  split.
  - destruct (clear_form_spec today s) as (d1 & Hrun1 & Hd1).
    eexists. split; [exact Hrun1|].
    destruct (clear_form_spec today
                {| St.store := d1; St.screen := St.screen s |})
      as (d2 & Hrun2 & Hd2).
    rewrite Hrun2. cbn [St.screen]. do 2 f_equal.
    apply map_eq. intros k. cbn [St.store] in Hd2.
    rewrite Hd2, Hd1. by destruct (St.store s !! k).
  - eexists. split; [apply clear_session_spec|].
    by rewrite clear_session_spec.
Qed.

(* ===================================================================== *)
(** * Beyond the claims: the runs of variant B                            *)
(* ===================================================================== *)

Section LiveRuns.

Variable today : Z.

Lemma update_sidebar_table_screen c s :
  c <> FormValidation2.ClearForm ->
  FormValidation2.update_sidebar_table today c s
  = (Ok tt,
     {| St.store := St.store s;
        St.screen :=
          St.screen s
          ++ (if truthy (read (St.store s) "form_submitted" (VBool false))
              then [St.Success (lit "Form submitted successfully!")]
              else []) |}).
Proof.
  intros Hc. destruct s as [d scr].
  unfold FormValidation2.update_sidebar_table, FormValidation2.current_data,
    bind, St.get, ret, read. cbn [St.store St.screen].
  destruct (truthy _); destruct c; try done; cbn; by rewrite ?app_nil_r.
Qed.

Lemma validation_summary_held w s :
  FormValidation2.holds_fields today w (St.store s) ->
  FormValidation2.validation_summary today s
  = (Ok tt,
     {| St.store := St.store s;
        St.screen :=
          St.screen s
          ++ match FormValidation2.outstanding today w with
             | [] => [St.Success (lit "All fields are valid! " ++ [10024%N])]
             | messages =>
                 St.Error (lit "Fields needing attention:")
                 :: map (fun m => St.Warning (FormValidation2.bullet ++ m))
                      messages
             end |}).
Proof.
  intros H. unfold FormValidation2.validation_summary.
  rewrite (bind_ok _ _ _ _ _ (get_validation_status_held today w s H)).
  destruct (FormValidation2.outstanding today w) as [|m l] eqn:Hout.
  - done.
  - cbn [truthy negb].
    rewrite (bind_ok _ _ _ _ _ (get_validation_status_held today w s H)).
    rewrite Hout. unfold St.error, St.warning, bind, St.show at 1.
    rewrite (for_each_shows
               (fun m => St.Warning (FormValidation2.bullet ++ m))).
    cbn [St.store St.screen]. by rewrite <- app_assoc.
Qed.

Lemma read_form_submitted_edited w d :
  read (FormValidation2.edited_store today w (FormValidation2.initialised d))
    "form_submitted" (VBool false)
  = read d "form_submitted" (VBool false).
Proof.
  unfold read, FormValidation2.edited_store, FormValidation2.initialised.
  rewrite !lookup_insert_ne by done.
  destruct (d !! "form_submitted") as [v|] eqn:E; cbn zeta.
  - destruct (d !! "validation_messages").
    + by rewrite E.
    + rewrite lookup_insert_ne by done. by rewrite E.
  - rewrite lookup_insert_ne by done.
    destruct (d !! "validation_messages").
    + by rewrite lookup_insert_eq.
    + rewrite lookup_insert_ne by done. by rewrite lookup_insert_eq.
Qed.

(** A run that is not started by the Clear Form button returns, and its
    store is the edited store, with the submission flag set when the
    Submit button was pressed on a valid form. *)
Lemma main_run_B w c s :
  c <> FormValidation2.ClearForm ->
  exists shown,
    FormValidation2.main today w c s
    = (Ok tt,
       {| St.store :=
            (if match c with FormValidation2.Submit => true | _ => false end
                && (FormValidation2.fields_valid today w
                    && (FormValidation2.start_date w
                        <? FormValidation2.end_date w)%Z)
             then <["form_submitted" := VBool true]>
             else id)
              (FormValidation2.edited_store today w
                 (FormValidation2.initialised (St.store s)));
          St.screen := St.screen s ++ shown |})
    /\ (truthy (read (St.store s) "form_submitted" (VBool false)) = true ->
        St.Success (lit "Form submitted successfully!") ∈ shown).
Proof.
  intros Hc. destruct (main_after_edit today w c s) as [sh1 ->].
  pose (s3 := {| St.store :=
                   FormValidation2.edited_store today w
                     (FormValidation2.initialised (St.store s));
                 St.screen := St.screen s ++ sh1 |}).
  fold s3.
  assert (H3 : FormValidation2.holds_fields today w (St.store s3))
    by apply holds_edited_store.
  assert (Hsub : read (St.store s3) "form_submitted" (VBool false)
                 = read (St.store s) "form_submitted" (VBool false))
    by exact (read_form_submitted_edited w (St.store s)).
  destruct c; [| |done].
  - rewrite (bind_ok _ _ _ _ _ (eq_refl : ret tt s3 = (Ok tt, s3))).
    rewrite (bind_ok _ _ _ _ _ (update_sidebar_table_screen _ s3 Hc)).
    rewrite (validation_summary_held w) by done.
    cbn [St.store St.screen andb id]. subst s3. cbn [St.store St.screen].
    eexists. split; [by rewrite <- !app_assoc|].
    intros Ht. cbn [St.store] in Hsub. rewrite Hsub, Ht.
    rewrite !elem_of_app, ?elem_of_cons. intuition.
  - rewrite (bind_ok _ _ _ _ _ (on_submit_held today w s3 H3)).
    cbn [andb].
    destruct (FormValidation2.fields_valid today w && _) eqn:Hvalid.
    + rewrite (bind_ok _ _ _ _ _ (update_sidebar_table_screen _ _ Hc)).
      rewrite (validation_summary_held w).
      2: { cbn [St.store]. apply holds_insert_other;
             [apply form_submitted_not_field | done]. }
      cbn [St.store St.screen]. subst s3. cbn [St.store St.screen].
      eexists. split; [by rewrite <- !app_assoc|].
      intros _. unfold read. rewrite lookup_insert_eq. cbn [truthy].
      rewrite !elem_of_app, ?elem_of_cons. intuition.
    + rewrite (bind_ok _ _ _ _ _ (update_sidebar_table_screen _ _ Hc)).
      rewrite (validation_summary_held w) by done.
      cbn [St.store St.screen id]. subst s3. cbn [St.store St.screen].
      eexists. split; [by rewrite <- !app_assoc|].
      intros Ht. cbn [St.store] in Hsub. rewrite Hsub, Ht.
      rewrite !elem_of_app, ?elem_of_cons. intuition.
Qed.

Lemma lookup_edited_other w d k :
  k ∉ ["first_name"; "first_name_valid"; "last_name";
       "last_name_valid"; "email"; "email_valid"; "phone";
       "phone_valid"; "age"; "age_valid"; "birth_date";
       "birth_date_valid"; "start_date"; "start_date_valid";
       "end_date"; "end_date_valid"] ->
  FormValidation2.edited_store today w d !! k = d !! k.
Proof.
  intros Hk. unfold FormValidation2.edited_store.
  rewrite !not_elem_of_cons in Hk.
  destruct Hk as (?&?&?&?&?&?&?&?&?&?&?&?&?&?&?&?&_).
  by rewrite !lookup_insert_ne.
Qed.

Lemma lookup_edited_field w d k :
  k ∈ ["first_name"; "first_name_valid"; "last_name";
       "last_name_valid"; "email"; "email_valid"; "phone";
       "phone_valid"; "age"; "age_valid"; "birth_date";
       "birth_date_valid"; "start_date"; "start_date_valid";
       "end_date"; "end_date_valid"] ->
  FormValidation2.edited_store today w d !! k
  = FormValidation2.edited_store today w ∅ !! k.
Proof. intros Hk. by apply holds_edited_store. Qed.

Lemma initialised_lookup d k :
  FormValidation2.initialised d !! k
  = match d !! k with
    | Some v => Some v
    | None =>
        if decide (k = "form_submitted") then Some (VBool false)
        else if decide (k = "validation_messages") then Some (VList [])
        else None
    end.
Proof.
  unfold FormValidation2.initialised.
  destruct (decide (k = "form_submitted")) as [->|H1];
    [|destruct (decide (k = "validation_messages")) as [->|H2]].
  - destruct (d !! "form_submitted") as [v1|] eqn:E1; cbn zeta.
    + destruct (d !! "validation_messages"); [by rewrite E1|].
      rewrite lookup_insert_ne by done. by rewrite E1.
    + rewrite lookup_insert_ne by done.
      destruct (d !! "validation_messages").
      * by rewrite lookup_insert_eq.
      * rewrite lookup_insert_ne by done. by rewrite lookup_insert_eq.
  - destruct (d !! "form_submitted") as [v1|] eqn:E1; cbn zeta.
    + destruct (d !! "validation_messages") eqn:E2; [by rewrite E2|].
      by rewrite lookup_insert_eq.
    + rewrite lookup_insert_ne by done.
      destruct (d !! "validation_messages") eqn:E2.
      * rewrite lookup_insert_ne by done. by rewrite E2.
      * by rewrite lookup_insert_eq.
  - destruct (d !! "form_submitted") as [v1|] eqn:E1; cbn zeta.
    + destruct (d !! "validation_messages"); [by destruct (d !! k)|].
      rewrite lookup_insert_ne by done. by destruct (d !! k).
    + rewrite lookup_insert_ne by done.
      destruct (d !! "validation_messages");
        rewrite ?lookup_insert_ne by done; by destruct (d !! k).
Qed.

Lemma initialised_idemp d :
  FormValidation2.initialised (FormValidation2.initialised d)
  = FormValidation2.initialised d.
Proof.
  apply map_eq. intros k. rewrite !initialised_lookup.
  destruct (d !! k); [done|]. by repeat case_decide.
Qed.

Lemma edited_store_latest w w' d :
  FormValidation2.edited_store today w'
    (FormValidation2.initialised
       (FormValidation2.edited_store today w
          (FormValidation2.initialised d)))
  = FormValidation2.edited_store today w' (FormValidation2.initialised d).
Proof.
  apply map_eq. intros k.
  destruct (decide (k ∈ ["first_name"; "first_name_valid"; "last_name";
       "last_name_valid"; "email"; "email_valid"; "phone";
       "phone_valid"; "age"; "age_valid"; "birth_date";
       "birth_date_valid"; "start_date"; "start_date_valid";
       "end_date"; "end_date_valid"])) as [Hk|Hk].
  - etrans; [by apply lookup_edited_field|].
    symmetry. by apply lookup_edited_field.
  - etrans; [by apply lookup_edited_other|].
    etrans; [|symmetry; by apply lookup_edited_other].
    rewrite (initialised_lookup (FormValidation2.edited_store _ _ _)).
    rewrite (lookup_edited_other w _ k Hk).
    rewrite initialised_lookup.
    destruct (d !! k); [done|]. by repeat case_decide.
Qed.

End LiveRuns.

(** X14: in variant B a run without a button always returns; after two
    such runs the store is what the second run alone would leave, so
    that the sixteen entries of the form only depend on what the widgets
    hold now and a rerun with the same widgets changes nothing; such
    runs leave the form in the state it was in. *)
Theorem live_store_follows_latest_edit
  (today : Z) (w w' : FormValidation2.widgets) (s : St.state) :
  exists s1 s2 s2',
    FormValidation2.main today w FormValidation2.NoClick s = (Ok tt, s1)
    /\ FormValidation2.main today w' FormValidation2.NoClick s1 = (Ok tt, s2)
    /\ FormValidation2.main today w' FormValidation2.NoClick s = (Ok tt, s2')
    /\ St.store s2 = St.store s2'
    /\ St.store s2
       = FormValidation2.edited_store today w'
           (FormValidation2.initialised (St.store s))
    /\ FormValidation2.holds_fields today w' (St.store s2)
    /\ FormValidation2.submission_state s2
       = FormValidation2.submission_state s.
Proof.
  destruct (main_run_B today w FormValidation2.NoClick s) as (sh1 & E1 & _);
    [done|].
  destruct (main_run_B today w' FormValidation2.NoClick s) as (sh2' & E2' & _);
    [done|].
  cbn [andb id] in E1, E2'.
  match type of E1 with _ = (_, ?x) => set (s1 := x) in * end.
  destruct (main_run_B today w' FormValidation2.NoClick s1) as (sh2 & E2 & _);
    [done|].
  cbn [andb id] in E2. subst s1. cbn [St.store St.screen] in E2.
  rewrite edited_store_latest in E2.
  do 3 eexists. split; [exact E1|]. split; [exact E2|]. split; [exact E2'|].
  cbn [St.store]. split; [done|]. split; [done|].
  split; [apply holds_edited_store|].
  unfold FormValidation2.submission_state. cbn [St.store].
  by rewrite read_form_submitted_edited.
Qed.

(** X15: in variant B a submitted form stays submitted through every run
    that is not started by the Clear Form button, whatever the widgets
    hold then: the sidebar goes on showing the success message, while
    [get_validation_status] reports the messages outstanding for the
    new values. *)
Theorem submitted_until_cleared
  (today : Z) (w : FormValidation2.widgets) (c : FormValidation2.click)
  (s : St.state) :
  FormValidation2.submission_state s = Submitted ->
  c <> FormValidation2.ClearForm ->
  exists s',
    FormValidation2.main today w c s = (Ok tt, s')
    /\ FormValidation2.submission_state s' = Submitted
    /\ St.Success (lit "Form submitted successfully!") ∈ St.screen s'
    /\ FormValidation2.get_validation_status today s'
       = (Ok (FormValidation2.outstanding today w), s').
Proof.
  intros Hsub Hc. unfold FormValidation2.submission_state in Hsub.
  destruct (truthy (read (St.store s) "form_submitted" (VBool false)))
    eqn:Ht; [|done].
  destruct (main_run_B today w c s Hc) as (sh & E & Hshown).
  eexists. split; [exact E|]. split; [|split].
  - unfold FormValidation2.submission_state. cbn [St.store].
    destruct (_ && _).
    + unfold read. by rewrite lookup_insert_eq.
    + cbn [id]. by rewrite read_form_submitted_edited, Ht.
  - cbn [St.screen]. apply elem_of_app. right. by apply Hshown.
  - apply get_validation_status_held. cbn [St.store].
    destruct (_ && _); cbn [id]; [|apply holds_edited_store].
    apply holds_insert_other;
      [apply form_submitted_not_field | apply holds_edited_store].
Qed.

(** A submitted form is emptied by the user: it stays submitted. *)
Lemma submitted_until_cleared_witness :
  FormValidation2.submission_state LiveScenario.submitted = Submitted
  /\ FormValidation2.NoClick <> FormValidation2.ClearForm
  /\ exists s',
       FormValidation2.main Scenario.today LiveScenario.blank
         FormValidation2.NoClick LiveScenario.submitted
       = (Ok tt, s')
       /\ FormValidation2.submission_state s' = Submitted
       /\ St.Success (lit "Form submitted successfully!") ∈ St.screen s'
       /\ FormValidation2.get_validation_status Scenario.today s'
          = (Ok (FormValidation2.outstanding Scenario.today LiveScenario.blank),
             s').
Proof.
  assert (H1 : FormValidation2.submission_state LiveScenario.submitted
               = Submitted) by reflexivity.
  assert (H2 : FormValidation2.NoClick <> FormValidation2.ClearForm)
    by discriminate.
  split; [exact H1|]. split; [exact H2|].
  exact (submitted_until_cleared Scenario.today LiveScenario.blank
           FormValidation2.NoClick LiveScenario.submitted H1 H2).
Defined.

(** ** [get_validation_status] on any session *)

Section AnySession.

Variable today : Z.

(** A field whose flag is set is not looked at. *)
Lemma status_block_flagged {C} flag_key (body : M St.state (list str))
  (acc : list str) (rest : list str -> M St.state C) s :
  truthy (read (St.store s) flag_key (VBool false)) = true ->
  bind (St.get flag_key (VBool false))
    (fun flag =>
       bind (if negb (truthy flag) then body else ret acc) rest) s
  = rest acc s.
Proof.
  intros H. unfold bind, St.get, read in *.
  destruct (St.store s !! flag_key); by rewrite H.
Qed.

(** A field with neither a flag nor a value is reported as required. *)
Lemma status_block_absent {C} flag_key key default
  (validate : value -> result (bool * str)) required
  (acc : list str) (rest : list str -> M St.state C) s :
  St.store s !! flag_key = None ->
  St.store s !! key = None ->
  truthy default = false ->
  bind (St.get flag_key (VBool false))
    (fun flag =>
       bind
         (if negb (truthy flag) then
            let* current := St.get key default in
            if truthy current then
              let* arg := St.attr key in
              let* ' (is_valid, message) := lift (validate arg) in
              ret (if negb is_valid then acc ++ [message] else acc)
            else ret (acc ++ [required])
          else ret acc)
         rest) s
  = rest (acc ++ [required]) s.
Proof.
  intros Hflag Hkey Hdef. unfold bind, St.get. rewrite Hflag. simpl.
  rewrite Hkey. by rewrite Hdef.
Qed.

Lemma status_block_age_absent {C} required
  (acc : list str) (rest : list str -> M St.state C) s :
  St.store s !! "age_valid" = None ->
  St.store s !! "age" = None ->
  bind (St.get "age_valid" (VBool false))
    (fun flag =>
       bind
         (if negb (truthy flag) then
            let* current := St.get "age" (VInt 0) in
            let* positive := lift (gt current (VInt 0)) in
            if positive then
              let* arg := St.attr "age" in
              let* ' (is_valid, message) :=
                lift (FormValidation2.validate_age arg) in
              ret (if negb is_valid then acc ++ [message] else acc)
            else ret (acc ++ [required])
          else ret acc)
         rest) s
  = rest (acc ++ [required]) s.
Proof.
  intros Hflag Hkey. unfold bind, St.get. rewrite Hflag. simpl.
  by rewrite Hkey.
Qed.

End AnySession.

(** X16: [get_validation_status] does not look at a field whose flag is
    set: on a session whose six flags are true it only reports the date
    range, whatever the fields hold. *)
Theorem get_validation_status_trusts_flags
  (today : Z) (s : St.state) (a b : Z) :
  (forall k,
     k ∈ ["first_name_valid"; "last_name_valid"; "email_valid";
          "phone_valid"; "age_valid"; "birth_date_valid"] ->
     FormValidation2.flag s k = true) ->
  St.store s !! "start_date" = Some (VDate a) ->
  St.store s !! "end_date" = Some (VDate b) ->
  FormValidation2.get_validation_status today s
  = (Ok (if (a <? b)%Z then []
         else [lit "Start date must be before end date"]), s).
Proof.
  intros Hflags Ha Hb. unfold FormValidation2.flag in Hflags.
  unfold FormValidation2.get_validation_status.
  rewrite !status_block_flagged
    by (apply Hflags; repeat first [ apply list_elem_of_here
                                   | apply list_elem_of_further ]).
  unfold bind, St.get, ret, lift. rewrite Ha, Hb. cbn [truthy].
  rewrite ge_dates. by destruct (a <? b)%Z.
Qed.

(** A session whose flags are all set and whose first name is empty: nothing
    is reported. *)
Lemma get_validation_status_trusts_flags_witness :
  St.store LiveScenario.stale !! "first_name" = Some (VStr [])
  /\ FormValidation2.get_validation_status Scenario.today LiveScenario.stale
     = (Ok [], LiveScenario.stale).
Proof.
  split; [reflexivity|].
  apply (get_validation_status_trusts_flags Scenario.today LiveScenario.stale
           (date 2024 1 1) (date 2024 1 2)).
  - intros k Hk.
    repeat (apply elem_of_cons in Hk as [->|Hk]; [reflexivity|]).
    by apply elem_of_nil in Hk.
  - reflexivity.
  - reflexivity.
Defined.

(** X17: on a session that holds neither a field of the form nor a
    flag, [get_validation_status] returns the six messages that a field
    is required, in the order of the form, and no message on the date
    range. *)
Theorem get_validation_status_before_any_edit (today : Z) (s : St.state) :
  (forall k,
     k ∈ ["first_name"; "first_name_valid"; "last_name"; "last_name_valid";
          "email"; "email_valid"; "phone"; "phone_valid"; "age"; "age_valid";
          "birth_date"; "birth_date_valid"; "start_date"; "end_date"] ->
     St.store s !! k = None) ->
  FormValidation2.get_validation_status today s
  = (Ok [lit "First name is required"; lit "Last name is required";
         lit "Email is required"; lit "Phone number is required";
         lit "Age is required"; lit "Birth date is required"], s).
Proof.
  intros H.
  assert (Hk : forall k,
             bool_decide
               (k ∈ ["first_name"; "first_name_valid"; "last_name";
                     "last_name_valid"; "email"; "email_valid"; "phone";
                     "phone_valid"; "age"; "age_valid"; "birth_date";
                     "birth_date_valid"; "start_date"; "end_date"]) = true ->
             St.store s !! k = None)
    by (intros k Hk; apply H; exact (bool_decide_eq_true_1 _ Hk)).
  unfold FormValidation2.get_validation_status.
  rewrite (status_block_absent "first_name_valid" "first_name" (VStr []))
    by (done || by apply Hk).
  rewrite (status_block_absent "last_name_valid" "last_name" (VStr []))
    by (done || by apply Hk).
  rewrite (status_block_absent "email_valid" "email" (VStr []))
    by (done || by apply Hk).
  rewrite (status_block_absent "phone_valid" "phone" (VStr []))
    by (done || by apply Hk).
  rewrite status_block_age_absent by (by apply Hk).
  rewrite (status_block_absent "birth_date_valid" "birth_date" VNone)
    by (done || by apply Hk).
  unfold bind, St.get, ret. by rewrite (Hk "start_date") by done.
Qed.

(** The session before the first run. *)
Lemma get_validation_status_before_any_edit_witness :
  FormValidation2.get_validation_status Scenario.today Scenario.fresh
  = (Ok [lit "First name is required"; lit "Last name is required";
         lit "Email is required"; lit "Phone number is required";
         lit "Age is required"; lit "Birth date is required"],
     Scenario.fresh).
Proof.
  apply (get_validation_status_before_any_edit Scenario.today Scenario.fresh).
  intros k _. apply lookup_empty.
Defined.

Section Reported.

Variable today : Z.

Lemma status_block_any {C} (P : list str -> Prop) flag_key key default
  (validate : value -> result (bool * str)) required
  (acc : list str) (rest : list str -> M St.state C) s (l : C) s' :
  P acc -> P (acc ++ [required]) ->
  (forall arg m,
     truthy arg = true -> validate arg = Ok (false, m) -> P (acc ++ [m])) ->
  bind (St.get flag_key (VBool false))
    (fun flag =>
       bind
         (if negb (truthy flag) then
            let* current := St.get key default in
            if truthy current then
              let* arg := St.attr key in
              let* ' (is_valid, message) := lift (validate arg) in
              ret (if negb is_valid then acc ++ [message] else acc)
            else ret (acc ++ [required])
          else ret acc)
         rest) s
  = (Ok l, s') ->
  exists acc', P acc' /\ rest acc' s = (Ok l, s').
Proof.
  intros Hacc Hreq Hval. unfold bind, St.get, St.attr, lift, ret.
  destruct (truthy match St.store s !! flag_key with
                   | Some v => v
                   | None => VBool false
                   end); cbn [negb]; [by exists acc|].
  destruct (St.store s !! key) as [v|] eqn:Hkey.
  - destruct (truthy v) eqn:Hv; [|by exists (acc ++ [required])].
    rewrite Hkey. cbn beta iota.
    destruct (validate v) as [[b m]|e] eqn:Hr; [|by intros [=]].
    destruct b; cbn [negb]; [by exists acc|].
    exists (acc ++ [m]). split; [by eapply Hval|done].
  - destruct (truthy default); [by rewrite Hkey|].
    by exists (acc ++ [required]).
Qed.

Lemma status_block_age_any {C} (P : list str -> Prop) required
  (acc : list str) (rest : list str -> M St.state C) s (l : C) s' :
  P acc -> P (acc ++ [required]) ->
  (forall arg m,
     gt arg (VInt 0) = Ok true ->
     FormValidation2.validate_age arg = Ok (false, m) -> P (acc ++ [m])) ->
  bind (St.get "age_valid" (VBool false))
    (fun flag =>
       bind
         (if negb (truthy flag) then
            let* current := St.get "age" (VInt 0) in
            let* positive := lift (gt current (VInt 0)) in
            if positive then
              let* arg := St.attr "age" in
              let* ' (is_valid, message) :=
                lift (FormValidation2.validate_age arg) in
              ret (if negb is_valid then acc ++ [message] else acc)
            else ret (acc ++ [required])
          else ret acc)
         rest) s
  = (Ok l, s') ->
  exists acc', P acc' /\ rest acc' s = (Ok l, s').
Proof.
  intros Hacc Hreq Hval. unfold bind, St.get, St.attr, lift, ret.
  destruct (truthy match St.store s !! "age_valid" with
                   | Some v => v
                   | None => VBool false
                   end); cbn [negb]; [by exists acc|].
  destruct (St.store s !! "age") as [v|] eqn:Hkey.
  - destruct (gt v (VInt 0)) as [positive|e] eqn:Hv; [|done].
    destruct positive; [|by exists (acc ++ [required])].
    rewrite Hkey. cbn beta iota.
    destruct (FormValidation2.validate_age v) as [[b m]|e] eqn:Hr;
      [|by intros [=]].
    destruct b; cbn [negb]; [by exists acc|].
    exists (acc ++ [m]). split; [by eapply Hval|done].
  - cbn. by exists (acc ++ [required]).
Qed.

Lemma validate_name_messages_B arg fn m :
  FormValidation2.validate_name arg fn = Ok (false, m) ->
  m = fn ++ lit " is required"
  \/ m = fn ++ lit " must contain only letters, spaces, hyphens, or apostrophes (2-50 characters)".
Proof.
  unfold FormValidation2.validate_name.
  destruct (truthy arg); cbn [negb]; [|intros [= <-]; by left].
  destruct (re_match_value _ arg) as [[]|]; cbn [rbind negb]; [done| |done].
  intros [= <-]. by right.
Qed.

Lemma validate_email_messages_B arg m :
  FormValidation2.validate_email arg = Ok (false, m) ->
  m = lit "Email is required" \/ m = lit "Invalid email format".
Proof.
  unfold FormValidation2.validate_email.
  destruct (truthy arg); cbn [negb]; [|intros [= <-]; by left].
  destruct (re_match_value _ arg) as [[]|]; cbn [rbind negb]; [done| |done].
  intros [= <-]. by right.
Qed.

Lemma validate_phone_messages_B arg m :
  FormValidation2.validate_phone arg = Ok (false, m) ->
  m = lit "Phone number is required" \/ m = lit "Phone must be 10 digits".
Proof.
  unfold FormValidation2.validate_phone.
  destruct (truthy arg); cbn [negb]; [|intros [= <-]; by left].
  destruct (re_sub_class_value _ arg) as [clean|]; cbn [rbind]; [|done].
  destruct (re_match_value _ clean) as [[]|]; cbn [rbind negb]; [done| |done].
  intros [= <-]. by right.
Qed.

(** The first check of [validate_age] cannot fail on a positive age. *)
Lemma validate_age_message_positive arg m :
  gt arg (VInt 0) = Ok true ->
  FormValidation2.validate_age arg = Ok (false, m) ->
  m = lit "Age must be less than 120".
Proof.
  unfold FormValidation2.validate_age, gt, le.
  destruct (compare arg (VInt 0)) as [[]|]; cbn [rbind]; try done.
  intros _. destruct (compare arg (VInt 120)) as [[]|]; cbn [rbind]; try done.
  by intros [= <-].
Qed.

(** The first check of [validate_date] cannot fail on a date that is
    there. *)
Lemma validate_date_message_present arg m :
  truthy arg = true ->
  FormValidation2.validate_date today arg = Ok (false, m) ->
  m = lit "Date cannot be in the future".
Proof.
  unfold FormValidation2.validate_date. intros ->. cbn [negb].
  destruct (gt arg (VDate today)) as [[]|]; cbn [rbind]; try done.
  by intros [= <-].
Qed.

Lemma reportable_snoc acc m :
  reportable acc -> m ∈ reportable_messages -> reportable (acc ++ [m]).
Proof.
  intros Hacc Hm. apply Forall_app. split; [done|]. by constructor.
Qed.

Lemma get_validation_status_reportable s l s' :
  FormValidation2.get_validation_status today s = (Ok l, s') ->
  reportable l.
Proof.
  unfold FormValidation2.get_validation_status. intros H.
  apply (status_block_any reportable) in H as (acc1 & P1 & H).
  2: { constructor. }
  2: { apply reportable_snoc; [constructor|]. by apply (bool_decide_unpack _). }
  2: { intros arg m _ [->| ->]%validate_name_messages_B;
         (apply reportable_snoc; [constructor|]);
         by apply (bool_decide_unpack _). }
  apply (status_block_any reportable) in H as (acc2 & P2 & H); [|done| |].
  2: { apply reportable_snoc; [done|]. by apply (bool_decide_unpack _). }
  2: { intros arg m _ [->| ->]%validate_name_messages_B;
         (apply reportable_snoc; [done|]); by apply (bool_decide_unpack _). }
  apply (status_block_any reportable) in H as (acc3 & P3 & H); [|done| |].
  2: { apply reportable_snoc; [done|]. by apply (bool_decide_unpack _). }
  2: { intros arg m _ [->| ->]%validate_email_messages_B;
         (apply reportable_snoc; [done|]); by apply (bool_decide_unpack _). }
  apply (status_block_any reportable) in H as (acc4 & P4 & H); [|done| |].
  2: { apply reportable_snoc; [done|]. by apply (bool_decide_unpack _). }
  2: { intros arg m _ [->| ->]%validate_phone_messages_B;
         (apply reportable_snoc; [done|]); by apply (bool_decide_unpack _). }
  apply (status_block_age_any reportable) in H as (acc5 & P5 & H); [|done| |].
  2: { apply reportable_snoc; [done|]. by apply (bool_decide_unpack _). }
  2: { intros arg m Hpos Hm.
       rewrite (validate_age_message_positive arg m Hpos Hm).
       apply reportable_snoc; [done|]. by apply (bool_decide_unpack _). }
  apply (status_block_any reportable) in H as (acc6 & P6 & H); [|done| |].
  2: { apply reportable_snoc; [done|]. by apply (bool_decide_unpack _). }
  2: { intros arg m Harg Hm.
       rewrite (validate_date_message_present arg m Harg Hm).
       apply reportable_snoc; [done|]. by apply (bool_decide_unpack _). }
  revert H. unfold bind, St.get, ret, lift.
  destruct (truthy _); [destruct (truthy _)|].
  - destruct (ge _ _) as [[]|]; [| |done]; intros [= <- _]; [|done].
    apply reportable_snoc; [done|]. by apply (bool_decide_unpack _).
  - by intros [= <- _].
  - by intros [= <- _].
Qed.

End Reported.

(** X18: whatever the session holds, a list that [get_validation_status]
    returns is made of thirteen messages only, and the session is as
    before.  The first message of [validate_age] and the first message
    of [validate_date] are never reported: the caller only validates an
    age that is positive and a date that is there. *)
Theorem get_validation_status_reports_known_messages
  (today : Z) (s s' : St.state) (messages : list str) :
  FormValidation2.get_validation_status today s = (Ok messages, s') ->
  reportable messages
  /\ (lit "Age must be greater than 0" ∉ messages)
  /\ (lit "Date is required" ∉ messages)
  /\ s' = s.
Proof.
  intros H. pose proof (get_validation_status_reportable today s _ _ H) as Hr.
  split; [done|]. unfold reportable in Hr. rewrite Forall_forall in Hr.
  split; [|split].
  - intros Hin%Hr. revert Hin. by apply (bool_decide_unpack _).
  - intros Hin%Hr. revert Hin. by apply (bool_decide_unpack _).
  - assert (Hro : read_only (FormValidation2.get_validation_status today)).
    { unfold FormValidation2.get_validation_status. repeat read_only_step. }
    specialize (Hro s). by rewrite H in Hro.
Qed.

(** On the session before the first run the six messages returned are
    among the thirteen, and the first message of [validate_age] is not
    one of them. *)
Lemma get_validation_status_reports_known_messages_witness :
  FormValidation2.get_validation_status Scenario.today Scenario.fresh
  = (Ok [lit "First name is required"; lit "Last name is required";
         lit "Email is required"; lit "Phone number is required";
         lit "Age is required"; lit "Birth date is required"],
     Scenario.fresh)
  /\ (lit "Age must be greater than 0"
      ∉ [lit "First name is required"; lit "Last name is required";
         lit "Email is required"; lit "Phone number is required";
         lit "Age is required"; lit "Birth date is required"]).
Proof.
  assert (H : FormValidation2.get_validation_status Scenario.today
                Scenario.fresh
              = (Ok [lit "First name is required"; lit "Last name is required";
                     lit "Email is required"; lit "Phone number is required";
                     lit "Age is required"; lit "Birth date is required"],
                 Scenario.fresh)) by reflexivity.
  split; [exact H|].
  exact (proj1 (proj2 (get_validation_status_reports_known_messages
                         Scenario.today Scenario.fresh Scenario.fresh _ H))).
Defined.

(** X19: while the four text fields are empty and the age is zero, the
    widgets of variant B show no message for these five fields, only the
    feedback of the birth date and of the date range; their five flags
    are false, and [get_validation_status] reports each of the five as
    required. *)
Theorem untouched_fields_show_no_error
  (today : Z) (w : FormValidation2.widgets) (s : St.state) :
  FormValidation2.first_name w = [] ->
  FormValidation2.last_name w = [] ->
  FormValidation2.email w = [] ->
  FormValidation2.phone w = [] ->
  FormValidation2.age w = 0%Z ->
  exists s',
    FormValidation2.edit_fields today w s = (Ok tt, s')
    /\ St.screen s'
       = St.screen s
         ++ [if (FormValidation2.birth_date w <=? today)%Z
             then St.Success (lit "Valid birth date!")
             else St.Error (lit "Date cannot be in the future");
             if (FormValidation2.start_date w <? FormValidation2.end_date w)%Z
             then St.Success (lit "Valid date range!")
             else St.Error (lit "Start date must be before end date")]
    /\ (forall k,
          k ∈ ["first_name_valid"; "last_name_valid"; "email_valid";
               "phone_valid"; "age_valid"] ->
          St.store s' !! k = Some (VBool false))
    /\ exists rest,
         FormValidation2.get_validation_status today s'
         = (Ok ([lit "First name is required"; lit "Last name is required";
                 lit "Email is required"; lit "Phone number is required";
                 lit "Age is required"] ++ rest), s').
Proof.
  intros H1 H2 H3 H4 H5.
  assert (Hrun : FormValidation2.edit_fields today w s
                 = (Ok tt,
                    {| St.store :=
                         FormValidation2.edited_store today w (St.store s);
                       St.screen :=
                         St.screen s
                         ++ [if (FormValidation2.birth_date w <=? today)%Z
                             then St.Success (lit "Valid birth date!")
                             else St.Error (lit "Date cannot be in the future");
                             if (FormValidation2.start_date w
                                 <? FormValidation2.end_date w)%Z
                             then St.Success (lit "Valid date range!")
                             else St.Error
                                    (lit "Start date must be before end date")]
                    |})).
  { unfold FormValidation2.edit_fields, FormValidation2.edited_store.
    rewrite H1, H2, H3, H4, H5. destruct s as [d scr].
    unfold bind, St.keyed_widget, St.set, St.with_store, lift, ret.
    cbn [truthy truthy_str negb andb St.store St.screen Z.eqb gt compare
         rbind Z.compare].
    rewrite validate_date_rules_B_date, ge_dates.
    unfold first_violation, FormValidation2.date_rules.
    cbn [List.find fst bool_decide negb].
    rewrite bool_decide_true by (by eexists). cbn [negb].
    rewrite Z.gtb_ltb, Z.leb_antisym.
    destruct (today <? FormValidation2.birth_date w)%Z;
      destruct (FormValidation2.start_date w <? FormValidation2.end_date w)%Z;
      cbn; unfold St.error, St.success, St.show; cbn;
      by rewrite <- ?app_assoc. }
  eexists. split; [exact Hrun|]. cbn [St.store St.screen].
  split; [done|].
  pose proof (holds_edited_store today w (St.store s)) as Hheld.
  split.
  - intros k Hk. apply held_lookups in Hheld.
    destruct Hheld as (_ & F1 & _ & F2 & _ & F3 & _ & F4 & _ & F5 & _).
    rewrite H1, H2, H3, H4, H5 in *.
    repeat (apply elem_of_cons in Hk as [->|Hk]; [done|]).
    by apply elem_of_nil in Hk.
  - match goal with
    | |- context [FormValidation2.get_validation_status today ?s'] =>
        rewrite (get_validation_status_held today w s' Hheld)
    end.
    unfold FormValidation2.outstanding. rewrite H1, H2, H3, H4, H5.
    eexists. reflexivity.
Qed.

(** The form in which nothing was entered, on the day of the scenarios: the
    birth date is valid and the date range, start and end being today,
    is not. *)
Lemma untouched_fields_show_no_error_witness :
  FormValidation2.first_name LiveScenario.blank = []
  /\ FormValidation2.last_name LiveScenario.blank = []
  /\ FormValidation2.email LiveScenario.blank = []
  /\ FormValidation2.phone LiveScenario.blank = []
  /\ FormValidation2.age LiveScenario.blank = 0%Z
  /\ exists s',
       FormValidation2.edit_fields Scenario.today LiveScenario.blank
         Scenario.fresh
       = (Ok tt, s')
       /\ St.screen s'
          = [St.Success (lit "Valid birth date!");
             St.Error (lit "Start date must be before end date")].
Proof.
  do 5 (split; [reflexivity|]).
  destruct (untouched_fields_show_no_error Scenario.today LiveScenario.blank
              Scenario.fresh eq_refl eq_refl eq_refl eq_refl eq_refl)
    as (s' & Hrun & Hscreen & _).
  exists s'. split; [exact Hrun|]. exact Hscreen.
Defined.

(** ** The sidebar and the validation column *)

Section SidebarRows.

Variable today : Z.
Variable strftime : Z -> str.
Variable str_of : value -> str.

Lemma is_valid_flag field s v :
  bool_decide (field ∈ ["Start Date"; "End Date"]) = false ->
  St.store s !! String.append (SidebarTable.field_key field) "_valid"
  = Some v ->
  SidebarTable.is_valid field s = (Ok (truthy v), s).
Proof.
  intros Hf Hv. unfold SidebarTable.is_valid. rewrite Hf.
  unfold bind, St.get, ret. by rewrite Hv.
Qed.

Lemma is_valid_range field s a b :
  bool_decide (field ∈ ["Start Date"; "End Date"]) = true ->
  St.store s !! "start_date" = Some (VDate a) ->
  St.store s !! "end_date" = Some (VDate b) ->
  SidebarTable.is_valid field s = (Ok (a <? b)%Z, s).
Proof.
  intros Hf Ha Hb. unfold SidebarTable.is_valid. rewrite Hf.
  unfold bind, St.get, ret, lift. rewrite Ha, Hb. cbn [truthy].
  by rewrite lt_dates.
Qed.

Lemma current_data_held w s :
  FormValidation2.holds_fields today w (St.store s) ->
  FormValidation2.current_data today s
  = (Ok [("First Name", VStr (FormValidation2.first_name w));
         ("Last Name", VStr (FormValidation2.last_name w));
         ("Email", VStr (FormValidation2.email w));
         ("Phone", VStr (FormValidation2.phone w));
         ("Age", VInt (FormValidation2.age w));
         ("Birth Date", VDate (FormValidation2.birth_date w));
         ("Start Date", VDate (FormValidation2.start_date w));
         ("End Date", VDate (FormValidation2.end_date w))], s).
Proof.
  intros H. apply held_lookups in H.
  destruct H as (H1 & F1 & H2 & F2 & H3 & F3 & H4 & F4 & H5 & F5 & H6 & F6
                 & H7 & F7 & H8 & F8).
  unfold FormValidation2.current_data, bind, St.get, ret.
  by rewrite H1, H2, H3, H4, H5, H6, H7, H8.
Qed.

Lemma add_rows_held w s :
  (forall t, str_of (VStr t) = t) ->
  FormValidation2.holds_fields today w (St.store s) ->
  SidebarTable.add_rows strftime str_of
    [("First Name", VStr (FormValidation2.first_name w));
     ("Last Name", VStr (FormValidation2.last_name w));
     ("Email", VStr (FormValidation2.email w));
     ("Phone", VStr (FormValidation2.phone w));
     ("Age", VInt (FormValidation2.age w));
     ("Birth Date", VDate (FormValidation2.birth_date w));
     ("Start Date", VDate (FormValidation2.start_date w));
     ("End Date", VDate (FormValidation2.end_date w))] [] s
  = (Ok (concat (map SidebarTable.render
                   (SidebarTable.rows_of today strftime str_of w))), s).
Proof.
  intros Hstr H. apply held_lookups in H.
  destruct H as (H1 & F1 & H2 & F2 & H3 & F3 & H4 & F4 & H5 & F5 & H6 & F6
                 & H7 & F7 & H8 & F8).
  cbn [SidebarTable.add_rows].
  rewrite (bind_ok _ _ _ _ _ (is_valid_flag "First Name" s _ eq_refl F1)).
  rewrite (bind_ok _ _ _ _ _ (is_valid_flag "Last Name" s _ eq_refl F2)).
  rewrite (bind_ok _ _ _ _ _ (is_valid_flag "Email" s _ eq_refl F3)).
  rewrite (bind_ok _ _ _ _ _ (is_valid_flag "Phone" s _ eq_refl F4)).
  rewrite (bind_ok _ _ _ _ _ (is_valid_flag "Age" s _ eq_refl F5)).
  rewrite (bind_ok _ _ _ _ _ (is_valid_flag "Birth Date" s _ eq_refl F6)).
  rewrite (bind_ok _ _ _ _ _
             (is_valid_range "Start Date" s _ _ eq_refl H7 H8)).
  rewrite (bind_ok _ _ _ _ _ (is_valid_range "End Date" s _ _ eq_refl H7 H8)).
  unfold ret. cbn [truthy SidebarTable.formatted_value].
  unfold SidebarTable.rows_of, SidebarTable.render.
  cbn [map concat]. rewrite !Hstr, app_nil_r, <- !app_assoc.
  by destruct (FormValidation2.age w =? 0)%Z.
Qed.

Lemma markdown_table_held w s :
  (forall t, str_of (VStr t) = t) ->
  FormValidation2.holds_fields today w (St.store s) ->
  SidebarTable.markdown_table today strftime str_of s
  = (Ok (SidebarTable.table_header
         ++ concat (map SidebarTable.render
                      (SidebarTable.rows_of today strftime str_of w))), s).
Proof.
  intros Hstr H. unfold SidebarTable.markdown_table.
  rewrite (bind_ok _ _ _ _ _ (current_data_held w s H)).
  by rewrite (bind_ok _ _ _ _ _ (add_rows_held w s Hstr H)).
Qed.

Lemma status_checked is_valid formatted_value :
  SidebarTable.status is_valid formatted_value = SidebarTable.checked
  <-> is_valid = true /\ formatted_value <> [].
Proof.
  unfold SidebarTable.status.
  destruct is_valid, formatted_value; cbn; split; try done;
    by intros [? ?].
Qed.

Lemma status_waiting is_valid formatted_value :
  SidebarTable.status is_valid formatted_value = SidebarTable.waiting
  <-> formatted_value = [].
Proof.
  unfold SidebarTable.status.
  by destruct is_valid, formatted_value.
Qed.

End SidebarRows.

Lemma fields_valid_verdicts today w :
  FormValidation2.fields_valid today w = true
  <-> verdict (FormValidation2.validate_name
                 (VStr (FormValidation2.first_name w)) (lit "First name"))
      = true
      /\ verdict (FormValidation2.validate_name
                    (VStr (FormValidation2.last_name w)) (lit "Last name"))
         = true
      /\ verdict (FormValidation2.validate_email
                    (VStr (FormValidation2.email w))) = true
      /\ verdict (FormValidation2.validate_phone
                    (VStr (FormValidation2.phone w))) = true
      /\ verdict (FormValidation2.validate_age
                    (VInt (FormValidation2.age w))) = true
      /\ verdict (FormValidation2.validate_date today
                    (VDate (FormValidation2.birth_date w))) = true.
Proof.
  unfold FormValidation2.fields_valid. rewrite !andb_true_iff. tauto.
Qed.

(** X20: on a session that holds the fields of the form, the table of the
    sidebar has one row per field, in the order of the form, with the
    formatted value and a mark.  Every row is checked exactly when
    [get_validation_status] has nothing to report; a row is waiting
    exactly when its formatted value is empty, which happens for an
    empty text field and for the age zero and never for a date.  The
    formatting functions are those of the interpreter: [str] is the
    identity on strings and never empty on a non-zero integer, and
    [strftime] never returns the empty string. *)
Theorem sidebar_marks_follow_validation
  (today : Z) (strftime : Z -> str) (str_of : value -> str)
  (w : FormValidation2.widgets) (s : St.state) :
  (forall t, str_of (VStr t) = t) ->
  (forall z, z <> 0%Z -> str_of (VInt z) <> []) ->
  (forall d, strftime d <> []) ->
  FormValidation2.holds_fields today w (St.store s) ->
  let rows := SidebarTable.rows_of today strftime str_of w in
  SidebarTable.markdown_table today strftime str_of s
  = (Ok (SidebarTable.table_header ++ concat (map SidebarTable.render rows)),
     s)
  /\ (Forall (fun r => SidebarTable.status r.2 r.1.2 = SidebarTable.checked)
        rows
      <-> FormValidation2.get_validation_status today s = (Ok [], s))
  /\ (forall r,
        r ∈ rows ->
        SidebarTable.status r.2 r.1.2 = SidebarTable.waiting
        <-> r.1.2 = [])
  /\ (Exists (fun r => SidebarTable.status r.2 r.1.2 = SidebarTable.waiting)
        rows
      <-> FormValidation2.first_name w = [] \/ FormValidation2.last_name w = []
          \/ FormValidation2.email w = [] \/ FormValidation2.phone w = []
          \/ FormValidation2.age w = 0%Z).
Proof.
  intros Hstr Hint Hdate Hheld rows. subst rows.
  split; [by apply markdown_table_held|]. split; [|split].
  - rewrite (get_validation_status_held today w s Hheld).
    assert (Hnil : (Ok (FormValidation2.outstanding today w), s)
                   = (Ok ([] : list str), s)
                   <-> FormValidation2.outstanding today w = [])
      by (split; [by intros [= ->] | by intros ->]).
    rewrite Hnil, outstanding_nil_iff, andb_true_iff, fields_valid_verdicts.
    unfold SidebarTable.rows_of.
    rewrite !Forall_cons, Forall_nil. cbn [fst snd].
    rewrite !status_checked.
    assert (Hage : verdict (FormValidation2.validate_age
                              (VInt (FormValidation2.age w))) = true ->
                   (if (FormValidation2.age w =? 0)%Z then []
                    else str_of (VInt (FormValidation2.age w))) <> []).
    { rewrite validate_age_rules_B, verdict_first_violation.
      unfold FormValidation2.age_rules. cbn [forallb fst].
      intros [Hpos%negb_true_iff%Z.leb_gt _]%andb_true_iff.
      destruct (Z.eqb_spec (FormValidation2.age w) 0); [lia|]. by apply Hint. }
    split.
    + intros ([? _] & [? _] & [? _] & [? _] & [? _] & [? _] & [? _] & _).
      done.
    + intros [(V1 & V2 & V3 & V4 & V5 & V6) V7].
      repeat split; try done; try apply Hdate; try (by apply Hage).
      * intros E. by rewrite E in V1.
      * intros E. by rewrite E in V2.
      * intros E. by rewrite E in V3.
      * intros E. by rewrite E in V4.
  - intros r _. apply status_waiting.
  - unfold SidebarTable.rows_of.
    rewrite !Exists_cons, Exists_nil. cbn [fst snd].
    rewrite !status_waiting.
    assert (Hage : (if (FormValidation2.age w =? 0)%Z then []
                    else str_of (VInt (FormValidation2.age w))) = []
                   <-> FormValidation2.age w = 0%Z).
    { destruct (Z.eqb_spec (FormValidation2.age w) 0); [done|].
      split; [|done]. intros E. by apply Hint in E. }
    rewrite Hage.
    pose proof (Hdate (FormValidation2.birth_date w)).
    pose proof (Hdate (FormValidation2.start_date w)).
    pose proof (Hdate (FormValidation2.end_date w)).
    tauto.
Qed.

(** The form in which nothing was entered, with a [strftime] and a [str]
    that are right on the values this form holds. *)
Lemma sidebar_marks_follow_validation_witness :
  let strftime := fun _ : Z => lit "2024-06-01" in
  let str_of := fun v => match v with VStr t => t | _ => lit "1" end in
  let s := {| St.store :=
                FormValidation2.edited_store Scenario.today
                  LiveScenario.blank ∅;
              St.screen := [] |} in
  (forall t, str_of (VStr t) = t)
  /\ (forall z, z <> 0%Z -> str_of (VInt z) <> [])
  /\ (forall d, strftime d <> [])
  /\ FormValidation2.holds_fields Scenario.today LiveScenario.blank
       (St.store s)
  /\ SidebarTable.markdown_table Scenario.today strftime str_of s
     = (Ok (SidebarTable.table_header
            ++ concat (map SidebarTable.render
                         (SidebarTable.rows_of Scenario.today strftime str_of
                            LiveScenario.blank))), s).
Proof.
  intros strftime str_of s.
  assert (H1 : forall t, str_of (VStr t) = t) by done.
  assert (H2 : forall z, z <> 0%Z -> str_of (VInt z) <> []) by done.
  assert (H3 : forall d, strftime d <> []) by done.
  assert (H4 : FormValidation2.holds_fields Scenario.today LiveScenario.blank
                 (St.store s)) by apply holds_edited_store.
  do 4 (split; [assumption|]).
  exact (proj1 (sidebar_marks_follow_validation Scenario.today strftime str_of
                  LiveScenario.blank s H1 H2 H3 H4)).
Defined.

(** X21: on a session that holds the fields of the form, the validation
    column shows its success line exactly when all the flags of the
    session are true, and otherwise its heading followed by the messages
    outstanding for what the widgets hold, each as a warning, of which
    there is at least one. *)
Theorem validation_column_follows_flags
  (today : Z) (w : FormValidation2.widgets) (s : St.state) :
  FormValidation2.holds_fields today w (St.store s) ->
  FormValidation2.validation_summary today s
  = (Ok tt,
     {| St.store := St.store s;
        St.screen :=
          St.screen s
          ++ (if FormValidation2.form_valid s
              then [St.Success (lit "All fields are valid! " ++ [10024%N])]
              else
                St.Error (lit "Fields needing attention:")
                :: map (fun m => St.Warning (FormValidation2.bullet ++ m))
                     (FormValidation2.outstanding today w)) |})
  /\ (FormValidation2.form_valid s = false ->
      FormValidation2.outstanding today w <> []).
Proof.
  intros H. rewrite (validation_summary_held today w s H).
  rewrite (form_valid_held today w s H).
  pose proof (outstanding_nil_iff today w) as Hnil.
  destruct (FormValidation2.outstanding today w) as [|m l].
  - by rewrite (proj1 Hnil eq_refl).
  - destruct (_ && _); [by destruct Hnil as [_ Hnil]; discriminate Hnil|].
    done.
Qed.

(** The form in which nothing was entered has messages outstanding. *)
Lemma validation_column_follows_flags_witness :
  let s := {| St.store :=
                FormValidation2.edited_store Scenario.today
                  LiveScenario.blank ∅;
              St.screen := [] |} in
  FormValidation2.holds_fields Scenario.today LiveScenario.blank (St.store s)
  /\ (FormValidation2.form_valid s = false ->
      FormValidation2.outstanding Scenario.today LiveScenario.blank <> []).
Proof.
  intros s.
  assert (H : FormValidation2.holds_fields Scenario.today LiveScenario.blank
                (St.store s)) by apply holds_edited_store.
  split; [exact H|].
  exact (proj2 (validation_column_follows_flags Scenario.today
                  LiveScenario.blank s H)).
Defined.

(* ===================================================================== *)
(** * Beyond the claims: the counter of the components tutorial           *)
(* ===================================================================== *)

Lemma counter_pressed (increment : bool) s n :
  St.store s !! "count" = Some (VInt n) ->
  bind
    (if increment then
       let* count := St.attr "count" in
       let* count := lift (ComponentsTutorial.add count (VInt 1)) in
       St.set "count" count
     else ret tt)
    (fun _ => St.attr "count") s
  = (Ok (VInt (n + of_bool increment)),
     St.with_store (insert "count" (VInt (n + of_bool increment))) s).
Proof.
  intros Hn. destruct s as [d scr]. cbn [St.store] in Hn.
  unfold bind, St.attr, St.set, St.with_store, ret, lift.
  destruct increment; cbn [of_bool St.store St.screen]; rewrite Hn.
  - cbn [ComponentsTutorial.add St.store St.screen].
    by rewrite lookup_insert_eq.
  - rewrite Z.add_0_r. by rewrite insert_id.
Qed.

Lemma session_counter_counts increment s n :
  St.store s !! "count" = Some (VInt n) ->
  ComponentsTutorial.session_counter increment s
  = (Ok (VInt (n + of_bool increment)),
     St.with_store (insert "count" (VInt (n + of_bool increment))) s).
Proof.
  intros Hn. unfold ComponentsTutorial.session_counter.
  rewrite ensure_key. rewrite (counter_pressed increment _ n).
  - destruct s as [d scr]. unfold St.with_store. cbn [St.store St.screen] in *.
    by rewrite Hn.
  - destruct s as [d scr]. unfold St.with_store. cbn [St.store St.screen] in *.
    by rewrite Hn.
Qed.

Lemma session_counter_starts increment s :
  St.store s !! "count" = None ->
  ComponentsTutorial.session_counter increment s
  = (Ok (VInt (of_bool increment)),
     St.with_store (insert "count" (VInt (of_bool increment))) s).
Proof.
  intros Hn. unfold ComponentsTutorial.session_counter.
  rewrite ensure_key. rewrite (counter_pressed increment _ 0).
  - destruct s as [d scr]. unfold St.with_store. cbn [St.store St.screen] in *.
    rewrite Hn. by rewrite insert_insert_eq.
  - destruct s as [d scr]. unfold St.with_store. cbn [St.store St.screen] in *.
    rewrite Hn. by rewrite lookup_insert_eq.
Qed.

Lemma session_counts presses s n written :
  St.store s !! "count" = Some (VInt n) ->
  ComponentsTutorial.session presses written s
  = (Ok match presses with
        | [] => written
        | _ => Some (VInt (n + Z.of_nat (length (List.filter id presses))))
        end,
     St.with_store
       (insert "count"
          (VInt (n + Z.of_nat (length (List.filter id presses))))) s).
Proof.
  revert s n written.
  induction presses as [|b presses IH]; intros s n written Hn.
  - cbn. unfold ret, St.with_store. rewrite Z.add_0_r, insert_id by done.
    by destruct s.
  - cbn [ComponentsTutorial.session].
    rewrite (bind_ok _ _ _ _ _ (session_counter_counts b s n Hn)).
    rewrite (IH _ (n + of_bool b)%Z).
    2: { cbn [St.with_store St.store]. by rewrite lookup_insert_eq. }
    unfold St.with_store. cbn [St.store St.screen].
    rewrite insert_insert_eq.
    assert (E : Z.of_nat (length (List.filter id (b :: presses)))
                = (of_bool b + Z.of_nat (length (List.filter id presses)))%Z)
      by (destruct b; cbn [List.filter id of_bool length]; lia).
    rewrite E, Z.add_assoc.
    destruct presses; [|done]. cbn [List.filter length Z.of_nat].
    by rewrite Z.add_0_r.
Qed.

(** X22: in a session that starts without a count, after any number of
    runs of [show_advanced_components] the count stored and the count
    written on the page are the number of runs that the Increment button
    started. *)
Theorem counter_counts_the_presses (presses : list bool) (s : St.state) :
  St.store s !! "count" = None ->
  presses <> [] ->
  let n := Z.of_nat (length (List.filter id presses)) in
  ComponentsTutorial.session presses None s
  = (Ok (Some (VInt n)), St.with_store (insert "count" (VInt n)) s).
Proof.
  intros Hnone Hne n. destruct presses as [|b presses]; [done|].
  cbn [ComponentsTutorial.session].
  pose proof (session_counter_starts b s Hnone) as Hfirst.
  rewrite (bind_ok _ _ _ _ _ Hfirst).
  rewrite (session_counts presses _ (of_bool b)).
  2: { cbn [St.with_store St.store]. by rewrite lookup_insert_eq. }
  unfold St.with_store. cbn [St.store St.screen]. rewrite insert_insert_eq.
  assert (E : n = (of_bool b + Z.of_nat (length (List.filter id presses)))%Z)
    by (subst n; destruct b; cbn [List.filter id of_bool length]; lia).
  rewrite E.
  destruct presses; [|done]. cbn [List.filter length Z.of_nat].
  by rewrite Z.add_0_r.
Qed.

(** Three runs, two of them started by the Increment button: the count is
    2. *)
Lemma counter_counts_the_presses_witness :
  St.store Scenario.fresh !! "count" = None
  /\ [true; false; true] <> []
  /\ ComponentsTutorial.session [true; false; true] None Scenario.fresh
     = (Ok (Some (VInt 2)),
        St.with_store (insert "count" (VInt 2)) Scenario.fresh).
Proof.
  assert (H1 : St.store Scenario.fresh !! "count" = None) by reflexivity.
  assert (H2 : [true; false; true] <> []) by discriminate.
  split; [exact H1|]. split; [exact H2|].
  exact (counter_counts_the_presses [true; false; true] Scenario.fresh H1 H2).
Defined.
